(** * iso-compliance-api: tenant scoping, partial updates, aggregates, D-day

    A shallow embedding of the routers of the compliance-tracking backend
    (app/routers/tasks.py, controls.py, documents.py, users.py, auth.py,
    organizations.py), of the request-scoped session of app/db/database.py,
    of StorageService of app/services/storage.py and of the JSON extraction
    of app/services/gemini.py, followed by the properties of the
    specification that they decide and by further properties of the
    handlers.

    Conventions of the embedding.
    - A raised Python exception is the [Raise] branch of [result]; handlers
      that touch the session pass the working copy of the store explicitly.
    - The relational store is a record of tables, a table is the list of its
      rows; [SELECT ... WHERE] is [filter].  The store's own evaluation of a
      statement (timestamp comparison, ILIKE, ORDER BY) is the engine's and is
      written out next to its first use.
    - The clock, fresh identifiers and the outcome of a call to the blob store
      are inputs of the handler that consumes them.
    - The engine is the input [Db.engine]: SQLite (the default of
      app/core/config.py) or MySQL.
    - A row of the store holds a timestamp as the handler wrote it.  The
      DateTime columns of SQLite and of MySQL keep the fields of a timestamp
      and not its zone: the engine compares and orders by the fields
      ([Db.sql_lt], [Db.sql_le], [TasksRouter.due_date_leb]), and a handler
      that computes with a timestamp it has selected gets it without zone
      ([Db.fetched]).  Where a handler only passes a row on, the zone of its
      timestamps is not represented. *)

From Stdlib Require Import ZArith Lia.
From Stdlib Require OrderedTypeEx.
From stdpp Require Import gmap strings list fin_maps pretty sorting.

Local Open Scope string_scope.
Local Open Scope Z_scope.
Local Open Scope list_scope.

(** ** Python values: exceptions, results *)

Module Py.

Inductive exn : Type :=
  | HTTPException (status_code : Z) (detail : string)
  | TypeError (msg : string)
  | AttributeError (msg : string)
  | IntegrityError (msg : string)
  | ClientError (msg : string)
  (* sqlalchemy.exc.OperationalError: the engine refuses a statement; the
     text of the message is the engine's *)
  | OperationalError
  (* pydantic_core.ValidationError, raised by the constructor of a model *)
  | PydanticValidationError
  | OtherError (msg : string).

Inductive result (A : Type) : Type :=
  | Ok (a : A)
  | Raise (e : exn).
Arguments Ok {A} a.
Arguments Raise {A} e.

Definition bind {A B} (r : result A) (k : A -> result B) : result B :=
  match r with
  | Ok a => k a
  | Raise e => Raise e
  end.

Definition is_ok {A} (r : result A) : bool :=
  match r with Ok _ => true | Raise _ => false end.

(* starlette.status *)
Definition HTTP_400_BAD_REQUEST : Z := 400.
Definition HTTP_401_UNAUTHORIZED : Z := 401.
Definition HTTP_403_FORBIDDEN : Z := 403.
Definition HTTP_404_NOT_FOUND : Z := 404.

Definition HTTP_422_UNPROCESSABLE_ENTITY : Z := 422.

(* The kinds of the specification's error taxonomy, read off the status code
   a router raises: 400 is raised only for an email that is already
   registered, 401 for a credential that does not verify, 403 for a missing
   admin role, 404 for a record that the scoped lookup does not find; 422 is
   the framework's answer to a malformed request. *)
Inductive error_kind : Type :=
  | Unauthenticated
  | Forbidden
  | NotFound
  | Conflict
  | ValidationError.

Definition kind_of (e : exn) : option error_kind :=
  match e with
  | HTTPException code _ =>
      if code =? HTTP_400_BAD_REQUEST then Some Conflict
      else if code =? HTTP_401_UNAUTHORIZED then Some Unauthenticated
      else if code =? HTTP_403_FORBIDDEN then Some Forbidden
      else if code =? HTTP_404_NOT_FOUND then Some NotFound
      else if code =? HTTP_422_UNPROCESSABLE_ENTITY then Some ValidationError
      else None
  | _ => None
  end.

(* [if s:] on an optional string: None and the empty string are falsy. *)
Definition truthy_str (s : option string) : bool :=
  match s with
  | Some v => negb (String.eqb v "")
  | None => false
  end.

(* a < b on two str: code point order, which on the bytes of UTF-8 text is
   the byte-wise lexicographic order *)
Definition str_lt (a b : string) : Prop := String.ltb a b = true.

(* sum(d.values()) for a dict of counters *)
Definition dict_sum (d : gmap string Z) : Z :=
  map_fold (fun _ v acc => v + acc) 0 d.

(* str(n) for an int, as an f-string renders it. *)
Definition str_int (n : Z) : string := pretty n.

End Py.
Export Py.

#[global] Instance result_bind : MBind result := fun A B k r => bind r k.
#[global] Instance result_ret : MRet result := fun A a => Ok a.

#[global] Instance exn_eq_dec : EqDecision exn.
Proof. solve_decision. Defined.

(** ** datetime and timedelta

    A [datetime] keeps the fields of Python's class.  The calendar date is
    held as its proleptic Gregorian ordinal, the value of [toordinal()];
    [replace] of the time fields and the subtraction of two datetimes only
    use the date through it.  [tzinfo] is [None] for a naive value and the
    fixed UTC offset of the zone otherwise ([timezone.utc] is offset zero).
    The bound on the ordinal (years 1 to 9999) is not represented. *)

Module Datetime.

Record timedelta : Type := mk_timedelta {
  days : Z;
  seconds : Z;
  microseconds : Z
}.

Definition US_PER_SECOND : Z := 1000000.
Definition US_PER_DAY : Z := 86400 * US_PER_SECOND.

Definition total_microseconds (t : timedelta) : Z :=
  (days t * 86400 + seconds t) * US_PER_SECOND + microseconds t.

(* timedelta(days, seconds, microseconds): the constructor normalises so that
   0 <= seconds < 86400 and 0 <= microseconds < 10^6; days takes the floor. *)
Definition timedelta_new (d s us : Z) : timedelta :=
  let total := (d * 86400 + s) * US_PER_SECOND + us in
  {| days := total / US_PER_DAY;
     seconds := (total mod US_PER_DAY) / US_PER_SECOND;
     microseconds := (total mod US_PER_DAY) mod US_PER_SECOND |}.

Definition timedelta_add (a b : timedelta) : timedelta :=
  timedelta_new (days a + days b) (seconds a + seconds b)
                (microseconds a + microseconds b).

Definition timedelta_sub (a b : timedelta) : timedelta :=
  timedelta_new (days a - days b) (seconds a - seconds b)
                (microseconds a - microseconds b).

Record datetime : Type := mk_datetime {
  toordinal : Z;
  hour : Z;
  minute : Z;
  second : Z;
  microsecond : Z;
  tzinfo : option timedelta
}.

Definition timezone_utc : timedelta := timedelta_new 0 0 0.

(* dt.replace(tzinfo=tz) *)
Definition replace_tzinfo (dt : datetime) (tz : timedelta) : datetime :=
  {| toordinal := toordinal dt; hour := hour dt; minute := minute dt;
     second := second dt; microsecond := microsecond dt; tzinfo := Some tz |}.

(* dt.replace(hour=h, minute=m, second=s, microsecond=us) *)
Definition replace_time (dt : datetime) (h m s us : Z) : datetime :=
  {| toordinal := toordinal dt; hour := h; minute := m; second := s;
     microsecond := us; tzinfo := tzinfo dt |}.

(* 1970-01-01 is day 719163. *)
Definition EPOCH_ORDINAL : Z := 719163.

(* datetime.now(timezone.utc), for a clock that reads [clock] microseconds
   since the epoch. *)
Definition now_utc (clock : Z) : datetime :=
  let rem := clock mod US_PER_DAY in
  {| toordinal := EPOCH_ORDINAL + clock / US_PER_DAY;
     hour := rem / (3600 * US_PER_SECOND);
     minute := (rem / (60 * US_PER_SECOND)) mod 60;
     second := (rem / US_PER_SECOND) mod 60;
     microsecond := rem mod US_PER_SECOND;
     tzinfo := Some timezone_utc |}.

End Datetime.
Export Datetime.

#[global] Instance timedelta_eq_dec : EqDecision timedelta.
Proof. solve_decision. Defined.
#[global] Instance datetime_eq_dec : EqDecision datetime.
Proof. solve_decision. Defined.

Module DatetimeOps.

(* datetime.__sub__(self, other) for a datetime [other]. *)
Definition datetime_sub (self other : datetime) : result timedelta :=
  let days1 := toordinal self in
  let days2 := toordinal other in
  let secs1 := second self + minute self * 60 + hour self * 3600 in
  let secs2 := second other + minute other * 60 + hour other * 3600 in
  let base := timedelta_new (days1 - days2) (secs1 - secs2)
                            (microsecond self - microsecond other) in
  match tzinfo self, tzinfo other with
  | None, None => Ok base
  | Some myoff, Some otoff =>
      if decide (myoff = otoff) then Ok base
      else Ok (timedelta_sub (timedelta_add base otoff) myoff)
  | _, _ =>
      Raise (TypeError "can't subtract offset-naive and offset-aware datetimes")
  end.

(* Comparison of the field tuples (date, hour, minute, second, microsecond). *)
Fixpoint tuple_cmp (a b : list Z) : comparison :=
  match a, b with
  | x :: a', y :: b' =>
      match Z.compare x y with
      | Eq => tuple_cmp a' b'
      | c => c
      end
  | [], [] => Eq
  | [], _ :: _ => Lt
  | _ :: _, [] => Gt
  end.

Definition fields (dt : datetime) : list Z :=
  [toordinal dt; hour dt; minute dt; second dt; microsecond dt].

(* bool(td): a timedelta is falsy exactly when it is zero. *)
Definition timedelta_bool (t : timedelta) : bool :=
  negb ((days t =? 0) && (seconds t =? 0) && (microseconds t =? 0)).

(* datetime._cmp(self, other), used by the ordering operators: values of one
   offset compare by fields, values of different offsets by the sign of
   their difference, a naive and an aware value do not compare. *)
Definition datetime_cmp (self other : datetime) : result comparison :=
  match tzinfo self, tzinfo other with
  | None, None => Ok (tuple_cmp (fields self) (fields other))
  | Some myoff, Some otoff =>
      if decide (myoff = otoff) then Ok (tuple_cmp (fields self) (fields other))
      else
        diff ← datetime_sub self other;
        if days diff <? 0 then Ok Lt
        else if timedelta_bool diff then Ok Gt else Ok Eq
  | _, _ =>
      Raise (TypeError "can't compare offset-naive and offset-aware datetimes")
  end.

(* self < other *)
Definition datetime_lt (self other : datetime) : result bool :=
  c ← datetime_cmp self other;
  Ok (match c with Lt => true | _ => false end).

(* The wall-clock reading of a value, in microseconds since day 0. *)
Definition local_micros (dt : datetime) : Z :=
  toordinal dt * US_PER_DAY
  + (hour dt * 3600 + minute dt * 60 + second dt) * US_PER_SECOND
  + microsecond dt.

(* The instant of a value on the UTC time line, in microseconds since the
   start of day 0; a naive value is read as UTC. *)
Definition utc_micros (dt : datetime) : Z :=
  let off := match tzinfo dt with
             | Some o => total_microseconds o
             | None => 0
             end in
  local_micros dt - off.

(* The UTC calendar day an instant falls on. *)
Definition utc_day (dt : datetime) : Z := utc_micros dt / US_PER_DAY.

Definition valid_time (dt : datetime) : Prop :=
  0 <= hour dt < 24 /\ 0 <= minute dt < 60 /\ 0 <= second dt < 60
  /\ 0 <= microsecond dt < US_PER_SECOND.

End DatetimeOps.
Export DatetimeOps.

(** ** app/routers/tasks.py: calculate_dday *)

Module Dday.

Definition calculate_dday (clock : Z) (due_date : option datetime)
  : result (option string * bool) :=
  match due_date with
  | None => Ok (None, false)
  | Some due_date =>
      let now := now_utc clock in
      let due := match tzinfo due_date with
                 | None => replace_tzinfo due_date timezone_utc
                 | Some _ => due_date
                 end in
      (* Reset time for comparison *)
      let now_date := replace_time now 0 0 0 0 in
      let due_date_only := replace_time due 0 0 0 0 in
      delta ← datetime_sub due_date_only now_date;
      let diff := days delta in
      if diff =? 0 then Ok (Some "D-Day", false)
      else if diff >? 0 then Ok (Some ("D-" +:+ str_int diff), false)
      else Ok (Some ("D+" +:+ str_int (Z.abs diff)), true)
  end.

(* The label the D-day rule gives to a day difference. *)
Definition dday_of_diff (diff : Z) : option string * bool :=
  if diff =? 0 then (Some "D-Day", false)
  else if diff >? 0 then (Some ("D-" +:+ str_int diff), false)
  else (Some ("D+" +:+ str_int (Z.abs diff)), true).

End Dday.
Export Dday.

(** ** app/models: enumerations and rows

    Each mapped class is a module holding the record of its columns.  A
    column declared [nullable=False] has the plain type, a nullable one an
    [option].  The timestamps of [TimestampMixin] are maintained by the
    server and no handler below reads them; they are left out.  Of the
    relationships, [OrganizationControl.control], which every query on
    organization controls loads, is a field of the row; [Task.assignee] and
    [Document.uploaded_by] are looked up in [Responses]; [Task.documents]
    takes part in the deletion of a task ([TasksRouter.db_delete]); the
    others are left out. *)

Module TaskStatus.
Inductive t : Type := TODO | IN_PROGRESS | REVIEW | DONE.
Definition value (s : t) : string :=
  match s with
  | TODO => "todo" | IN_PROGRESS => "in_progress"
  | REVIEW => "review" | DONE => "done"
  end.
End TaskStatus.

Module TaskPriority.
Inductive t : Type := LOW | MEDIUM | HIGH | URGENT.
Definition value (p : t) : string :=
  match p with
  | LOW => "low" | MEDIUM => "medium" | HIGH => "high" | URGENT => "urgent"
  end.
End TaskPriority.

Module ControlStatus.
Inductive t : Type :=
  NOT_STARTED | IN_PROGRESS | REVIEW_PENDING | COMPLETED | NOT_APPLICABLE.
Definition value (s : t) : string :=
  match s with
  | NOT_STARTED => "not_started" | IN_PROGRESS => "in_progress"
  | REVIEW_PENDING => "review_pending" | COMPLETED => "completed"
  | NOT_APPLICABLE => "not_applicable"
  end.
End ControlStatus.

Module UserRole.
Inductive t : Type := ADMIN | MANAGER | MEMBER.
Definition value (r : t) : string :=
  match r with
  | ADMIN => "admin" | MANAGER => "manager" | MEMBER => "member"
  end.
End UserRole.

Module ProfileType.
Inductive t : Type := STARTUP | SME | MIDSIZE | ENTERPRISE.
End ProfileType.

#[global] Instance TaskStatus_eq_dec : EqDecision TaskStatus.t.
Proof. solve_decision. Defined.
#[global] Instance TaskPriority_eq_dec : EqDecision TaskPriority.t.
Proof. solve_decision. Defined.
#[global] Instance ControlStatus_eq_dec : EqDecision ControlStatus.t.
Proof. solve_decision. Defined.
#[global] Instance UserRole_eq_dec : EqDecision UserRole.t.
Proof. solve_decision. Defined.
#[global] Instance ProfileType_eq_dec : EqDecision ProfileType.t.
Proof. solve_decision. Defined.

Module Organization.
Record t : Type := mk {
  id : string;
  name : string;
  profile_type : ProfileType.t
}.
End Organization.

Module User.
Record t : Type := mk {
  id : string;
  email : string;
  name : option string;
  password_hash : string;
  role : UserRole.t;
  organization_id : string
}.
End User.

Module Control.
Record t : Type := mk {
  id : string;
  control_id : string;
  name_en : string;
  name_ko : string;
  description_en : option string;
  description_ko : option string;
  category : string;
  category_name_en : string;
  category_name_ko : string
}.
End Control.

Module OrganizationControl.
Record t : Type := mk {
  id : string;
  organization_id : string;
  control_id : string;
  status : ControlStatus.t;
  is_applicable : bool;
  notes : option string;
  (* relationship("Control"): the catalogue row [control_id] refers to *)
  control : Control.t
}.
End OrganizationControl.

Module Task.
Record t : Type := mk {
  id : string;
  title : string;
  description : option string;
  status : TaskStatus.t;
  priority : TaskPriority.t;
  due_date : option datetime;
  recurring_rule : option string;
  organization_id : string;
  control_id : option string;
  assignee_id : option string
}.
End Task.

Module Document.
Record t : Type := mk {
  id : string;
  name : string;
  description : option string;
  file_key : string;
  file_size : Z;
  mime_type : string;
  version : Z;
  expires_at : option datetime;
  organization_id : string;
  control_id : option string;
  task_id : option string;
  uploaded_by_id : string
}.
End Document.

#[global] Instance Organization_eq_dec : EqDecision Organization.t.
Proof. solve_decision. Defined.
#[global] Instance User_eq_dec : EqDecision User.t.
Proof. solve_decision. Defined.
#[global] Instance Control_eq_dec : EqDecision Control.t.
Proof. solve_decision. Defined.
#[global] Instance OrganizationControl_eq_dec : EqDecision OrganizationControl.t.
Proof. solve_decision. Defined.
#[global] Instance Task_eq_dec : EqDecision Task.t.
Proof. solve_decision. Defined.
#[global] Instance Document_eq_dec : EqDecision Document.t.
Proof. solve_decision. Defined.

(** ** The store and the request-scoped session (app/db/database.py) *)

Module Db.

Record Store : Type := mk_store {
  organizations : list Organization.t;
  users : list User.t;
  organization_controls : list OrganizationControl.t;
  tasks : list Task.t;
  documents : list Document.t
}.

(* The authenticated principal that get_current_user hands to a handler. *)
Record CurrentUser : Type := mk_current_user {
  user_id : string;
  organization_id : string;
  role : string
}.

(* Result.scalar_one_or_none() *)
Definition scalar_one_or_none {A} (rows : list A) : result (option A) :=
  match rows with
  | [] => Ok None
  | [r] => Ok (Some r)
  | _ :: _ :: _ =>
      Raise (OtherError "Multiple rows were found when one or none was required")
  end.

(* get_db around the body that runs at its [yield]: the body works on the
   session's copy of the store; a body that returns is followed by commit, an
   exception from the body or from commit by rollback and re-raise.
   [commit_exn] is the exception commit raises, if it does. *)
Definition get_db {A} (body : Store -> result A * Store)
    (commit_exn : option exn) (committed : Store) : result A * Store :=
  let '(r, session) := body committed in
  match r with
  | Ok a =>
      match commit_exn with
      | None => (Ok a, session)
      | Some e => (Raise e, committed)
      end
  | Raise e => (Raise e, committed)
  end.

(* settings.DATABASE_TYPE: "sqlite", with the version of the SQLite library
   the driver runs on, or "mysql". *)
Inductive engine : Type :=
  | SQLite (major minor : Z)
  | MySQL.

(* IF(cond, a, b), which func.if_ renders, is a function of MySQL; SQLite has
   it from version 3.48 on. *)
Definition has_if (e : engine) : bool :=
  match e with
  | SQLite major minor => (3 <? major) || ((major =? 3) && (48 <=? minor))
  | MySQL => true
  end.

(* DateTime(timezone=True) on SQLite and on MySQL: the column keeps the
   fields of a timestamp and not its zone, so the value a SELECT hands to the
   handler has none. *)
Definition fetched (d : datetime) : datetime :=
  {| toordinal := toordinal d; hour := hour d; minute := minute d;
     second := second d; microsecond := microsecond d; tzinfo := None |}.

(* A task as result.scalars() hands it to the handler. *)
Definition fetched_task (t : Task.t) : Task.t :=
  {| Task.id := Task.id t; Task.title := Task.title t;
     Task.description := Task.description t; Task.status := Task.status t;
     Task.priority := Task.priority t;
     Task.due_date := fetched <$> Task.due_date t;
     Task.recurring_rule := Task.recurring_rule t;
     Task.organization_id := Task.organization_id t;
     Task.control_id := Task.control_id t;
     Task.assignee_id := Task.assignee_id t |}.

(* Timestamp comparison as the engine evaluates it in a WHERE clause.  The
   column holds the fields of the timestamp that was written, and the driver
   binds the parameter by its fields as well, whatever its zone: the engine
   compares the two wall-clock readings.  NULL compares to nothing, so a row
   with a NULL column is not selected. *)
Definition sql_lt (col : option datetime) (v : datetime) : bool :=
  match col with
  | Some d => local_micros d <? local_micros v
  | None => false
  end.

Definition sql_le (col : option datetime) (v : datetime) : bool :=
  match col with
  | Some d => local_micros d <=? local_micros v
  | None => false
  end.

(* column == value for a nullable column *)
Definition sql_eq (col : option string) (v : string) : bool :=
  match col with
  | Some c => String.eqb c v
  | None => false
  end.

(* [id] is the primary key of every table (UUIDMixin). *)
Definition primary_keys_unique (db : Store) : Prop :=
  NoDup (Organization.id <$> organizations db)
  /\ NoDup (User.id <$> users db)
  /\ NoDup (OrganizationControl.id <$> organization_controls db)
  /\ NoDup (Task.id <$> tasks db)
  /\ NoDup (Document.id <$> documents db).

(* users.email is declared unique. *)
Definition emails_unique (db : Store) : Prop :=
  NoDup (User.email <$> users db).

End Db.
Export Db.

#[global] Instance Store_eq_dec : EqDecision Store.
Proof. solve_decision. Defined.

(** ** Mapped objects and partial-update payloads

    Between the SELECT and the flush a handler holds a mapped object: its
    attributes by name, each holding whatever was last assigned to it.
    [setattr] assigns; the flush reads the columns back, and refuses a null
    in a NOT NULL column.  Foreign keys and column lengths are not checked
    (the default engine, SQLite, does not enforce them either). *)

Module PyObject.

Inductive value : Type :=
  | VNone
  | VStr (s : string)
  | VInt (n : Z)
  | VBool (b : bool)
  | VDatetime (d : datetime)
  | VTaskStatus (s : TaskStatus.t)
  | VTaskPriority (p : TaskPriority.t)
  | VControlStatus (s : ControlStatus.t)
  | VControl (c : Control.t).

Abbreviation object := (gmap string value).

Definition setattr (o : object) (name : string) (v : value) : object :=
  <[name := v]> o.

(* An Optional[...] value *)
Definition opt {A} (inj : A -> value) (x : option A) : value :=
  match x with
  | Some a => inj a
  | None => VNone
  end.

Definition as_str (v : value) : option string :=
  match v with VStr s => Some s | _ => None end.
Definition as_int (v : value) : option Z :=
  match v with VInt n => Some n | _ => None end.
Definition as_bool (v : value) : option bool :=
  match v with VBool b => Some b | _ => None end.
Definition as_datetime (v : value) : option datetime :=
  match v with VDatetime d => Some d | _ => None end.
Definition as_task_status (v : value) : option TaskStatus.t :=
  match v with VTaskStatus s => Some s | _ => None end.
Definition as_task_priority (v : value) : option TaskPriority.t :=
  match v with VTaskPriority p => Some p | _ => None end.
Definition as_control_status (v : value) : option ControlStatus.t :=
  match v with VControlStatus s => Some s | _ => None end.
Definition as_control (v : value) : option Control.t :=
  match v with VControl c => Some c | _ => None end.

(* The flush binding a nullable column from the attribute of that name. *)
Definition nullable {A} (proj : value -> option A) (name : string)
    (o : object) : result (option A) :=
  match o !! name with
  | Some VNone => Ok None
  | Some v =>
      match proj v with
      | Some a => Ok (Some a)
      | None => Raise (OtherError ("unsupported value for column " +:+ name))
      end
  | None => Raise (AttributeError name)
  end.

(* The flush binding a NOT NULL column. *)
Definition not_null {A} (proj : value -> option A) (name : string)
    (o : object) : result A :=
  x ← nullable proj name o;
  match x with
  | Some a => Ok a
  | None => Raise (IntegrityError ("Column '" +:+ name +:+ "' cannot be null"))
  end.

End PyObject.
Export PyObject.

(** A field of an update schema is either absent from the request
    ([Unset]: [model_dump(exclude_unset=True)] drops it) or present with a
    value, which may be null ([Given None]). *)

Module Schema.

Inductive field (A : Type) : Type :=
  | Unset
  | Given (v : option A).
Arguments Unset {A}.
Arguments Given {A} v.

(* The entry of one field in model_dump(exclude_unset=True). *)
Definition dump {A} (name : string) (inj : A -> value) (f : field A)
  : list (string * value) :=
  match f with
  | Unset => []
  | Given v => [(name, opt inj v)]
  end.

(* for field, value in update_data.items(): setattr(obj, field, value) *)
Definition setattr_all (update_data : list (string * value)) (o : object)
  : object :=
  fold_left (fun o kv => setattr o (fst kv) (snd kv)) update_data o.

(* What a nullable column holds once a field has been applied to it. *)
Definition assigned {A} (f : field A) (before : option A) : option A :=
  match f with
  | Unset => before
  | Given v => v
  end.

(* What a NOT NULL column holds once a field with a value has been applied. *)
Definition assigned_value {A} (f : field A) (before : A) : A :=
  match f with
  | Given (Some v) => v
  | _ => before
  end.

(* What the flush makes of a NOT NULL column once a field has been applied
   to it. *)
Definition required {A} (name : string) (f : field A) (before : A) : result A :=
  match f with
  | Unset => Ok before
  | Given (Some v) => Ok v
  | Given None =>
      Raise (IntegrityError ("Column '" +:+ name +:+ "' cannot be null"))
  end.

(* The turns of the assignment loop that one field of the payload accounts
   for: none when it is unset, one setattr when it is given. *)
Definition setattr_field {A} (name : string) (inj : A -> value) (f : field A)
    (o : object) : object :=
  setattr_all (dump name inj f) o.

(* The field is present and null. *)
Definition given_null {A} (f : field A) : bool :=
  match f with
  | Given None => true
  | _ => false
  end.

End Schema.
Export Schema.

Module TaskUpdate.
Record t : Type := mk {
  title : field string;
  description : field string;
  status : field TaskStatus.t;
  priority : field TaskPriority.t;
  due_date : field datetime;
  control_id : field string;
  assignee_id : field string;
  recurring_rule : field string
}.

(* request.model_dump(exclude_unset=True), in the order of the fields *)
Definition model_dump_exclude_unset (r : t) : list (string * value) :=
  app (dump "title" VStr (title r))
  (app (dump "description" VStr (description r))
  (app (dump "status" VTaskStatus (status r))
  (app (dump "priority" VTaskPriority (priority r))
  (app (dump "due_date" VDatetime (due_date r))
  (app (dump "control_id" VStr (control_id r))
  (app (dump "assignee_id" VStr (assignee_id r))
       (dump "recurring_rule" VStr (recurring_rule r)))))))).

(* The partial update in the words of the specification: every field is
   either "leave unchanged" or "set to value". *)
Definition merge (r : t) (row : Task.t) : Task.t :=
  {| Task.id := Task.id row;
     Task.title := assigned_value (title r) (Task.title row);
     Task.description := assigned (description r) (Task.description row);
     Task.status := assigned_value (status r) (Task.status row);
     Task.priority := assigned_value (priority r) (Task.priority row);
     Task.due_date := assigned (due_date r) (Task.due_date row);
     Task.recurring_rule := assigned (recurring_rule r) (Task.recurring_rule row);
     Task.organization_id := Task.organization_id row;
     Task.control_id := assigned (control_id r) (Task.control_id row);
     Task.assignee_id := assigned (assignee_id r) (Task.assignee_id row) |}.

(* A NOT NULL column is given null. *)
Definition nulls_required (r : t) : bool :=
  given_null (title r) || given_null (status r) || given_null (priority r).
End TaskUpdate.

Module OrganizationControlUpdate.
Record t : Type := mk {
  status : field ControlStatus.t;
  is_applicable : field bool;
  notes : field string
}.

Definition model_dump_exclude_unset (r : t) : list (string * value) :=
  app (dump "status" VControlStatus (status r))
  (app (dump "is_applicable" VBool (is_applicable r))
       (dump "notes" VStr (notes r))).

Definition merge (r : t) (row : OrganizationControl.t) : OrganizationControl.t :=
  {| OrganizationControl.id := OrganizationControl.id row;
     OrganizationControl.organization_id :=
       OrganizationControl.organization_id row;
     OrganizationControl.control_id := OrganizationControl.control_id row;
     OrganizationControl.status :=
       assigned_value (status r) (OrganizationControl.status row);
     OrganizationControl.is_applicable :=
       assigned_value (is_applicable r) (OrganizationControl.is_applicable row);
     OrganizationControl.notes :=
       assigned (notes r) (OrganizationControl.notes row);
     OrganizationControl.control := OrganizationControl.control row |}.

Definition nulls_required (r : t) : bool :=
  given_null (status r) || given_null (is_applicable r).
End OrganizationControlUpdate.

Module DocumentUpdate.
Record t : Type := mk {
  name : field string;
  description : field string;
  expires_at : field datetime;
  control_id : field string;
  task_id : field string
}.

Definition model_dump_exclude_unset (r : t) : list (string * value) :=
  app (dump "name" VStr (name r))
  (app (dump "description" VStr (description r))
  (app (dump "expires_at" VDatetime (expires_at r))
  (app (dump "control_id" VStr (control_id r))
       (dump "task_id" VStr (task_id r))))).

Definition merge (r : t) (row : Document.t) : Document.t :=
  {| Document.id := Document.id row;
     Document.name := assigned_value (name r) (Document.name row);
     Document.description := assigned (description r) (Document.description row);
     Document.file_key := Document.file_key row;
     Document.file_size := Document.file_size row;
     Document.mime_type := Document.mime_type row;
     Document.version := Document.version row;
     Document.expires_at := assigned (expires_at r) (Document.expires_at row);
     Document.organization_id := Document.organization_id row;
     Document.control_id := assigned (control_id r) (Document.control_id row);
     Document.task_id := assigned (task_id r) (Document.task_id row);
     Document.uploaded_by_id := Document.uploaded_by_id row |}.

Definition nulls_required (r : t) : bool := given_null (name r).
End DocumentUpdate.

Module TaskObject.

(* The object the SELECT loads for a row. *)
Definition load (r : Task.t) : object :=
  <["id" := VStr (Task.id r)]>
  (<["title" := VStr (Task.title r)]>
  (<["description" := opt VStr (Task.description r)]>
  (<["status" := VTaskStatus (Task.status r)]>
  (<["priority" := VTaskPriority (Task.priority r)]>
  (<["due_date" := opt VDatetime (Task.due_date r)]>
  (<["recurring_rule" := opt VStr (Task.recurring_rule r)]>
  (<["organization_id" := VStr (Task.organization_id r)]>
  (<["control_id" := opt VStr (Task.control_id r)]>
  (<["assignee_id" := opt VStr (Task.assignee_id r)]> ∅))))))))).

(* The row the flush writes for an object. *)
Definition flush (o : object) : result Task.t :=
  id ← not_null as_str "id" o;
  title ← not_null as_str "title" o;
  description ← nullable as_str "description" o;
  status ← not_null as_task_status "status" o;
  priority ← not_null as_task_priority "priority" o;
  due_date ← nullable as_datetime "due_date" o;
  recurring_rule ← nullable as_str "recurring_rule" o;
  organization_id ← not_null as_str "organization_id" o;
  control_id ← nullable as_str "control_id" o;
  assignee_id ← nullable as_str "assignee_id" o;
  Ok {| Task.id := id; Task.title := title; Task.description := description;
        Task.status := status; Task.priority := priority;
        Task.due_date := due_date; Task.recurring_rule := recurring_rule;
        Task.organization_id := organization_id;
        Task.control_id := control_id; Task.assignee_id := assignee_id |}.

(* update_data = request.model_dump(exclude_unset=True)
   for field, value in update_data.items(): setattr(task, field, value) *)
Definition update (request : TaskUpdate.t) (task : object) : object :=
  let update_data := TaskUpdate.model_dump_exclude_unset request in
  setattr_all update_data task.

End TaskObject.

Module OrganizationControlObject.

Definition load (r : OrganizationControl.t) : object :=
  <["id" := VStr (OrganizationControl.id r)]>
  (<["organization_id" := VStr (OrganizationControl.organization_id r)]>
  (<["control_id" := VStr (OrganizationControl.control_id r)]>
  (<["status" := VControlStatus (OrganizationControl.status r)]>
  (<["is_applicable" := VBool (OrganizationControl.is_applicable r)]>
  (<["notes" := opt VStr (OrganizationControl.notes r)]>
  (<["control" := VControl (OrganizationControl.control r)]> ∅)))))).

Definition flush (o : object) : result OrganizationControl.t :=
  id ← not_null as_str "id" o;
  organization_id ← not_null as_str "organization_id" o;
  control_id ← not_null as_str "control_id" o;
  status ← not_null as_control_status "status" o;
  is_applicable ← not_null as_bool "is_applicable" o;
  notes ← nullable as_str "notes" o;
  control ← not_null as_control "control" o;
  Ok {| OrganizationControl.id := id;
        OrganizationControl.organization_id := organization_id;
        OrganizationControl.control_id := control_id;
        OrganizationControl.status := status;
        OrganizationControl.is_applicable := is_applicable;
        OrganizationControl.notes := notes;
        OrganizationControl.control := control |}.

Definition update (request : OrganizationControlUpdate.t) (control : object)
  : object :=
  let update_data := OrganizationControlUpdate.model_dump_exclude_unset request in
  setattr_all update_data control.

End OrganizationControlObject.

Module DocumentObject.

Definition load (r : Document.t) : object :=
  <["id" := VStr (Document.id r)]>
  (<["name" := VStr (Document.name r)]>
  (<["description" := opt VStr (Document.description r)]>
  (<["file_key" := VStr (Document.file_key r)]>
  (<["file_size" := VInt (Document.file_size r)]>
  (<["mime_type" := VStr (Document.mime_type r)]>
  (<["version" := VInt (Document.version r)]>
  (<["expires_at" := opt VDatetime (Document.expires_at r)]>
  (<["organization_id" := VStr (Document.organization_id r)]>
  (<["control_id" := opt VStr (Document.control_id r)]>
  (<["task_id" := opt VStr (Document.task_id r)]>
  (<["uploaded_by_id" := VStr (Document.uploaded_by_id r)]> ∅))))))))))).

Definition flush (o : object) : result Document.t :=
  id ← not_null as_str "id" o;
  name ← not_null as_str "name" o;
  description ← nullable as_str "description" o;
  file_key ← not_null as_str "file_key" o;
  file_size ← not_null as_int "file_size" o;
  mime_type ← not_null as_str "mime_type" o;
  version ← not_null as_int "version" o;
  expires_at ← nullable as_datetime "expires_at" o;
  organization_id ← not_null as_str "organization_id" o;
  control_id ← nullable as_str "control_id" o;
  task_id ← nullable as_str "task_id" o;
  uploaded_by_id ← not_null as_str "uploaded_by_id" o;
  Ok {| Document.id := id; Document.name := name;
        Document.description := description; Document.file_key := file_key;
        Document.file_size := file_size; Document.mime_type := mime_type;
        Document.version := version; Document.expires_at := expires_at;
        Document.organization_id := organization_id;
        Document.control_id := control_id; Document.task_id := task_id;
        Document.uploaded_by_id := uploaded_by_id |}.

Definition update (request : DocumentUpdate.t) (document : object) : object :=
  let update_data := DocumentUpdate.model_dump_exclude_unset request in
  setattr_all update_data document.

End DocumentObject.

(** ** app/routers/tasks.py *)

Module TasksRouter.

Definition with_tasks (db : Store) (rows : list Task.t) : Store :=
  {| organizations := organizations db; users := users db;
     organization_controls := organization_controls db;
     tasks := rows; documents := documents db |}.

(* select(Task).where(Task.id == task_id,
                      Task.organization_id == current_user["organization_id"]) *)
Definition select_task (db : Store) (task_id org_id : string) : list Task.t :=
  filter (fun t => String.eqb (Task.id t) task_id
                   && String.eqb (Task.organization_id t) org_id = true)
         (tasks db).

Definition not_found : exn := HTTPException HTTP_404_NOT_FOUND "Task not found".

Definition get_task (task_id : string) (current_user : CurrentUser)
    (db : Store) : result Task.t * Store :=
  match scalar_one_or_none
          (select_task db task_id (organization_id current_user)) with
  | Raise e => (Raise e, db)
  | Ok None => (Raise not_found, db)
  | Ok (Some task) => (Ok task, db)
  end.

(* UPDATE tasks SET ... WHERE tasks.id = :id *)
Definition write_task (row : Task.t) (rows : list Task.t) : list Task.t :=
  map (fun r => if String.eqb (Task.id r) (Task.id row) then row else r) rows.

Definition update_task (task_id : string) (request : TaskUpdate.t)
    (current_user : CurrentUser) (db : Store) : result Task.t * Store :=
  match scalar_one_or_none
          (select_task db task_id (organization_id current_user)) with
  | Raise e => (Raise e, db)
  | Ok None => (Raise not_found, db)
  | Ok (Some task) =>
      (* Update fields *)
      let task' := TaskObject.update request (TaskObject.load task) in
      match TaskObject.flush task' with
      | Raise e => (Raise e, db)
      | Ok row => (Ok row, with_tasks db (write_task row (tasks db)))
      end
  end.

(* DELETE FROM tasks WHERE tasks.id = :id *)
Definition remove_task (task : Task.t) (rows : list Task.t) : list Task.t :=
  filter (fun r => String.eqb (Task.id r) (Task.id task) = false) rows.

(* Task.documents = relationship("Document", back_populates="task") has no
   delete cascade: when the task is deleted, the unit of work loads the
   documents whose task_id is the id of the task, of whatever organization,
   and sets their task_id to NULL before it deletes the row. *)
Definition detach_documents (task : Task.t) (rows : list Document.t)
  : list Document.t :=
  map (fun d =>
         if sql_eq (Document.task_id d) (Task.id task)
         then {| Document.id := Document.id d;
                 Document.name := Document.name d;
                 Document.description := Document.description d;
                 Document.file_key := Document.file_key d;
                 Document.file_size := Document.file_size d;
                 Document.mime_type := Document.mime_type d;
                 Document.version := Document.version d;
                 Document.expires_at := Document.expires_at d;
                 Document.organization_id := Document.organization_id d;
                 Document.control_id := Document.control_id d;
                 Document.task_id := None;
                 Document.uploaded_by_id := Document.uploaded_by_id d |}
         else d)
      rows.

(* await db.delete(task), as the flush carries it out *)
Definition db_delete (task : Task.t) (db : Store) : Store :=
  {| organizations := organizations db; users := users db;
     organization_controls := organization_controls db;
     tasks := remove_task task (tasks db);
     documents := detach_documents task (documents db) |}.

Definition delete_task (task_id : string) (current_user : CurrentUser)
    (db : Store) : result string * Store :=
  match scalar_one_or_none
          (select_task db task_id (organization_id current_user)) with
  | Raise e => (Raise e, db)
  | Ok None => (Raise not_found, db)
  | Ok (Some task) => (Ok "Task deleted successfully", db_delete task db)
  end.

Record TaskListResponse : Type := mk_response {
  resp_tasks : list Task.t;
  total : Z;
  by_status : gmap string Z;
  by_priority : gmap string Z;
  overdue_count : Z
}.

(* d[key] = d.get(key, 0) + 1 *)
Definition incr (d : gmap string Z) (key : string) : gmap string Z :=
  <[key := default 0 (d !! key) + 1]> d.

(* task.due_date and task.due_date < now and task.status != TaskStatus.DONE *)
Definition overdue_test (now : datetime) (task : Task.t) : result bool :=
  match Task.due_date task with
  | None => Ok false
  | Some due =>
      earlier ← datetime_lt due now;
      if (earlier : bool) then Ok (bool_decide (Task.status task ≠ TaskStatus.DONE))
      else Ok false
  end.

(* Overdue, as the specification defines it for the listing: a due date that
   is set and earlier than now, and a status other than done. *)
Definition overdue (now : datetime) (task : Task.t) : bool :=
  match Task.due_date task with
  | Some due =>
      (utc_micros due <? utc_micros now)
      && bool_decide (Task.status task ≠ TaskStatus.DONE)
  | None => false
  end.

(* The body of [for task in tasks:], from the counters before a task to the
   counters after it. *)
Definition tally_task (now : datetime) (task : Task.t)
    (acc : gmap string Z * gmap string Z * Z)
  : result (gmap string Z * gmap string Z * Z) :=
  let '(by_status, by_priority, overdue_count) := acc in
  (* By status *)
  let status_key := TaskStatus.value (Task.status task) in
  let by_status := incr by_status status_key in
  (* By priority *)
  let priority_key := TaskPriority.value (Task.priority task) in
  let by_priority := incr by_priority priority_key in
  (* Overdue *)
  overdue ← overdue_test now task;
  Ok (by_status, by_priority,
      if (overdue : bool) then overdue_count + 1 else overdue_count).

Fixpoint tally (now : datetime) (tasks : list Task.t)
    (acc : gmap string Z * gmap string Z * Z)
  : result (gmap string Z * gmap string Z * Z) :=
  match tasks with
  | [] => Ok acc
  | task :: rest =>
      acc' ← tally_task now task acc;
      tally now rest acc'
  end.

(* order_by(Task.due_date.asc().nullslast()): the engine orders by what the
   column holds, the fields of the timestamp *)
Definition due_date_leb (a b : Task.t) : bool :=
  match Task.due_date a, Task.due_date b with
  | Some x, Some y => local_micros x <=? local_micros y
  | Some _, None => true
  | None, Some _ => false
  | None, None => true
  end.

Definition due_date_le (a b : Task.t) : Prop := due_date_leb a b = true.

Definition due_date_le_dec (a b : Task.t) : Decision (due_date_le a b) :=
  decide (due_date_leb a b = true).

Definition order_by_due_date (rows : list Task.t) : list Task.t :=
  @merge_sort _ due_date_le due_date_le_dec rows.

Section tasks_query.
(* column ILIKE pattern, the engine's operator *)
Variable ilike : string -> string -> bool.

Definition ilike_opt (col : option string) (pattern : string) : bool :=
  match col with
  | Some c => ilike c pattern
  | None => false
  end.

(* The WHERE clauses of the query, in the order the handler adds them. *)
Definition where_clause (now : datetime) (org_id : string)
    (status : option TaskStatus.t) (priority : option TaskPriority.t)
    (control_id assignee_id : option string) (overdue_only : bool)
    (search : option string) (t : Task.t) : bool :=
  String.eqb (Task.organization_id t) org_id
  && match status with
     | Some s => bool_decide (Task.status t = s)
     | None => true
     end
  && match priority with
     | Some p => bool_decide (Task.priority t = p)
     | None => true
     end
  && (if truthy_str control_id
      then sql_eq (Task.control_id t) (default "" control_id) else true)
  && (if truthy_str assignee_id
      then sql_eq (Task.assignee_id t) (default "" assignee_id) else true)
  && (if overdue_only
      then sql_lt (Task.due_date t) now
           && bool_decide (Task.status t ≠ TaskStatus.DONE)
      else true)
  && (if truthy_str search
      then let pattern := "%" +:+ default "" search +:+ "%" in
           ilike (Task.title t) pattern
           || ilike_opt (Task.description t) pattern
      else true).

Definition list_tasks (clock : Z)
    (status : option TaskStatus.t) (priority : option TaskPriority.t)
    (control_id assignee_id : option string) (overdue_only : bool)
    (search : option string) (current_user : CurrentUser) (db : Store)
  : result TaskListResponse :=
  let org_id := organization_id current_user in
  let now := now_utc clock in
  let tasks :=
    fetched_task
    <$> order_by_due_date
          (filter (fun t => where_clause now org_id status priority control_id
                              assignee_id overdue_only search t = true)
                  (tasks db)) in
  (* Calculate stats *)
  let empty : gmap string Z := ∅ in
  '(by_status, by_priority, overdue_count) ← tally now tasks (empty, empty, 0);
  Ok {| resp_tasks := tasks; total := Z.of_nat (length tasks);
        by_status := by_status; by_priority := by_priority;
        overdue_count := overdue_count |}.
End tasks_query.

End TasksRouter.

(** ** app/routers/controls.py *)

Module ControlsRouter.

Definition with_controls (db : Store) (rows : list OrganizationControl.t)
  : Store :=
  {| organizations := organizations db; users := users db;
     organization_controls := rows;
     tasks := tasks db; documents := documents db |}.

Definition select_control (db : Store) (control_id org_id : string)
  : list OrganizationControl.t :=
  filter (fun c => String.eqb (OrganizationControl.id c) control_id
                   && String.eqb (OrganizationControl.organization_id c) org_id
                   = true)
         (organization_controls db).

Definition not_found : exn :=
  HTTPException HTTP_404_NOT_FOUND "Control not found".

Definition get_control (control_id : string) (current_user : CurrentUser)
    (db : Store) : result OrganizationControl.t * Store :=
  match scalar_one_or_none
          (select_control db control_id (organization_id current_user)) with
  | Raise e => (Raise e, db)
  | Ok None => (Raise not_found, db)
  | Ok (Some control) => (Ok control, db)
  end.

Definition write_control (row : OrganizationControl.t)
    (rows : list OrganizationControl.t) : list OrganizationControl.t :=
  map (fun r => if String.eqb (OrganizationControl.id r)
                              (OrganizationControl.id row)
                then row else r) rows.

Definition update_control (control_id : string)
    (request : OrganizationControlUpdate.t) (current_user : CurrentUser)
    (db : Store) : result OrganizationControl.t * Store :=
  match scalar_one_or_none
          (select_control db control_id (organization_id current_user)) with
  | Raise e => (Raise e, db)
  | Ok None => (Raise not_found, db)
  | Ok (Some control) =>
      (* Update fields *)
      let control' :=
        OrganizationControlObject.update request
          (OrganizationControlObject.load control) in
      match OrganizationControlObject.flush control' with
      | Raise e => (Raise e, db)
      | Ok row =>
          (Ok row, with_controls db (write_control row (organization_controls db)))
      end
  end.

Record ControlListResponse : Type := mk_response {
  resp_controls : list OrganizationControl.t;
  total : Z;
  by_status : gmap string Z;
  by_category : gmap string Z
}.

Definition incr (d : gmap string Z) (key : string) : gmap string Z :=
  <[key := default 0 (d !! key) + 1]> d.

(* for ctrl in controls: d[key(ctrl)] = d.get(key(ctrl), 0) + 1 *)
Definition count_by (key : OrganizationControl.t -> string)
    (controls : list OrganizationControl.t) : gmap string Z :=
  fold_left (fun d ctrl => incr d (key ctrl)) controls ∅.

Section controls_query.
Variable ilike : string -> string -> bool.

Definition where_clause (org_id : string) (status : option ControlStatus.t)
    (category search : option string) (c : OrganizationControl.t) : bool :=
  let ctl := OrganizationControl.control c in
  String.eqb (OrganizationControl.organization_id c) org_id
  && match status with
     | Some s => bool_decide (OrganizationControl.status c = s)
     | None => true
     end
  && (if truthy_str category
      then String.eqb (Control.category ctl) (default "" category)
      else true)
  && (if truthy_str search
      then let pattern := "%" +:+ default "" search +:+ "%" in
           ilike (Control.name_ko ctl) pattern
           || ilike (Control.name_en ctl) pattern
           || ilike (Control.control_id ctl) pattern
      else true).

(* [if category:] and [if search:] each add query.join(Control).  With both
   the statement names the table controls twice in its FROM clause, which
   SQLite and MySQL refuse when db.execute sends it. *)
Definition list_controls (status : option ControlStatus.t)
    (category search : option string) (current_user : CurrentUser)
    (db : Store) : result ControlListResponse :=
  let org_id := organization_id current_user in
  if truthy_str category && truthy_str search then Raise OperationalError
  else
    let controls :=
      filter (fun c => where_clause org_id status category search c = true)
             (organization_controls db) in
    (* Calculate stats by status *)
    let by_status :=
      count_by (fun ctrl =>
                  ControlStatus.value (OrganizationControl.status ctrl))
               controls in
    (* Calculate stats by category *)
    let by_category :=
      count_by (fun ctrl =>
                  Control.category (OrganizationControl.control ctrl))
               controls in
    Ok {| resp_controls := controls; total := Z.of_nat (length controls);
          by_status := by_status; by_category := by_category |}.
End controls_query.

(* The value stored under a category while the controls are grouped. *)
Record CategoryData : Type := mk_data {
  data_category : string;
  data_category_name_en : string;
  data_category_name_ko : string;
  data_controls : list OrganizationControl.t;
  data_completed : Z
}.

Record ControlCategoryResponse : Type := mk_category {
  category : string;
  category_name_en : string;
  category_name_ko : string;
  controls : list OrganizationControl.t;
  cat_total : Z;
  completed : Z
}.

(* [categories] is a dict: its items in insertion order. *)
Definition categories_dict : Type := list (string * CategoryData).

Fixpoint dict_mem (cat : string) (d : categories_dict) : bool :=
  match d with
  | [] => false
  | (k, _) :: d' => String.eqb k cat || dict_mem cat d'
  end.

(* categories[cat] = f(categories[cat]) for a key that is present *)
Fixpoint dict_alter (f : CategoryData -> CategoryData) (cat : string)
    (d : categories_dict) : categories_dict :=
  match d with
  | [] => []
  | (k, v) :: d' =>
      if String.eqb k cat then (k, f v) :: d'
      else (k, v) :: dict_alter f cat d'
  end.

(* The body of [for ctrl in controls:] *)
Definition group_control (categories : categories_dict)
    (ctrl : OrganizationControl.t) : categories_dict :=
  let cat := Control.category (OrganizationControl.control ctrl) in
  let categories :=
    if dict_mem cat categories then categories
    else app categories
         [(cat, {| data_category := cat;
                   data_category_name_en :=
                     Control.category_name_en (OrganizationControl.control ctrl);
                   data_category_name_ko :=
                     Control.category_name_ko (OrganizationControl.control ctrl);
                   data_controls := [];
                   data_completed := 0 |})] in
  dict_alter
    (fun data =>
       {| data_category := data_category data;
          data_category_name_en := data_category_name_en data;
          data_category_name_ko := data_category_name_ko data;
          data_controls := app (data_controls data) [ctrl];
          data_completed :=
            if bool_decide (OrganizationControl.status ctrl
                            = ControlStatus.COMPLETED)
            then data_completed data + 1 else data_completed data |})
    cat categories.

(* What [categories] holds once the loop has gone through [controls]: one
   entry per category met, holding the controls of that category in the order
   met and the number of completed ones among them. *)
Definition grouped (controls : list OrganizationControl.t)
    (categories : categories_dict) : Prop :=
  NoDup categories.*1
  /\ (forall cat data, (cat, data) ∈ categories ->
        data_category data = cat
        /\ data_controls data
           = filter (fun c => Control.category (OrganizationControl.control c)
                              = cat) controls
        /\ data_controls data ≠ []
        /\ data_completed data
           = Z.of_nat (length (filter
               (fun c => OrganizationControl.status c = ControlStatus.COMPLETED)
               (data_controls data))))
  /\ (forall c, c ∈ controls ->
        Control.category (OrganizationControl.control c) ∈ categories.*1).

(* The order of two values under key=lambda x: x["category"]. *)
Definition category_lt (x y : CategoryData) : Prop :=
  str_lt (data_category x) (data_category y).

(* sorted(values, key=lambda x: x["category"]): a stable sort that places a
   value before the first one whose key is greater. *)
Fixpoint insert_sorted (x : CategoryData) (l : list CategoryData)
  : list CategoryData :=
  match l with
  | [] => [x]
  | y :: l' =>
      if String.ltb (data_category x) (data_category y) then x :: y :: l'
      else y :: insert_sorted x l'
  end.

Definition sorted_by_category (l : list CategoryData) : list CategoryData :=
  fold_left (fun acc x => insert_sorted x acc) l [].

Definition list_controls_by_category (current_user : CurrentUser) (db : Store)
  : list ControlCategoryResponse :=
  let org_id := organization_id current_user in
  let controls :=
    filter (fun c => String.eqb (OrganizationControl.organization_id c) org_id
                     = true)
           (organization_controls db) in
  (* Group by category *)
  let categories := fold_left group_control controls [] in
  (fun data =>
     {| category := data_category data;
        category_name_en := data_category_name_en data;
        category_name_ko := data_category_name_ko data;
        controls := data_controls data;
        cat_total := Z.of_nat (length (data_controls data));
        completed := data_completed data |})
  <$> sorted_by_category (snd <$> categories).

End ControlsRouter.

(** ** app/services/storage.py: StorageService.delete_file

    The bucket is the set of keys that hold an object.  What the S3 client
    does with a delete_object call is an input: it returns, it raises
    ClientError, or it raises some other exception. *)

Module Storage.

Inductive s3_reply : Type :=
  | S3Done
  | S3ClientError (msg : string)
  | S3Failure (e : exn).

Definition delete_file (reply : s3_reply) (file_key : string)
    (bucket : gset string) : result bool * gset string :=
  match reply with
  | S3Done =>
      (* logger.info(...); return True *)
      (Ok true, bucket ∖ {[file_key]})
  | S3ClientError _ =>
      (* except ClientError: logger.error(...); return False *)
      (Ok false, bucket)
  | S3Failure e => (Raise e, bucket)
  end.

End Storage.

(** ** app/routers/documents.py *)

Module DocumentsRouter.

Definition with_documents (db : Store) (rows : list Document.t) : Store :=
  {| organizations := organizations db; users := users db;
     organization_controls := organization_controls db;
     tasks := tasks db; documents := rows |}.

Definition select_document (db : Store) (document_id org_id : string)
  : list Document.t :=
  filter (fun d => String.eqb (Document.id d) document_id
                   && String.eqb (Document.organization_id d) org_id = true)
         (documents db).

Definition not_found : exn :=
  HTTPException HTTP_404_NOT_FOUND "Document not found".

Definition get_document (document_id : string) (current_user : CurrentUser)
    (db : Store) : result Document.t * Store :=
  match scalar_one_or_none
          (select_document db document_id (organization_id current_user)) with
  | Raise e => (Raise e, db)
  | Ok None => (Raise not_found, db)
  | Ok (Some document) => (Ok document, db)
  end.

Definition write_document (row : Document.t) (rows : list Document.t)
  : list Document.t :=
  map (fun r => if String.eqb (Document.id r) (Document.id row)
                then row else r) rows.

Definition update_document (document_id : string) (request : DocumentUpdate.t)
    (current_user : CurrentUser) (db : Store) : result Document.t * Store :=
  match scalar_one_or_none
          (select_document db document_id (organization_id current_user)) with
  | Raise e => (Raise e, db)
  | Ok None => (Raise not_found, db)
  | Ok (Some document) =>
      (* Update fields *)
      let document' :=
        DocumentObject.update request (DocumentObject.load document) in
      match DocumentObject.flush document' with
      | Raise e => (Raise e, db)
      | Ok row => (Ok row, with_documents db (write_document row (documents db)))
      end
  end.

Definition remove_document (document : Document.t) (rows : list Document.t)
  : list Document.t :=
  filter (fun r => String.eqb (Document.id r) (Document.id document) = false)
         rows.

(* The handler returns its result, the session's copy of the store and the
   bucket; the bucket is outside the transaction. *)
Definition delete_document (document_id : string) (current_user : CurrentUser)
    (reply : Storage.s3_reply) (bucket : gset string) (db : Store)
  : result string * Store * gset string :=
  match scalar_one_or_none
          (select_document db document_id (organization_id current_user)) with
  | Raise e => (Raise e, db, bucket)
  | Ok None => (Raise not_found, db, bucket)
  | Ok (Some document) =>
      (* Delete from storage *)
      match Storage.delete_file reply (Document.file_key document) bucket with
      | (Raise e, bucket') => (Raise e, db, bucket')
      | (Ok _, bucket') =>
          (* Delete from database *)
          (Ok "Document deleted successfully",
           with_documents db (remove_document document (documents db)),
           bucket')
      end
  end.

(* The request: delete_document under get_db. *)
Definition delete_document_request (document_id : string)
    (current_user : CurrentUser) (reply : Storage.s3_reply)
    (commit_exn : option exn) (bucket : gset string) (db : Store)
  : result string * Store * gset string :=
  let bucket' :=
    snd (delete_document document_id current_user reply bucket db) in
  (get_db (fun session =>
             fst (delete_document document_id current_user reply bucket session))
          commit_exn db,
   bucket').

End DocumentsRouter.

(** ** app/routers/auth.py: register

    app/schemas/auth.py and app/core/security.py are not among the sources:
    the request carries the four fields the handler reads, and the password
    hash and the two token constructors are parameters.  The identifiers
    [generate_uuid] draws for the two new rows and what the engine answers to
    each flush are inputs. *)

Module AuthRouter.

Record RegisterRequest : Type := mk_request {
  email : string;
  password : string;
  name : option string;
  organization_name : string
}.

Record TokenData : Type := mk_token_data {
  sub : string;
  td_email : string;
  td_organization_id : string;
  td_role : string
}.

Record TokenResponse : Type := mk_tokens {
  access_token : string;
  refresh_token : string
}.

(* What the [role] attribute of a User object holds: the handler assigns the
   str "admin"; a row loaded from the table holds a UserRole member.  The
   mapper stores an assigned value as it is. *)
Inductive role_attr : Type :=
  | RoleStr (s : string)
  | RoleMember (r : UserRole.t).

(* attr.value *)
Definition role_attr_value (a : role_attr) : result string :=
  match a with
  | RoleMember r => Ok (UserRole.value r)
  | RoleStr _ => Raise (AttributeError "'str' object has no attribute 'value'")
  end.

Definition with_organizations (db : Store) (rows : list Organization.t)
  : Store :=
  {| organizations := rows; users := users db;
     organization_controls := organization_controls db;
     tasks := tasks db; documents := documents db |}.

Definition with_users (db : Store) (rows : list User.t) : Store :=
  {| organizations := organizations db; users := rows;
     organization_controls := organization_controls db;
     tasks := tasks db; documents := documents db |}.

(* await db.flush(): the pending INSERT reaches the engine, which accepts it
   or raises. *)
Definition flush (engine_exn : option exn) (db_after : Store) : result Store :=
  match engine_exn with
  | None => Ok db_after
  | Some e => Raise e
  end.

Definition email_registered : exn :=
  HTTPException HTTP_400_BAD_REQUEST "Email already registered".

Section registration_handler.
Variable get_password_hash : string -> string.
Variable create_access_token : TokenData -> string.
Variable create_refresh_token : TokenData -> string.

Definition register (request : RegisterRequest)
    (organization_id user_id : string)
    (flush_organization flush_user : option exn) (db : Store)
  : result TokenResponse * Store :=
  (* Check if email already exists *)
  match scalar_one_or_none
          (filter (fun u => String.eqb (User.email u) (email request) = true)
                  (users db)) with
  | Raise e => (Raise e, db)
  | Ok (Some _) => (Raise email_registered, db)
  | Ok None =>
      (* Create organization *)
      let organization :=
        {| Organization.id := organization_id;
           Organization.name := organization_name request;
           Organization.profile_type := ProfileType.STARTUP |} in
      let db1 :=
        with_organizations db (app (organizations db) [organization]) in
      match flush flush_organization db1 with
      | Raise e => (Raise e, db)
      | Ok db1 =>
          (* Create user; role="admin" assigns a str (First user is admin),
             which the INSERT binds as the member ADMIN *)
          let user_role := RoleStr "admin" in
          let user :=
            {| User.id := user_id;
               User.email := email request;
               User.name := name request;
               User.password_hash := get_password_hash (password request);
               User.role := UserRole.ADMIN;
               User.organization_id := Organization.id organization |} in
          match flush flush_user (with_users db1 (app (users db1) [user])) with
          | Raise e => (Raise e, db1)
          | Ok db2 =>
              (* Generate tokens; "role": user.role.value reads the
                 attribute assigned above *)
              match role_attr_value user_role with
              | Raise e => (Raise e, db2)
              | Ok role_value =>
                  let token_data :=
                    {| sub := User.id user;
                       td_email := User.email user;
                       td_organization_id := Organization.id organization;
                       td_role := role_value |} in
                  (Ok {| access_token := create_access_token token_data;
                         refresh_token := create_refresh_token token_data |},
                   db2)
              end
          end
      end
  end.

(* POST /auth/register: the handler under get_db. *)
Definition register_request (request : RegisterRequest)
    (organization_id user_id : string)
    (flush_organization flush_user commit_exn : option exn) (db : Store)
  : result TokenResponse * Store :=
  get_db (register request organization_id user_id
                   flush_organization flush_user)
         commit_exn db.
End registration_handler.

End AuthRouter.

(** ** app/routers/organizations.py: get_organization_stats *)

Module OrganizationsRouter.

(* datetime.__add__(self, other) for a timedelta [other] *)
Definition datetime_add (self : datetime) (other : timedelta) : datetime :=
  let delta :=
    timedelta_add
      (timedelta_new (toordinal self)
                     (hour self * 3600 + minute self * 60 + second self)
                     (microsecond self))
      other in
  let hour' := seconds delta / 3600 in
  let rem := seconds delta mod 3600 in
  {| toordinal := days delta; hour := hour'; minute := rem / 60;
     second := rem mod 60; microsecond := microseconds delta;
     tzinfo := tzinfo self |}.

(* func.count(column) over the selected rows *)
Definition sql_count {A} (rows : list A) : Z := Z.of_nat (length rows).

(* func.sum(expr) over the selected rows: NULL when there is none *)
Definition sql_sum (values : list Z) : option Z :=
  match values with
  | [] => None
  | _ :: _ => Some (fold_right Z.add 0 values)
  end.

(* func.if_(cond, 1, 0) *)
Definition sql_if (cond : bool) : Z := if cond then 1 else 0.

(* [value or 0] *)
Definition or_zero (value : option Z) : Z :=
  match value with
  | Some v => if v =? 0 then 0 else v
  | None => 0
  end.

(* A document counts as expiring when its expiry is set and at most thirty
   days after now. *)
Definition expiring (now : datetime) (d : Document.t) : bool :=
  match Document.expires_at d with
  | Some e => utc_micros e <=? utc_micros now + 30 * US_PER_DAY
  | None => false
  end.

Record OrganizationStatsResponse : Type := mk_stats {
  total_controls : Z;
  completed_controls : Z;
  in_progress_controls : Z;
  not_started_controls : Z;
  total_tasks : Z;
  completed_tasks : Z;
  overdue_tasks : Z;
  total_documents : Z;
  expiring_documents : Z
}.

(* The first statement already holds func.if_: an engine without IF()
   refuses it. *)
Definition get_organization_stats (engine : Db.engine) (clock : Z)
    (current_user : CurrentUser) (db : Store)
  : result OrganizationStatsResponse :=
  let org_id := organization_id current_user in
  let now := now_utc clock in
  if negb (has_if engine) then Raise OperationalError else
  (* Control stats *)
  let control_rows :=
    filter (fun c => String.eqb (OrganizationControl.organization_id c) org_id
                     = true)
           (organization_controls db) in
  let control_sum (s : ControlStatus.t) :=
    sql_sum (map (fun c => sql_if (bool_decide (OrganizationControl.status c = s)))
                 control_rows) in
  (* Task stats *)
  let task_rows :=
    filter (fun t => String.eqb (Task.organization_id t) org_id = true)
           (tasks db) in
  let task_completed :=
    sql_sum (map (fun t => sql_if (bool_decide (Task.status t = TaskStatus.DONE)))
                 task_rows) in
  (* Overdue tasks *)
  let overdue_count :=
    sql_count
      (filter (fun t => String.eqb (Task.organization_id t) org_id
                        && bool_decide (Task.status t ≠ TaskStatus.DONE)
                        && sql_lt (Task.due_date t) now = true)
              (tasks db)) in
  (* Document stats *)
  let doc_total :=
    sql_count
      (filter (fun d => String.eqb (Document.organization_id d) org_id = true)
              (documents db)) in
  (* Expiring documents (within 30 days) *)
  let expiring_count :=
    sql_count
      (filter (fun d => String.eqb (Document.organization_id d) org_id
                        && bool_decide (Document.expires_at d ≠ None)
                        && sql_le (Document.expires_at d)
                                  (datetime_add now (timedelta_new 30 0 0))
                        = true)
              (documents db)) in
  Ok {| total_controls := or_zero (Some (sql_count control_rows));
        completed_controls := or_zero (control_sum ControlStatus.COMPLETED);
        in_progress_controls := or_zero (control_sum ControlStatus.IN_PROGRESS);
        not_started_controls := or_zero (control_sum ControlStatus.NOT_STARTED);
        total_tasks := or_zero (Some (sql_count task_rows));
        completed_tasks := or_zero task_completed;
        overdue_tasks := or_zero (Some overdue_count);
        total_documents := or_zero (Some doc_total);
        expiring_documents := or_zero (Some expiring_count) |}.

End OrganizationsRouter.

(** ** Sample values used by the examples below *)

Module Samples.

(* 2024-01-01T10:00:00Z *)
Definition clock : Z := 1704103200000000.

(* UTC+09:00 *)
Definition plus9 : timedelta := timedelta_new 0 32400 0.

(* 2024-01-02T10:00:00+09:00, which is 2024-01-02T01:00:00Z *)
Definition due_tomorrow_plus9 : datetime :=
  mk_datetime 738887 10 0 0 0 (Some plus9).

(* 2024-01-01T08:00:00, no zone: what the column holds for a due date
   written as 08:00 of that day *)
Definition due_today_naive : datetime := mk_datetime 738886 8 0 0 0 None.

Definition task (id org : string) (status : TaskStatus.t)
    (due : option datetime) : Task.t :=
  {| Task.id := id; Task.title := "Review access policy";
     Task.description := None; Task.status := status;
     Task.priority := TaskPriority.MEDIUM; Task.due_date := due;
     Task.recurring_rule := None; Task.organization_id := org;
     Task.control_id := None; Task.assignee_id := None |}.

Definition catalogue (id code category : string) : Control.t :=
  {| Control.id := id; Control.control_id := code;
     Control.name_en := "Policies for information security";
     Control.name_ko := "정보보호 정책";
     Control.description_en := None; Control.description_ko := None;
     Control.category := category;
     Control.category_name_en := "Organizational controls";
     Control.category_name_ko := "조직적 통제" |}.

Definition adoption (id org : string) (status : ControlStatus.t)
    (ctl : Control.t) : OrganizationControl.t :=
  {| OrganizationControl.id := id;
     OrganizationControl.organization_id := org;
     OrganizationControl.control_id := Control.id ctl;
     OrganizationControl.status := status;
     OrganizationControl.is_applicable := true;
     OrganizationControl.notes := Some "owner: security team";
     OrganizationControl.control := ctl |}.

(* The admin of each of the two sample organizations *)
Definition admin_of (org : string) : string :=
  if String.eqb org "org-beta" then "u-beta" else "u-acme".

Definition document (id org key : string) (expires : option datetime)
  : Document.t :=
  {| Document.id := id; Document.name := "policy.pdf";
     Document.description := Some "signed copy"; Document.file_key := key;
     Document.file_size := 2048; Document.mime_type := "application/pdf";
     Document.version := 1; Document.expires_at := expires;
     Document.organization_id := org; Document.control_id := None;
     Document.task_id := None; Document.uploaded_by_id := admin_of org |}.

Definition acme_admin : User.t :=
  {| User.id := "u-acme"; User.email := "a@acme.com"; User.name := Some "A";
     User.password_hash := "$2b$12$acme"; User.role := UserRole.ADMIN;
     User.organization_id := "org-acme" |}.

Definition beta_admin : User.t :=
  {| User.id := "u-beta"; User.email := "b@beta.com"; User.name := Some "B";
     User.password_hash := "$2b$12$beta"; User.role := UserRole.ADMIN;
     User.organization_id := "org-beta" |}.

Definition a51 : Control.t := catalogue "c-1" "A.5.1" "A.5".
Definition a61 : Control.t := catalogue "c-2" "A.6.1" "A.6".
Definition a52 : Control.t := catalogue "c-3" "A.5.2" "A.5".

(* Two tenants, Acme and Beta; the timestamps are as the tables hold them,
   without zone. *)
Definition store : Store :=
  {| organizations :=
       [ Organization.mk "org-acme" "Acme" ProfileType.STARTUP;
         Organization.mk "org-beta" "Beta" ProfileType.SME ];
     users := [acme_admin; beta_admin];
     organization_controls :=
       [ adoption "oc-1" "org-acme" ControlStatus.COMPLETED a61;
         adoption "oc-2" "org-acme" ControlStatus.IN_PROGRESS a51;
         adoption "oc-3" "org-beta" ControlStatus.NOT_STARTED a51;
         adoption "oc-4" "org-acme" ControlStatus.COMPLETED a52 ];
     tasks :=
       [ task "t-1" "org-acme" TaskStatus.TODO (Some due_today_naive);
         task "t-2" "org-acme" TaskStatus.DONE None;
         task "t-3" "org-beta" TaskStatus.IN_PROGRESS (Some due_today_naive) ];
     documents :=
       [ document "d-1" "org-acme" "org-acme/documents/20240101_000000_ab12cd34.pdf"
                  (Some due_today_naive);
         document "d-2" "org-beta" "org-beta/documents/20240101_000000_ef56ab78.pdf"
                  None ] |}.

(* PATCH {"status": "done", "description": null} *)
Definition mark_done : TaskUpdate.t :=
  {| TaskUpdate.title := Unset; TaskUpdate.description := Given None;
     TaskUpdate.status := Given (Some TaskStatus.DONE);
     TaskUpdate.priority := Unset; TaskUpdate.due_date := Unset;
     TaskUpdate.control_id := Unset; TaskUpdate.assignee_id := Unset;
     TaskUpdate.recurring_rule := Unset |}.

Definition signup (email : string) : AuthRouter.RegisterRequest :=
  {| AuthRouter.email := email; AuthRouter.password := "correct horse";
     AuthRouter.name := Some "C"; AuthRouter.organization_name := "Gamma" |}.

(* Stand-ins for the password hash and the token constructors. *)
Definition hash (password : string) : string := "$2b$12$" +:+ password.
Definition token (kind : string) (data : AuthRouter.TokenData) : string :=
  kind +:+ "." +:+ AuthRouter.sub data.

Definition as_acme : CurrentUser := mk_current_user "u-acme" "org-acme" "admin".
Definition as_beta : CurrentUser := mk_current_user "u-beta" "org-beta" "admin".

End Samples.

(** ** The session: INSERT of a new object, scalar_one *)

Module Session.

(* Result.scalar_one() *)
Definition scalar_one {A} (rows : list A) : result A :=
  match rows with
  | [r] => Ok r
  | [] => Raise (OtherError "No row was found when one was required")
  | _ :: _ :: _ =>
      Raise (OtherError "Multiple rows were found when exactly one was required")
  end.

(* db.add(obj); await db.flush() for a new object: the INSERT, which the
   primary key refuses when a row of the table already has the id that
   generate_uuid drew. *)
Definition insert {A} (key : A -> string) (table : string) (row : A)
    (rows : list A) : result (list A) :=
  if bool_decide (key row ∈ key <$> rows)
  then Raise (IntegrityError ("UNIQUE constraint failed: " +:+ table +:+ ".id"))
  else Ok (app rows [row]).

End Session.

(** ** app/schemas/task.py, app/schemas/document.py: what a response carries
    of a relationship

    Every query on tasks carries selectinload(Task.assignee) and every query
    on documents but two selectinload(Document.uploaded_by): a second SELECT
    on users by id, with no condition on the organization.  TaskResponse
    holds the assignee as Optional[AssigneeResponse], DocumentResponse the
    uploader as UploaderResponse, which is required. *)

Module Responses.

(* AssigneeResponse, UploaderResponse *)
Record UserBrief : Type := mk_brief {
  id : string;
  name : option string;
  email : string
}.

Definition brief (u : User.t) : UserBrief :=
  {| id := User.id u; name := User.name u; email := User.email u |}.

(* SELECT ... FROM users WHERE users.id IN (:id) *)
Definition user_by_id (db : Store) (id : string) : option User.t :=
  head (filter (fun u => String.eqb (User.id u) id = true) (users db)).

(* task.assignee *)
Definition assignee (db : Store) (t : Task.t) : option User.t :=
  match Task.assignee_id t with
  | Some id => user_by_id db id
  | None => None
  end.

(* document.uploaded_by *)
Definition uploaded_by (db : Store) (d : Document.t) : option User.t :=
  user_by_id db (Document.uploaded_by_id d).

(* TaskResponse: the columns of the task and its assignee *)
Record TaskResponse : Type := mk_task_response {
  task : Task.t;
  task_assignee : option UserBrief
}.

Definition task_response (db : Store) (t : Task.t) : TaskResponse :=
  {| task := t; task_assignee := brief <$> assignee db t |}.

(* DocumentResponse: the columns of the document and its uploader *)
Record DocumentResponse : Type := mk_document_response {
  document : Document.t;
  document_uploaded_by : UserBrief
}.

(* The validation of DocumentResponse from a Document: uploaded_by is not
   Optional, a document without uploader is refused. *)
Definition document_response (db : Store) (d : Document.t)
  : result DocumentResponse :=
  match uploaded_by db d with
  | Some u => Ok {| document := d; document_uploaded_by := brief u |}
  | None => Raise PydanticValidationError
  end.

End Responses.

(** ** app/routers/tasks.py: list_upcoming_tasks, create_task *)

Module TaskCreate.

(* TaskCreate(TaskBase) after validation, which fills in the defaults of the
   schema (status todo, priority medium, None for the rest). *)
Record t : Type := mk {
  title : string;
  description : option string;
  status : TaskStatus.t;
  priority : TaskPriority.t;
  due_date : option datetime;
  recurring_rule : option string;
  control_id : option string;
  assignee_id : option string
}.

End TaskCreate.

Module TaskHandlers.

(* TaskWithDdayResponse: the task with the two fields the handler sets *)
Record TaskWithDdayResponse : Type := mk_with_dday {
  task : Task.t;
  dday : option string;
  is_overdue : bool
}.

(* .where(Task.organization_id == org_id, Task.status != TaskStatus.DONE,
          Task.due_date.isnot(None), Task.due_date <= future) *)
Definition upcoming_clause (future : datetime) (org_id : string) (t : Task.t)
  : bool :=
  String.eqb (Task.organization_id t) org_id
  && bool_decide (Task.status t ≠ TaskStatus.DONE)
  && bool_decide (Task.due_date t ≠ None)
  && sql_le (Task.due_date t) future.

(* for task in tasks: ...; tasks_with_dday.append(task_dict)
   Every call of calculate_dday reads the clock again: [readings i] is what
   the clock reads at the call for the task at position [i]. *)
Fixpoint add_dday (readings : nat -> Z) (i : nat) (tasks : list Task.t)
  : result (list TaskWithDdayResponse) :=
  match tasks with
  | [] => Ok []
  | task :: rest =>
      '(dday, is_overdue) ← calculate_dday (readings i) (Task.due_date task);
      let task_dict :=
        {| task := task; dday := dday; is_overdue := is_overdue |} in
      tasks_with_dday ← add_dday readings (S i) rest;
      Ok (task_dict :: tasks_with_dday)
  end.

(* [days] has passed the validation of Query(default=7, ge=1, le=30). *)
Definition list_upcoming_tasks (days : Z) (clock : Z) (readings : nat -> Z)
    (current_user : CurrentUser) (db : Store)
  : result (list TaskWithDdayResponse) :=
  let org_id := organization_id current_user in
  let now := now_utc clock in
  let future := OrganizationsRouter.datetime_add now (timedelta_new days 0 0) in
  let tasks :=
    fetched_task
    <$> TasksRouter.order_by_due_date
          (filter (fun t => upcoming_clause future org_id t = true)
                  (tasks db)) in
  (* Add D-day info *)
  add_dday readings 0 tasks.

(* Task(organization_id=..., and the fields of request.model_dump()), with
   the id the column default draws at the flush *)
Definition new_task (request : TaskCreate.t) (id organization_id : string)
  : Task.t :=
  {| Task.id := id;
     Task.title := TaskCreate.title request;
     Task.description := TaskCreate.description request;
     Task.status := TaskCreate.status request;
     Task.priority := TaskCreate.priority request;
     Task.due_date := TaskCreate.due_date request;
     Task.recurring_rule := TaskCreate.recurring_rule request;
     Task.organization_id := organization_id;
     Task.control_id := TaskCreate.control_id request;
     Task.assignee_id := TaskCreate.assignee_id request |}.

Definition create_task (request : TaskCreate.t) (id : string)
    (current_user : CurrentUser) (db : Store) : result Task.t * Store :=
  let task := new_task request id (organization_id current_user) in
  match Session.insert Task.id "tasks" task (tasks db) with
  | Raise e => (Raise e, db)
  | Ok rows =>
      let db' := TasksRouter.with_tasks db rows in
      (* Reload with relationships *)
      (Session.scalar_one
         (filter (fun t => String.eqb (Task.id t) (Task.id task) = true)
                 (tasks db')),
       db')
  end.

(* The entry a counting loop leaves under a key that [n] of the counted rows
   have: none when there is no such row. *)
Definition counted (n : nat) : option Z :=
  match n with
  | O => None
  | S _ => Some (Z.of_nat n)
  end.

End TaskHandlers.

(** ** app/services/storage.py: generate_file_key, upload_file, presigned URLs

    Keys and file names are text; the functions below look only for the
    ASCII characters "." and "/", which occupy one byte of UTF-8 text and
    occur in no other character's encoding, so splitting the bytes splits
    the text at the same places. *)

Module StorageService.

Definition dot : Ascii.ascii := Ascii.ascii_of_nat 46.
Definition slash : Ascii.ascii := Ascii.ascii_of_nat 47.

(* [c in s] for a character [c] *)
Fixpoint contains (c : Ascii.ascii) (s : string) : bool :=
  match s with
  | EmptyString => false
  | String d rest => Ascii.eqb d c || contains c rest
  end.

(* The text after the last "." of [s], when [s] has one:
   s.rsplit(".", 1)[-1] under the guard ["." in s]. *)
Fixpoint after_last_dot (s : string) : option string :=
  match s with
  | EmptyString => None
  | String c rest =>
      match after_last_dot rest with
      | Some ext => Some ext
      | None => if Ascii.eqb c dot then Some rest else None
      end
  end.

(* [timestamp] is datetime.now().strftime("%Y%m%d_%H%M%S") and [unique_id]
   is str(uuid.uuid4())[:8], both drawn by the caller's environment. *)
Definition generate_file_key (timestamp unique_id : string)
    (organization_id filename folder : string) : string :=
  let extension := default "" (after_last_dot filename) in
  let safe_filename :=
    if negb (String.eqb extension "")
    then timestamp +:+ "_" +:+ unique_id +:+ "." +:+ extension
    else timestamp +:+ "_" +:+ unique_id in
  organization_id +:+ "/" +:+ folder +:+ "/" +:+ safe_filename.

(* upload_file: put_object stores the object under the key; a ClientError is
   logged and raised again. *)
Definition upload_file (reply : Storage.s3_reply) (file_key : string)
    (bucket : gset string) : result string * gset string :=
  match reply with
  | Storage.S3Done => (Ok file_key, bucket ∪ {[file_key]})
  | Storage.S3ClientError msg => (Raise (ClientError msg), bucket)
  | Storage.S3Failure e => (Raise e, bucket)
  end.

(* file_exists: head_object answers for the key, a ClientError reads as
   absent. *)
Definition file_exists (reply : Storage.s3_reply) : result bool :=
  match reply with
  | Storage.S3Done => Ok true
  | Storage.S3ClientError _ => Ok false
  | Storage.S3Failure e => Raise e
  end.

Section presigned.
(* settings.S3_BUCKET_NAME and the client's generate_presigned_url(operation,
   Params, ExpiresIn) *)
Variable S3_BUCKET_NAME : string.
Variable generate_presigned_url :
  string -> list (string * string) -> Z -> result string.

Definition get_presigned_upload_url (file_key content_type : string)
    (expires_in : Z) : result string :=
  generate_presigned_url "put_object"
    [("Bucket", S3_BUCKET_NAME); ("Key", file_key);
     ("ContentType", content_type)]
    expires_in.

(* f'attachment; filename="{filename}"' *)
Definition content_disposition (filename : string) : string :=
  let quote := String (Ascii.ascii_of_nat 34) EmptyString in
  "attachment; filename=" +:+ quote +:+ filename +:+ quote.

Definition get_presigned_download_url (file_key : string) (expires_in : Z)
    (filename : option string) : result string :=
  let params := [("Bucket", S3_BUCKET_NAME); ("Key", file_key)] in
  let params :=
    if truthy_str filename
    then app params
           [("ResponseContentDisposition",
             content_disposition (default "" filename))]
    else params in
  generate_presigned_url "get_object" params expires_in.
End presigned.

End StorageService.

(** ** app/routers/documents.py: list_documents, upload_document,
    get_presigned_upload_url, get_document_download_url *)

Module DocumentHandlers.

Record DocumentListResponse : Type := mk_list {
  resp_documents : list Document.t;
  total : Z;
  total_size : Z
}.

(* sum(doc.file_size for doc in documents) *)
Definition sum_file_size (documents : list Document.t) : Z :=
  fold_left (fun acc doc => acc + Document.file_size doc) documents 0.

(* UploadFile: the name and content type the client sent, and the bytes *)
Record UploadFile : Type := mk_upload {
  filename : option string;
  content_type : option string;
  content : string
}.

(* [a or b] for an optional and a plain str *)
Definition or_str (a : option string) (b : string) : string :=
  if truthy_str a then default "" a else b.

Record PresignedUploadResponse : Type := mk_presigned_upload {
  upload_url : string;
  pu_file_key : string;
  pu_expires_in : Z
}.

Record PresignedDownloadResponse : Type := mk_presigned_download {
  download_url : string;
  pd_expires_in : Z
}.

(* DocumentUploadResponse; upload_url keeps its default, None *)
Record DocumentUploadResponse : Type := mk_upload_response {
  ur_document : Responses.DocumentResponse;
  ur_upload_url : option string
}.

Section documents_query.
Variable ilike : string -> string -> bool.
(* Document.created_at, which the server sets when the row is inserted *)
Variable created_at : Document.t -> Z.

Definition ilike_opt (col : option string) (pattern : string) : bool :=
  match col with
  | Some c => ilike c pattern
  | None => false
  end.

Definition where_clause (org_id : string) (control_id task_id search
    : option string) (d : Document.t) : bool :=
  String.eqb (Document.organization_id d) org_id
  && (if truthy_str control_id
      then sql_eq (Document.control_id d) (default "" control_id) else true)
  && (if truthy_str task_id
      then sql_eq (Document.task_id d) (default "" task_id) else true)
  && (if truthy_str search
      then let pattern := "%" +:+ default "" search +:+ "%" in
           ilike (Document.name d) pattern
           || ilike_opt (Document.description d) pattern
      else true).

(* order_by(Document.created_at.desc()) *)
Definition created_at_ge (a b : Document.t) : Prop :=
  created_at b <= created_at a.

Definition order_by_created_at_desc (rows : list Document.t)
  : list Document.t :=
  @merge_sort _ created_at_ge (fun a b => decide (created_at b <= created_at a))
    rows.

Definition list_documents (control_id task_id search : option string)
    (current_user : CurrentUser) (db : Store) : DocumentListResponse :=
  let org_id := organization_id current_user in
  let documents :=
    order_by_created_at_desc
      (filter (fun d => where_clause org_id control_id task_id search d = true)
              (documents db)) in
  let total_size := sum_file_size documents in
  {| resp_documents := documents;
     total := Z.of_nat (length documents);
     total_size := total_size |}.
End documents_query.

(* Document(name=..., ..., uploaded_by_id=current_user["user_id"]); version
   takes the column default, expires_at is not set. *)
Definition new_document (file : UploadFile) (name description control_id
    task_id : option string) (file_key : string) (id : string)
    (current_user : CurrentUser) : Document.t :=
  {| Document.id := id;
     Document.name := or_str name (or_str (filename file) "Untitled");
     Document.description := description;
     Document.file_key := file_key;
     Document.file_size := Z.of_nat (String.length (content file));
     Document.mime_type :=
       or_str (content_type file) "application/octet-stream";
     Document.version := 1;
     Document.expires_at := None;
     Document.organization_id := organization_id current_user;
     Document.control_id := control_id;
     Document.task_id := task_id;
     Document.uploaded_by_id := user_id current_user |}.

(* The handler returns its result, the session's copy of the store and the
   bucket.  [timestamp] and [unique_id] are what generate_file_key draws,
   [id] the identifier of the new row, [reply] what the client answers to
   put_object.  The last step builds DocumentUploadResponse from the
   reloaded document, which needs its uploader: the users row with the id of
   the principal. *)
Definition upload_document (file : UploadFile)
    (name description control_id task_id : option string)
    (timestamp unique_id id : string) (reply : Storage.s3_reply)
    (current_user : CurrentUser) (bucket : gset string) (db : Store)
  : result DocumentUploadResponse * Store * gset string :=
  let org_id := organization_id current_user in
  (* Generate file key *)
  let file_key :=
    StorageService.generate_file_key timestamp unique_id org_id
      (or_str (filename file) "unknown") "documents" in
  (* Upload to storage *)
  match StorageService.upload_file reply file_key bucket with
  | (Raise e, bucket') => (Raise e, db, bucket')
  | (Ok _, bucket') =>
      (* Create document record *)
      let document :=
        new_document file name description control_id task_id file_key id
          current_user in
      match Session.insert Document.id "documents" document (documents db) with
      | Raise e => (Raise e, db, bucket')
      | Ok rows =>
          let db' := DocumentsRouter.with_documents db rows in
          (* Reload with relationships *)
          (reloaded ←
             Session.scalar_one
               (filter (fun d => String.eqb (Document.id d)
                                   (Document.id document) = true)
                       (documents db'));
           response ← Responses.document_response db' reloaded;
           Ok {| ur_document := response; ur_upload_url := None |},
           db', bucket')
      end
  end.

(* POST /documents/upload: the handler under get_db; the bucket is outside
   the transaction. *)
Definition upload_document_request (file : UploadFile)
    (name description control_id task_id : option string)
    (timestamp unique_id id : string) (reply : Storage.s3_reply)
    (commit_exn : option exn) (current_user : CurrentUser)
    (bucket : gset string) (db : Store)
  : result DocumentUploadResponse * Store * gset string :=
  let bucket' :=
    snd (upload_document file name description control_id task_id timestamp
           unique_id id reply current_user bucket db) in
  (get_db (fun session =>
             fst (upload_document file name description control_id task_id
                    timestamp unique_id id reply current_user bucket session))
          commit_exn db,
   bucket').

Section presigned_handlers.
Variable S3_BUCKET_NAME : string.
Variable generate_presigned_url :
  string -> list (string * string) -> Z -> result string.

Definition get_presigned_upload_url (filename content_type : string)
    (timestamp unique_id : string) (current_user : CurrentUser)
  : result PresignedUploadResponse :=
  let org_id := organization_id current_user in
  let file_key :=
    StorageService.generate_file_key timestamp unique_id org_id filename
      "documents" in
  upload_url ←
    StorageService.get_presigned_upload_url S3_BUCKET_NAME
      generate_presigned_url file_key content_type 3600;
  Ok {| upload_url := upload_url; pu_file_key := file_key;
        pu_expires_in := 3600 |}.

Definition get_document_download_url (document_id : string)
    (current_user : CurrentUser) (db : Store)
  : result PresignedDownloadResponse :=
  document ←
    scalar_one_or_none
      (DocumentsRouter.select_document db document_id
         (organization_id current_user));
  match document with
  | None => Raise DocumentsRouter.not_found
  | Some document =>
      download_url ←
        StorageService.get_presigned_download_url S3_BUCKET_NAME
          generate_presigned_url (Document.file_key document) 3600
          (Some (Document.name document));
      Ok {| download_url := download_url; pd_expires_in := 3600 |}
  end.
End presigned_handlers.

End DocumentHandlers.

(** ** app/routers/users.py and app/schemas/user.py *)

Module UserUpdate.

Record t : Type := mk {
  name : field string;
  role : field UserRole.t
}.

(* An entry of update_data: the field and the value to assign to it. *)
Inductive item : Type :=
  | Name (v : option string)
  | Role (v : option UserRole.t).

(* request.model_dump(exclude_unset=True), in the order of the fields *)
Definition model_dump_exclude_unset (r : t) : list item :=
  app (match name r with Unset => [] | Given v => [Name v] end)
      (match role r with Unset => [] | Given v => [Role v] end).

End UserUpdate.

Module UserObject.

(* The mapped object of a user: the two attributes the update schema can
   name hold whatever was last assigned, null included. *)
Record t : Type := mk {
  id : string;
  email : string;
  name : option string;
  password_hash : string;
  role : option UserRole.t;
  organization_id : string
}.

Definition load (r : User.t) : t :=
  {| id := User.id r; email := User.email r; name := User.name r;
     password_hash := User.password_hash r; role := Some (User.role r);
     organization_id := User.organization_id r |}.

(* setattr(user, field, value) *)
Definition setattr (o : t) (i : UserUpdate.item) : t :=
  match i with
  | UserUpdate.Name v =>
      {| id := id o; email := email o; name := v;
         password_hash := password_hash o; role := role o;
         organization_id := organization_id o |}
  | UserUpdate.Role v =>
      {| id := id o; email := email o; name := name o;
         password_hash := password_hash o; role := v;
         organization_id := organization_id o |}
  end.

(* The row the flush writes; users.role is NOT NULL. *)
Definition flush (o : t) : result User.t :=
  match role o with
  | None => Raise (IntegrityError "Column 'role' cannot be null")
  | Some r =>
      Ok {| User.id := id o; User.email := email o; User.name := name o;
            User.password_hash := password_hash o; User.role := r;
            User.organization_id := organization_id o |}
  end.

End UserObject.

Module UsersRouter.

Record UserListResponse : Type := mk_list {
  resp_users : list User.t;
  total : Z
}.

Definition not_found : exn := HTTPException HTTP_404_NOT_FOUND "User not found".

Definition forbidden : exn :=
  HTTPException HTTP_403_FORBIDDEN "Only admins can update users".

(* select(User).where(User.id == current_user["user_id"]) *)
Definition get_current_user_info (current_user : CurrentUser) (db : Store)
  : result User.t :=
  user ←
    scalar_one_or_none
      (filter (fun u => String.eqb (User.id u) (user_id current_user) = true)
              (users db));
  match user with
  | None => Raise not_found
  | Some user => Ok user
  end.

Definition list_organization_users (current_user : CurrentUser) (db : Store)
  : UserListResponse :=
  let users :=
    filter (fun u => String.eqb (User.organization_id u)
                                (organization_id current_user) = true)
           (users db) in
  {| resp_users := users; total := Z.of_nat (length users) |}.

Definition select_user (db : Store) (user_id org_id : string) : list User.t :=
  filter (fun u => String.eqb (User.id u) user_id
                   && String.eqb (User.organization_id u) org_id = true)
         (users db).

(* UPDATE users SET ... WHERE users.id = :id *)
Definition write_user (row : User.t) (rows : list User.t) : list User.t :=
  map (fun r => if String.eqb (User.id r) (User.id row) then row else r) rows.

Definition update_user (user_id : string) (request : UserUpdate.t)
    (current_user : CurrentUser) (db : Store) : result User.t * Store :=
  if negb (String.eqb (role current_user) "admin")
  then (Raise forbidden, db)
  else
    match scalar_one_or_none
            (select_user db user_id (organization_id current_user)) with
    | Raise e => (Raise e, db)
    | Ok None => (Raise not_found, db)
    | Ok (Some user) =>
        (* Update fields *)
        let update_data := UserUpdate.model_dump_exclude_unset request in
        let user' :=
          fold_left UserObject.setattr update_data (UserObject.load user) in
        match UserObject.flush user' with
        | Raise e => (Raise e, db)
        | Ok row =>
            (Ok row, AuthRouter.with_users db (write_user row (users db)))
        end
    end.

End UsersRouter.

(** ** app/routers/organizations.py: get_current_organization,
    update_organization; app/schemas/organization.py *)

Module OrganizationUpdate.

Record t : Type := mk {
  name : field string;
  profile_type : field ProfileType.t
}.

Inductive item : Type :=
  | Name (v : option string)
  | Profile (v : option ProfileType.t).

Definition model_dump_exclude_unset (r : t) : list item :=
  app (match name r with Unset => [] | Given v => [Name v] end)
      (match profile_type r with Unset => [] | Given v => [Profile v] end).

End OrganizationUpdate.

Module OrganizationObject.

Record t : Type := mk {
  id : string;
  name : option string;
  profile_type : option ProfileType.t
}.

Definition load (r : Organization.t) : t :=
  {| id := Organization.id r; name := Some (Organization.name r);
     profile_type := Some (Organization.profile_type r) |}.

Definition setattr (o : t) (i : OrganizationUpdate.item) : t :=
  match i with
  | OrganizationUpdate.Name v =>
      {| id := id o; name := v; profile_type := profile_type o |}
  | OrganizationUpdate.Profile v =>
      {| id := id o; name := name o; profile_type := v |}
  end.

(* Both columns are NOT NULL. *)
Definition flush (o : t) : result Organization.t :=
  match name o, profile_type o with
  | Some n, Some p =>
      Ok {| Organization.id := id o; Organization.name := n;
            Organization.profile_type := p |}
  | None, _ => Raise (IntegrityError "Column 'name' cannot be null")
  | _, None => Raise (IntegrityError "Column 'profile_type' cannot be null")
  end.

End OrganizationObject.

Module OrganizationHandlers.

Definition not_found : exn :=
  HTTPException HTTP_404_NOT_FOUND "Organization not found".

Definition forbidden : exn :=
  HTTPException HTTP_403_FORBIDDEN "Only admins can update organization".

(* select(Organization)
     .where(Organization.id == current_user["organization_id"]) *)
Definition select_organization (db : Store) (org_id : string)
  : list Organization.t :=
  filter (fun o => String.eqb (Organization.id o) org_id = true)
         (organizations db).

Definition get_current_organization (current_user : CurrentUser) (db : Store)
  : result Organization.t :=
  organization ←
    scalar_one_or_none
      (select_organization db (organization_id current_user));
  match organization with
  | None => Raise not_found
  | Some organization => Ok organization
  end.

Definition write_organization (row : Organization.t)
    (rows : list Organization.t) : list Organization.t :=
  map (fun r => if String.eqb (Organization.id r) (Organization.id row)
                then row else r) rows.

Definition update_organization (request : OrganizationUpdate.t)
    (current_user : CurrentUser) (db : Store)
  : result Organization.t * Store :=
  if negb (String.eqb (role current_user) "admin")
  then (Raise forbidden, db)
  else
    match scalar_one_or_none
            (select_organization db (organization_id current_user)) with
    | Raise e => (Raise e, db)
    | Ok None => (Raise not_found, db)
    | Ok (Some organization) =>
        (* Update fields *)
        let update_data := OrganizationUpdate.model_dump_exclude_unset request in
        let organization' :=
          fold_left OrganizationObject.setattr update_data
            (OrganizationObject.load organization) in
        match OrganizationObject.flush organization' with
        | Raise e => (Raise e, db)
        | Ok row =>
            (Ok row,
             AuthRouter.with_organizations db
               (write_organization row (organizations db)))
        end
    end.

End OrganizationHandlers.

(** ** app/routers/auth.py: login, refresh_token

    verify_password, decode_token and the two token constructors are those
    of app/core/security.py, which is not among the sources: they are
    parameters.  A decoded token is the dict of its claims. *)

Module AuthHandlers.

Record LoginRequest : Type := mk_login {
  email : string;
  password : string
}.

Definition incorrect_credentials : exn :=
  HTTPException HTTP_401_UNAUTHORIZED "Incorrect email or password".

Definition invalid_token_type : exn :=
  HTTPException HTTP_401_UNAUTHORIZED "Invalid token type".

Definition user_not_found : exn :=
  HTTPException HTTP_401_UNAUTHORIZED "User not found".

(* token_data = {"sub": user.id, "email": user.email,
                 "organization_id": user.organization_id,
                 "role": user.role.value} for a user loaded from the table *)
Definition token_data (user : User.t) : AuthRouter.TokenData :=
  {| AuthRouter.sub := User.id user;
     AuthRouter.td_email := User.email user;
     AuthRouter.td_organization_id := User.organization_id user;
     AuthRouter.td_role := UserRole.value (User.role user) |}.

Section token_handlers.
Variable verify_password : string -> string -> bool.
Variable create_access_token : AuthRouter.TokenData -> string.
Variable create_refresh_token : AuthRouter.TokenData -> string.
Variable decode_token : string -> result (gmap string string).

Definition tokens (user : User.t) : AuthRouter.TokenResponse :=
  {| AuthRouter.access_token := create_access_token (token_data user);
     AuthRouter.refresh_token := create_refresh_token (token_data user) |}.

Definition login (request : LoginRequest) (db : Store)
  : result AuthRouter.TokenResponse :=
  (* Find user *)
  user ←
    scalar_one_or_none
      (filter (fun u => String.eqb (User.email u) (email request) = true)
              (users db));
  match user with
  | None => Raise incorrect_credentials
  | Some user =>
      if negb (verify_password (password request) (User.password_hash user))
      then Raise incorrect_credentials
      else
        (* Generate tokens *)
        Ok (tokens user)
  end.

(* User.id == payload.get("sub"): a missing claim compares with NULL and
   selects nothing. *)
Definition id_is (sub : option string) (u : User.t) : bool :=
  match sub with
  | Some s => String.eqb (User.id u) s
  | None => false
  end.

Definition refresh_token (refresh_token : string) (db : Store)
  : result AuthRouter.TokenResponse :=
  payload ← decode_token refresh_token;
  if negb (bool_decide (payload !! "type" = Some "refresh"))
  then Raise invalid_token_type
  else
    (* Verify user still exists *)
    user ←
      scalar_one_or_none
        (filter (fun u => id_is (payload !! "sub") u = true) (users db));
    match user with
    | None => Raise user_not_found
    | Some user =>
        (* Generate new tokens *)
        Ok (tokens user)
    end.
End token_handlers.

End AuthHandlers.

(** ** The rows of one organization *)

Module Tenancy.

(* What the store holds for an organization: its own row and the rows of
   every table that carry its id. *)
Definition tenant_view (org_id : string) (db : Store) : Store :=
  {| organizations :=
       filter (fun o => String.eqb (Organization.id o) org_id = true)
              (organizations db);
     users :=
       filter (fun u => String.eqb (User.organization_id u) org_id = true)
              (users db);
     organization_controls :=
       filter (fun c => String.eqb (OrganizationControl.organization_id c)
                                   org_id = true)
              (organization_controls db);
     tasks :=
       filter (fun t => String.eqb (Task.organization_id t) org_id = true)
              (tasks db);
     documents :=
       filter (fun d => String.eqb (Document.organization_id d) org_id = true)
              (documents db) |}.

End Tenancy.

(** ** app/services/gemini.py: the JSON that analyze_document and
    suggest_tasks take out of the model's answer

    The answer of generate_text (None when the model is not available or
    the call fails) is an input, and so is json.loads.  The two functions
    look for ASCII brackets only; an index counts bytes here and code points
    in Python, which selects the same text, since the index of a bracket is
    used for nothing but the slice and the comparison with the other
    index. *)

Module GeminiService.

(* s.find(c) for a character c: the index of its first occurrence, -1 when
   there is none *)
Fixpoint find (c : Ascii.ascii) (s : string) : Z :=
  match s with
  | EmptyString => -1
  | String d rest =>
      if Ascii.eqb d c then 0
      else let i := find c rest in
           if i =? -1 then -1 else i + 1
  end.

(* s.rfind(c): the index of the last occurrence, -1 when there is none *)
Fixpoint rfind (c : Ascii.ascii) (s : string) : Z :=
  match s with
  | EmptyString => -1
  | String d rest =>
      let i := rfind c rest in
      if i =? -1 then (if Ascii.eqb d c then 0 else -1) else i + 1
  end.

(* s[start:end] for 0 <= start <= end <= len(s) *)
Definition slice (s : string) (start end_ : Z) : string :=
  String.substring (Z.to_nat start) (Z.to_nat (end_ - start)) s.

Definition left_brace : Ascii.ascii := Ascii.ascii_of_nat 123.
Definition right_brace : Ascii.ascii := Ascii.ascii_of_nat 125.
Definition left_bracket : Ascii.ascii := Ascii.ascii_of_nat 91.
Definition right_bracket : Ascii.ascii := Ascii.ascii_of_nat 93.

Section parsing.
(* The type of parsed JSON; json.loads, with None for an input on which it
   raises (the handlers catch the exception and return None). *)
Variable J : Type.
Variable json_loads : string -> option J.

(* start = response.find(opening); end = response.rfind(closing) + 1
   if start != -1 and end > start: return json.loads(response[start:end]) *)
Definition parse_json (opening closing : Ascii.ascii) (response : string)
  : option J :=
  let start := find opening response in
  let end_ := rfind closing response + 1 in
  if negb (start =? -1) && (end_ >? start)
  then json_loads (slice response start end_)
  else None.

Definition analyze_document (response : option string) : option J :=
  if truthy_str response
  then parse_json left_brace right_brace (default "" response)
  else None.

Definition suggest_tasks (response : option string) : option J :=
  if truthy_str response
  then parse_json left_bracket right_bracket (default "" response)
  else None.
End parsing.

End GeminiService.

(** ** Further sample values *)

Module Fixtures.

(* POST /tasks {"title": "Rotate keys", "priority": "high"} *)
Definition rotate_keys : TaskCreate.t :=
  {| TaskCreate.title := "Rotate keys"; TaskCreate.description := None;
     TaskCreate.status := TaskStatus.TODO;
     TaskCreate.priority := TaskPriority.HIGH;
     TaskCreate.due_date := None; TaskCreate.recurring_rule := None;
     TaskCreate.control_id := None; TaskCreate.assignee_id := None |}.

(* A member of Acme, and a PATCH that makes a user a manager. *)
Definition acme_member : CurrentUser :=
  mk_current_user "u-acme-2" "org-acme" "member".

Definition promote : UserUpdate.t :=
  {| UserUpdate.name := Unset;
     UserUpdate.role := Given (Some UserRole.MANAGER) |}.

Definition rename : OrganizationUpdate.t :=
  {| OrganizationUpdate.name := Given (Some "Acme Ltd");
     OrganizationUpdate.profile_type := Unset |}.

(* An upload of four bytes named report.final.pdf *)
Definition report : DocumentHandlers.UploadFile :=
  {| DocumentHandlers.filename := Some "report.final.pdf";
     DocumentHandlers.content_type := Some "application/pdf";
     DocumentHandlers.content := "%PDF" |}.

(* Stand-ins for verify_password and decode_token: a hash verifies the
   password it was made from by Samples.hash; the one token that decodes is
   a refresh token of Acme's admin. *)
Definition verify (password hash : string) : bool :=
  String.eqb (Samples.hash password) hash.

Definition decode (token : string) : result (gmap string string) :=
  if String.eqb token "refresh.u-acme"
  then Ok (<["type" := "refresh"]> (<["sub" := "u-acme"]> ∅))
  else Raise (HTTPException HTTP_401_UNAUTHORIZED
                "Could not validate credentials").

(* The sample store without the rows of Beta's tasks. *)
Definition store_without_beta_tasks : Store :=
  TasksRouter.with_tasks Samples.store
    [ Samples.task "t-1" "org-acme" TaskStatus.TODO
        (Some Samples.due_today_naive);
      Samples.task "t-2" "org-acme" TaskStatus.DONE None ].

(* POST /tasks {"title": "File the report",
               "due_date": "2024-01-01T18:00:00+09:00"}: due at 09:00 UTC *)
Definition due_evening_plus9 : datetime :=
  mk_datetime 738886 18 0 0 0 (Some Samples.plus9).

Definition file_report : TaskCreate.t :=
  {| TaskCreate.title := "File the report"; TaskCreate.description := None;
     TaskCreate.status := TaskStatus.TODO;
     TaskCreate.priority := TaskPriority.MEDIUM;
     TaskCreate.due_date := Some due_evening_plus9;
     TaskCreate.recurring_rule := None;
     TaskCreate.control_id := None; TaskCreate.assignee_id := None |}.

(* The sample store after Acme has created this task. *)
Definition store_with_report : Store :=
  snd (TaskHandlers.create_task file_report "t-4" Samples.as_acme
         Samples.store).

(* Beta uploads a document as evidence for the task t-1, which is Acme's:
   task_id is not checked against the organization. *)
Definition store_with_beta_evidence : Store :=
  snd (fst (DocumentHandlers.upload_document report None None None
              (Some "t-1") "20240102_090000" "0f1e2d3c" "d-3" Storage.S3Done
              Samples.as_beta ∅ Samples.store)).

(* Acme assigns its task t-2 to Beta's admin: assignee_id is not checked
   against the organization either.  Then Beta's admin changes their name. *)
Definition assign_to_beta : TaskUpdate.t :=
  {| TaskUpdate.title := Unset; TaskUpdate.description := Unset;
     TaskUpdate.status := Unset; TaskUpdate.priority := Unset;
     TaskUpdate.due_date := Unset; TaskUpdate.control_id := Unset;
     TaskUpdate.assignee_id := Given (Some "u-beta");
     TaskUpdate.recurring_rule := Unset |}.

Definition store_assigned_across : Store :=
  snd (TasksRouter.update_task "t-2" assign_to_beta Samples.as_acme
         Samples.store).

Definition call_me_bea : UserUpdate.t :=
  {| UserUpdate.name := Given (Some "Bea"); UserUpdate.role := Unset |}.

Definition store_assigned_across_renamed : Store :=
  snd (UsersRouter.update_user "u-beta" call_me_bea Samples.as_beta
         store_assigned_across).

(* 2023-12-31T23:59:59Z, the day before the sample clock reads *)
Definition due_yesterday : datetime :=
  mk_datetime 738885 23 59 59 0 (Some timezone_utc).

End Fixtures.

(** * Properties *)

(** ** Arithmetic of timedelta and datetime *)

Section datetime_facts.

Lemma US_PER_DAY_eq : US_PER_DAY = 86400000000.
Proof. reflexivity. Qed.

Lemma US_PER_SECOND_eq : US_PER_SECOND = 1000000.
Proof. reflexivity. Qed.

(* Normalisation keeps the duration. *)
Lemma total_timedelta_new d s us :
  total_microseconds (timedelta_new d s us)
  = (d * 86400 + s) * US_PER_SECOND + us.
Proof.
  unfold total_microseconds, timedelta_new; cbn [days seconds microseconds].
  set (total := (d * 86400 + s) * US_PER_SECOND + us).
  pose proof (Z.div_mod total US_PER_DAY ltac:(rewrite US_PER_DAY_eq; lia)) as Hd.
  pose proof (Z.div_mod (total mod US_PER_DAY) US_PER_SECOND
                ltac:(rewrite US_PER_SECOND_eq; lia)) as Hs.
  rewrite US_PER_DAY_eq, US_PER_SECOND_eq in *. lia.
Qed.

Lemma days_timedelta_new d s us :
  days (timedelta_new d s us)
  = ((d * 86400 + s) * US_PER_SECOND + us) / US_PER_DAY.
Proof. reflexivity. Qed.

Lemma days_whole d : days (timedelta_new d 0 0) = d.
Proof.
  rewrite days_timedelta_new, US_PER_DAY_eq, US_PER_SECOND_eq.
  replace ((d * 86400 + 0) * 1000000 + 0) with (d * 86400000000) by lia.
  apply Z.div_mul. lia.
Qed.

Lemma total_timedelta_add a b :
  total_microseconds (timedelta_add a b)
  = total_microseconds a + total_microseconds b.
Proof.
  unfold timedelta_add. rewrite total_timedelta_new.
  unfold total_microseconds. rewrite US_PER_SECOND_eq. lia.
Qed.

Lemma total_timedelta_sub a b :
  total_microseconds (timedelta_sub a b)
  = total_microseconds a - total_microseconds b.
Proof.
  unfold timedelta_sub. rewrite total_timedelta_new.
  unfold total_microseconds. rewrite US_PER_SECOND_eq. lia.
Qed.

(* The sign of [days] is the sign of the duration. *)
Lemma days_negative t :
  0 <= seconds t < 86400 -> 0 <= microseconds t < US_PER_SECOND ->
  days t < 0 <-> total_microseconds t < 0.
Proof.
  unfold total_microseconds. rewrite US_PER_SECOND_eq. lia.
Qed.

Lemma timedelta_new_normal d s us :
  0 <= seconds (timedelta_new d s us) < 86400
  /\ 0 <= microseconds (timedelta_new d s us) < US_PER_SECOND.
Proof.
  unfold timedelta_new; cbn [seconds microseconds].
  set (total := (d * 86400 + s) * US_PER_SECOND + us).
  pose proof (Z.mod_pos_bound total US_PER_DAY
                ltac:(rewrite US_PER_DAY_eq; lia)) as Hm.
  pose proof (Z.mod_pos_bound (total mod US_PER_DAY) US_PER_SECOND
                ltac:(rewrite US_PER_SECOND_eq; lia)) as Hu.
  split; [|exact Hu].
  rewrite US_PER_DAY_eq, US_PER_SECOND_eq in *. split.
  - apply Z.div_pos; lia.
  - apply Z.div_lt_upper_bound; lia.
Qed.

Lemma timedelta_bool_zero t :
  0 <= seconds t < 86400 -> 0 <= microseconds t < US_PER_SECOND ->
  timedelta_bool t = false <-> total_microseconds t = 0.
Proof.
  unfold timedelta_bool, total_microseconds. rewrite US_PER_SECOND_eq.
  intros Hs Hu. rewrite negb_false_iff, !andb_true_iff, !Z.eqb_eq. lia.
Qed.

Lemma utc_micros_local dt :
  utc_micros dt
  = local_micros dt
    - match tzinfo dt with Some o => total_microseconds o | None => 0 end.
Proof. reflexivity. Qed.

(* On well-formed values the comparison of the field tuples is the
   comparison of the wall-clock readings. *)
Lemma tuple_cmp_fields a b :
  valid_time a -> valid_time b ->
  tuple_cmp (fields a) (fields b) = (local_micros a ?= local_micros b).
Proof.
  intros (Hh & Hm & Hs & Hu) (Hh' & Hm' & Hs' & Hu').
  unfold fields, local_micros; cbn [tuple_cmp].
  rewrite US_PER_DAY_eq, US_PER_SECOND_eq in *.
  destruct (Z.compare_spec (toordinal a) (toordinal b)) as [E|L|G].
  2:{ symmetry; apply Z.compare_lt_iff; lia. }
  2:{ symmetry; apply Z.compare_gt_iff; lia. }
  destruct (Z.compare_spec (hour a) (hour b)) as [E1|L|G].
  2:{ symmetry; apply Z.compare_lt_iff; lia. }
  2:{ symmetry; apply Z.compare_gt_iff; lia. }
  destruct (Z.compare_spec (minute a) (minute b)) as [E2|L|G].
  2:{ symmetry; apply Z.compare_lt_iff; lia. }
  2:{ symmetry; apply Z.compare_gt_iff; lia. }
  destruct (Z.compare_spec (second a) (second b)) as [E3|L|G].
  2:{ symmetry; apply Z.compare_lt_iff; lia. }
  2:{ symmetry; apply Z.compare_gt_iff; lia. }
  destruct (Z.compare_spec (microsecond a) (microsecond b)) as [E4|L|G].
  - symmetry; apply Z.compare_eq_iff; lia.
  - symmetry; apply Z.compare_lt_iff; lia.
  - symmetry; apply Z.compare_gt_iff; lia.
Qed.

Lemma total_datetime_sub a b t :
  datetime_sub a b = Ok t ->
  total_microseconds t = utc_micros a - utc_micros b
  /\ 0 <= seconds t < 86400 /\ 0 <= microseconds t < US_PER_SECOND.
Proof.
  unfold datetime_sub. rewrite !utc_micros_local. unfold local_micros.
  destruct (tzinfo a) as [oa|], (tzinfo b) as [ob|]; try discriminate.
  - destruct (decide (oa = ob)) as [->|Hne]; intros [= <-].
    + rewrite total_timedelta_new. split; [|apply timedelta_new_normal].
      rewrite US_PER_DAY_eq, US_PER_SECOND_eq. lia.
    + rewrite total_timedelta_sub, total_timedelta_add, total_timedelta_new.
      split; [|apply timedelta_new_normal].
      rewrite US_PER_DAY_eq, US_PER_SECOND_eq. lia.
  - intros [= <-]. rewrite total_timedelta_new.
    split; [|apply timedelta_new_normal].
    rewrite US_PER_DAY_eq, US_PER_SECOND_eq. lia.
Qed.

(* Two aware, well-formed values compare by instant. *)
Lemma datetime_lt_aware a b oa ob :
  tzinfo a = Some oa -> tzinfo b = Some ob ->
  valid_time a -> valid_time b ->
  datetime_lt a b = Ok (utc_micros a <? utc_micros b).
Proof.
  intros Ha Hb Va Vb. unfold datetime_lt, datetime_cmp.
  rewrite Ha, Hb. destruct (decide (oa = ob)) as [->|Hne].
  - cbn [mbind result_bind bind]. rewrite tuple_cmp_fields by done. rewrite !utc_micros_local, Ha, Hb.
    f_equal. destruct (Z.compare_spec (local_micros a) (local_micros b));
      symmetry; [apply Z.ltb_ge|apply Z.ltb_lt|apply Z.ltb_ge]; lia.
  - destruct (datetime_sub a b) as [t|e] eqn:Hsub.
    2:{ unfold datetime_sub in Hsub. rewrite Ha, Hb in Hsub.
        destruct (decide (oa = ob)); discriminate. }
    cbn [mbind result_bind bind]. apply total_datetime_sub in Hsub as (Ht & Hs & Hu).
    pose proof (days_negative t Hs Hu) as Hneg.
    destruct (Z.ltb_spec (days t) 0) as [Hlt|Hge]; cbn.
    + f_equal. symmetry. apply Z.ltb_lt. lia.
    + assert (Hnn : ~ utc_micros a < utc_micros b) by lia.
      destruct (timedelta_bool t); cbn; f_equal; symmetry; apply Z.ltb_ge; lia.
Qed.

(* A naive and an aware value do not compare. *)
Lemma datetime_lt_naive a b ob :
  tzinfo a = None -> tzinfo b = Some ob ->
  datetime_lt a b
  = Raise (TypeError "can't compare offset-naive and offset-aware datetimes").
Proof. intros Ha Hb. unfold datetime_lt, datetime_cmp. by rewrite Ha, Hb. Qed.

Lemma now_utc_valid clock : valid_time (now_utc clock).
Proof.
  unfold valid_time, now_utc; cbn [hour minute second microsecond].
  pose proof (Z.mod_pos_bound clock US_PER_DAY
                ltac:(rewrite US_PER_DAY_eq; lia)) as Hm.
  set (rem := clock mod US_PER_DAY) in *.
  rewrite US_PER_DAY_eq, US_PER_SECOND_eq in *.
  repeat split; try (apply Z.mod_pos_bound; lia).
  - apply Z.div_pos; lia.
  - apply Z.div_lt_upper_bound; lia.
Qed.

Lemma now_utc_tzinfo clock : tzinfo (now_utc clock) = Some timezone_utc.
Proof. reflexivity. Qed.

(* The clock reading is recovered from the fields of now. *)
Lemma utc_micros_now clock :
  utc_micros (now_utc clock) = EPOCH_ORDINAL * US_PER_DAY + clock.
Proof.
  unfold utc_micros, local_micros, now_utc;
    cbn [toordinal hour minute second microsecond tzinfo].
  change (total_microseconds timezone_utc) with 0.
  pose proof (Z.div_mod clock US_PER_DAY ltac:(rewrite US_PER_DAY_eq; lia)) as Hd.
  pose proof (Z.mod_pos_bound clock US_PER_DAY
                ltac:(rewrite US_PER_DAY_eq; lia)) as Hm.
  set (rem := clock mod US_PER_DAY) in *.
  rewrite US_PER_DAY_eq, US_PER_SECOND_eq in *.
  change (3600 * 1000000) with 3600000000.
  change (60 * 1000000) with 60000000.
  pose proof (Z.div_mod rem 3600000000 ltac:(lia)).
  pose proof (Z.div_mod rem 60000000 ltac:(lia)).
  pose proof (Z.div_mod rem 1000000 ltac:(lia)).
  pose proof (Z.div_mod (rem / 60000000) 60 ltac:(lia)).
  pose proof (Z.div_mod (rem / 1000000) 60 ltac:(lia)).
  assert (rem / 60000000 / 60 = rem / 3600000000)
    by (rewrite Z.div_div by lia; reflexivity).
  assert (rem / 1000000 / 60 = rem / 60000000)
    by (rewrite Z.div_div by lia; reflexivity).
  lia.
Qed.

(* [now] is in the UTC zone: its reading is its instant. *)
Lemma local_micros_now clock :
  local_micros (now_utc clock) = utc_micros (now_utc clock).
Proof.
  unfold utc_micros. cbn [tzinfo now_utc].
  change (total_microseconds timezone_utc) with 0. lia.
Qed.

Lemma utc_day_now clock :
  utc_day (now_utc clock) = EPOCH_ORDINAL + clock / US_PER_DAY.
Proof.
  unfold utc_day. rewrite utc_micros_now.
  rewrite Z.add_comm, Z.div_add by (rewrite US_PER_DAY_eq; lia). lia.
Qed.

(* The UTC day of a well-formed value that is naive or in the UTC zone is
   its calendar date. *)
Lemma utc_day_utc dt :
  tzinfo dt = None \/ tzinfo dt = Some timezone_utc ->
  valid_time dt -> utc_day dt = toordinal dt.
Proof.
  intros Htz (Hh & Hm & Hs & Hu). unfold utc_day, utc_micros, local_micros.
  assert (match tzinfo dt with
          | Some o => total_microseconds o | None => 0 end = 0) as ->
    by (destruct Htz as [-> | ->]; reflexivity).
  rewrite US_PER_DAY_eq, US_PER_SECOND_eq in *.
  symmetry. apply Z.div_unique with
    ((hour dt * 3600 + minute dt * 60 + second dt) * 1000000 + microsecond dt - 0);
    lia.
Qed.

End datetime_facts.

(** ** D-day (calculate_dday) *)

Section dday.

Lemma calculate_dday_null clock : calculate_dday clock None = Ok (None, false).
Proof. reflexivity. Qed.

(* At 2024-01-01T10:00Z: due today, in five days, yesterday. *)
Example dday_today :
  calculate_dday Samples.clock (Some Samples.due_today_naive)
  = Ok (Some "D-Day", false).
Proof. vm_compute. reflexivity. Qed.

Example dday_in_five_days :
  calculate_dday Samples.clock (Some (mk_datetime 738891 0 0 0 0 None))
  = Ok (Some "D-5", false).
Proof. vm_compute. reflexivity. Qed.

Example dday_yesterday :
  calculate_dday Samples.clock
    (Some (mk_datetime 738885 23 59 59 0 (Some timezone_utc)))
  = Ok (Some "D+1", true).
Proof. vm_compute. reflexivity. Qed.

(* For a due date without zone or in the UTC zone the label is the one the
   D-day rule gives to the difference of the UTC calendar days. *)
Lemma calculate_dday_utc clock due :
  tzinfo due = None \/ tzinfo due = Some timezone_utc ->
  valid_time due ->
  calculate_dday clock (Some due)
  = Ok (dday_of_diff (utc_day due - utc_day (now_utc clock))).
Proof.
  intros Htz Hv.
  rewrite (utc_day_utc due Htz Hv).
  rewrite (utc_day_utc (now_utc clock) (or_intror (now_utc_tzinfo clock))
             (now_utc_valid clock)).
  unfold calculate_dday.
  assert (Hsub : forall d,
    tzinfo d = Some timezone_utc ->
    datetime_sub (replace_time d 0 0 0 0) (replace_time (now_utc clock) 0 0 0 0)
    = Ok (timedelta_new (toordinal d - toordinal (now_utc clock)) 0 0)).
  { intros d Hd. unfold datetime_sub, replace_time;
      cbn [toordinal hour minute second microsecond tzinfo].
    rewrite Hd, now_utc_tzinfo. by rewrite decide_True. }
  destruct Htz as [Hn | Hu].
  - rewrite Hn, Hsub by reflexivity. cbn [mbind result_bind bind replace_tzinfo toordinal].
    rewrite days_whole. unfold dday_of_diff.
    repeat case_match; reflexivity.
  - rewrite Hu, Hsub by exact Hu. cbn [mbind result_bind bind].
    rewrite days_whole. unfold dday_of_diff.
    repeat case_match; reflexivity.
Qed.

(** C2.  calculate_dday does not bring a due date that carries a zone other
    than UTC to UTC before it zeroes the time of day: for the due date
    2024-01-02T10:00+09:00 (01:00 UTC on 2 January) and the instant
    2024-01-01T10:00Z the UTC calendar days differ by one, for which the rule
    gives "D-1", and the function returns "D-Day". *)
Theorem calculate_dday_zoned_due_date :
  valid_time Samples.due_tomorrow_plus9
  /\ utc_day Samples.due_tomorrow_plus9 - utc_day (now_utc Samples.clock) = 1
  /\ dday_of_diff 1 = (Some "D-1", false)
  /\ calculate_dday Samples.clock (Some Samples.due_tomorrow_plus9)
     = Ok (Some "D-Day", false).
Proof.
  split; [|split; [|split]].
  - unfold valid_time; cbn. rewrite US_PER_SECOND_eq. lia.
  - vm_compute. reflexivity.
  - vm_compute. reflexivity.
  - vm_compute. reflexivity.
Qed.

End dday.

(** ** Tenant scoping of the lookups by id *)

Section scoping.

Lemma filter_none {A} (P : A -> Prop) `{!forall x, Decision (P x)} (l : list A) :
  (forall x, x ∈ l -> ~ P x) -> filter P l = [].
Proof.
  induction l as [|a l IH]; intros Hall; [done|].
  rewrite filter_cons_False by (apply Hall; left).
  apply IH. intros x Hx. apply Hall. by right.
Qed.

(* Rows of a table with a unique key are determined by the key. *)
Lemma key_determines_row {A} (key : A -> string) (l : list A) x y :
  NoDup (key <$> l) -> x ∈ l -> y ∈ l -> key x = key y -> x = y.
Proof.
  induction l as [|a l IH]; intros Hnd Hx Hy Hk; [by inversion Hx|].
  rewrite fmap_cons in Hnd. apply NoDup_cons in Hnd as [Hnotin Hnd].
  apply elem_of_cons in Hx as [->|Hx], Hy as [->|Hy]; auto.
  - exfalso. apply Hnotin. rewrite Hk. by apply list_elem_of_fmap_2.
  - exfalso. apply Hnotin. rewrite <- Hk. by apply list_elem_of_fmap_2.
Qed.

(* The scoped SELECT by id finds nothing when the row with that id belongs
   to another organization. *)
Lemma scoped_select_other_org {A} (key org : A -> string) (l : list A) x o :
  NoDup (key <$> l) -> x ∈ l -> org x ≠ o ->
  filter (fun r => String.eqb (key r) (key x) && String.eqb (org r) o = true) l
  = [].
Proof.
  intros Hnd Hx Ho. apply filter_none.
  intros r Hr Hsel. apply andb_true_iff in Hsel as [Hk Horg].
  apply String.eqb_eq in Hk, Horg.
  assert (r = x) as -> by eauto using key_determines_row.
  contradiction.
Qed.

(* The scoped SELECT by id finds exactly the row when it belongs to the
   caller's organization. *)
Lemma scoped_select_own_org {A} (key org : A -> string) (l : list A) x :
  NoDup (key <$> l) -> x ∈ l ->
  filter (fun r => String.eqb (key r) (key x) && String.eqb (org r) (org x)
                   = true) l
  = [x].
Proof.
  induction l as [|a l IH]; intros Hnd Hx; [by inversion Hx|].
  rewrite fmap_cons in Hnd. apply NoDup_cons in Hnd as [Hnotin Hnd].
  apply elem_of_cons in Hx as [->|Hx].
  - rewrite filter_cons_True
      by (by rewrite !String.eqb_refl).
    f_equal. apply filter_none.
    intros r Hr Hsel. apply andb_true_iff in Hsel as [Hk _].
    apply String.eqb_eq in Hk. apply Hnotin. rewrite <- Hk.
    by apply list_elem_of_fmap_2.
  - rewrite filter_cons_False; [by apply IH|].
    intros Hsel. apply andb_true_iff in Hsel as [Hk _].
    apply String.eqb_eq in Hk. apply Hnotin. rewrite Hk.
    by apply list_elem_of_fmap_2.
Qed.

(** C1.  In a store whose ids are primary keys, addressing by id a task, an
    organization control or a document that belongs to another organization
    than the caller's raises the 404 error of the router from every get,
    update and delete handler, and the handler leaves the store (and, for
    documents, the bucket) as it was: the record is not returned, not
    modified and not deleted. *)
Theorem cross_tenant_not_found (db : Store) (caller : CurrentUser) :
  primary_keys_unique db ->
  (forall t, t ∈ tasks db -> Task.organization_id t ≠ organization_id caller ->
     TasksRouter.get_task (Task.id t) caller db
     = (Raise (HTTPException HTTP_404_NOT_FOUND "Task not found"), db)
     /\ (forall request,
           TasksRouter.update_task (Task.id t) request caller db
           = (Raise (HTTPException HTTP_404_NOT_FOUND "Task not found"), db))
     /\ TasksRouter.delete_task (Task.id t) caller db
        = (Raise (HTTPException HTTP_404_NOT_FOUND "Task not found"), db))
  /\ (forall c, c ∈ organization_controls db ->
        OrganizationControl.organization_id c ≠ organization_id caller ->
        ControlsRouter.get_control (OrganizationControl.id c) caller db
        = (Raise (HTTPException HTTP_404_NOT_FOUND "Control not found"), db)
        /\ (forall request,
              ControlsRouter.update_control (OrganizationControl.id c) request
                caller db
              = (Raise (HTTPException HTTP_404_NOT_FOUND "Control not found"),
                 db)))
  /\ (forall d, d ∈ documents db ->
        Document.organization_id d ≠ organization_id caller ->
        DocumentsRouter.get_document (Document.id d) caller db
        = (Raise (HTTPException HTTP_404_NOT_FOUND "Document not found"), db)
        /\ (forall request,
              DocumentsRouter.update_document (Document.id d) request caller db
              = (Raise (HTTPException HTTP_404_NOT_FOUND "Document not found"),
                 db))
        /\ (forall reply bucket,
              DocumentsRouter.delete_document (Document.id d) caller reply
                bucket db
              = (Raise (HTTPException HTTP_404_NOT_FOUND "Document not found"),
                 db, bucket))).
Proof.
  intros (_ & _ & Hoc & Ht & Hd). split; [|split].
  - intros t Hin Hother.
    assert (Hsel : TasksRouter.select_task db (Task.id t)
                     (organization_id caller) = [])
      by (apply (scoped_select_other_org Task.id Task.organization_id); done).
    unfold TasksRouter.get_task, TasksRouter.update_task,
      TasksRouter.delete_task. rewrite Hsel. done.
  - intros c Hin Hother.
    assert (Hsel : ControlsRouter.select_control db (OrganizationControl.id c)
                     (organization_id caller) = [])
      by (apply (scoped_select_other_org OrganizationControl.id
                   OrganizationControl.organization_id); done).
    unfold ControlsRouter.get_control, ControlsRouter.update_control.
    rewrite Hsel. done.
  - intros d Hin Hother.
    assert (Hsel : DocumentsRouter.select_document db (Document.id d)
                     (organization_id caller) = [])
      by (apply (scoped_select_other_org Document.id
                   Document.organization_id); done).
    unfold DocumentsRouter.get_document, DocumentsRouter.update_document,
      DocumentsRouter.delete_document. rewrite Hsel. done.
Qed.

(* The three 404s are of the NotFound kind. *)
Lemma not_found_kind :
  kind_of TasksRouter.not_found = Some NotFound
  /\ kind_of ControlsRouter.not_found = Some NotFound
  /\ kind_of DocumentsRouter.not_found = Some NotFound.
Proof. by repeat split. Qed.

End scoping.

(* Membership in, and distinct keys of, a table given by its rows. *)
Ltac in_table :=
  cbn; repeat first [apply list_elem_of_here | apply list_elem_of_further].
Ltac distinct_keys :=
  cbn; apply NoDup_ListNoDup; repeat constructor; cbn; intuition discriminate.

Lemma sample_store_keys : primary_keys_unique Samples.store.
Proof. unfold primary_keys_unique. repeat split; distinct_keys. Defined.

Lemma cross_tenant_not_found_witness :
  primary_keys_unique Samples.store
  /\ TasksRouter.get_task "t-1" Samples.as_beta Samples.store
     = (Raise (HTTPException HTTP_404_NOT_FOUND "Task not found"),
        Samples.store)
  /\ TasksRouter.delete_task "t-1" Samples.as_beta Samples.store
     = (Raise (HTTPException HTTP_404_NOT_FOUND "Task not found"),
        Samples.store)
  /\ ControlsRouter.get_control "oc-1" Samples.as_beta Samples.store
     = (Raise (HTTPException HTTP_404_NOT_FOUND "Control not found"),
        Samples.store)
  /\ DocumentsRouter.delete_document "d-1" Samples.as_beta Storage.S3Done
       {["org-acme/documents/20240101_000000_ab12cd34.pdf"]} Samples.store
     = (Raise (HTTPException HTTP_404_NOT_FOUND "Document not found"),
        Samples.store,
        {["org-acme/documents/20240101_000000_ab12cd34.pdf"]}).
Proof.
  split; [exact sample_store_keys|].
  destruct (cross_tenant_not_found Samples.store Samples.as_beta
              sample_store_keys) as (Ht & Hc & Hd).
  split; [|split; [|split]].
  - apply (Ht (Samples.task "t-1" "org-acme" TaskStatus.TODO
                 (Some Samples.due_today_naive))).
    + in_table.
    + discriminate.
  - apply (Ht (Samples.task "t-1" "org-acme" TaskStatus.TODO
                 (Some Samples.due_today_naive))).
    + in_table.
    + discriminate.
  - apply (Hc (Samples.adoption "oc-1" "org-acme" ControlStatus.COMPLETED
                 Samples.a61)).
    + in_table.
    + discriminate.
  - apply (Hd (Samples.document "d-1" "org-acme"
                 "org-acme/documents/20240101_000000_ab12cd34.pdf"
                 (Some Samples.due_today_naive))).
    + in_table.
    + discriminate.
Defined.

(** ** Counters kept in a dict *)

Section counters.

Lemma dict_sum_empty : dict_sum ∅ = 0.
Proof. unfold dict_sum. apply map_fold_empty. Qed.

Lemma dict_sum_insert_fresh (d : gmap string Z) k v :
  d !! k = None -> dict_sum (<[k:=v]> d) = v + dict_sum d.
Proof.
  intros Hk. unfold dict_sum. apply map_fold_insert_L; [|done].
  intros. lia.
Qed.

Lemma dict_sum_insert (d : gmap string Z) k v :
  dict_sum (<[k:=v]> d) = dict_sum d - default 0 (d !! k) + v.
Proof.
  destruct (d !! k) as [x|] eqn:Hk; cbn [default].
  - assert (Hd : dict_sum d = x + dict_sum (delete k d)).
    { unfold dict_sum.
      rewrite (map_fold_delete_L (fun _ v acc => v + acc) 0 k x d); [done| |done].
      intros. lia. }
    rewrite <- insert_delete_eq.
    rewrite dict_sum_insert_fresh by apply lookup_delete_eq.
    unfold id. lia.
  - rewrite dict_sum_insert_fresh by done. lia.
Qed.

(* d[key] = d.get(key, 0) + 1 adds one to the sum of the counters. *)
Lemma dict_sum_incr_tasks d k :
  dict_sum (TasksRouter.incr d k) = dict_sum d + 1.
Proof. unfold TasksRouter.incr. rewrite dict_sum_insert. lia. Qed.

Lemma dict_sum_incr_controls d k :
  dict_sum (ControlsRouter.incr d k) = dict_sum d + 1.
Proof. unfold ControlsRouter.incr. rewrite dict_sum_insert. lia. Qed.

Lemma dict_sum_count_by (key : OrganizationControl.t -> string) controls d :
  dict_sum (fold_left (fun d ctrl => ControlsRouter.incr d (key ctrl)) controls d)
  = dict_sum d + Z.of_nat (length controls).
Proof.
  revert d. induction controls as [|c l IH]; intros d; cbn [fold_left length].
  - lia.
  - rewrite IH, dict_sum_incr_controls. lia.
Qed.

End counters.

(** ** The task listing and its aggregates *)

Section listing.

Lemma fetched_task_undated t : Task.due_date t = None -> fetched_task t = t.
Proof. destruct t. cbn. by intros ->. Qed.

Lemma local_micros_fetched d : local_micros (fetched d) = local_micros d.
Proof. reflexivity. Qed.

(* A fetched timestamp, read as UTC, is the reading the column holds. *)
Lemma utc_micros_fetched d : utc_micros (fetched d) = local_micros d.
Proof. unfold utc_micros. cbn [tzinfo fetched]. rewrite local_micros_fetched. lia. Qed.

(* The test of the loop on a task as the query hands it over: the due date
   of the task has no zone, [now] has one. *)
Lemma overdue_test_fetched clock t :
  TasksRouter.overdue_test (now_utc clock) (fetched_task t)
  = match Task.due_date t with
    | Some _ =>
        Raise (TypeError "can't compare offset-naive and offset-aware datetimes")
    | None => Ok false
    end.
Proof.
  unfold TasksRouter.overdue_test. cbn [fetched_task Task.due_date].
  destruct (Task.due_date t) as [due|]; [|done]. cbn [fmap option_fmap option_map].
  by rewrite (datetime_lt_naive (fetched due) (now_utc clock) timezone_utc).
Qed.

(* The loop stops at the first task that has a due date. *)
Lemma tally_dated clock rows t acc :
  t ∈ rows -> Task.due_date t ≠ None ->
  TasksRouter.tally (now_utc clock) (fetched_task <$> rows) acc
  = Raise (TypeError "can't compare offset-naive and offset-aware datetimes").
Proof.
  revert acc. induction rows as [|r l IH]; intros [[bs bp] n] Hin Hdue;
    [by apply elem_of_nil in Hin|].
  rewrite fmap_cons. cbn [TasksRouter.tally]. unfold TasksRouter.tally_task at 1.
  rewrite overdue_test_fetched.
  destruct (Task.due_date r) as [d|] eqn:Hr; [done|].
  cbn [mbind result_bind bind]. apply IH; [|done].
  apply elem_of_cons in Hin as [->|Hin]; [congruence|done].
Qed.

(* It goes through tasks without due date, adds one to each dict per task
   and leaves overdue_count as it is. *)
Lemma tally_undated clock rows bs bp n :
  (forall t, t ∈ rows -> Task.due_date t = None) ->
  exists bs' bp',
    TasksRouter.tally (now_utc clock) (fetched_task <$> rows) (bs, bp, n)
    = Ok (bs', bp', n)
    /\ dict_sum bs' = dict_sum bs + Z.of_nat (length rows)
    /\ dict_sum bp' = dict_sum bp + Z.of_nat (length rows).
Proof.
  revert bs bp. induction rows as [|r l IH]; intros bs bp Hall.
  - exists bs, bp. cbn. split; [done|lia].
  - rewrite fmap_cons. cbn [TasksRouter.tally].
    unfold TasksRouter.tally_task at 1. rewrite overdue_test_fetched.
    rewrite (Hall r) by left. cbn [mbind result_bind bind].
    destruct (IH (TasksRouter.incr bs (TaskStatus.value
                                          (Task.status (fetched_task r))))
                 (TasksRouter.incr bp (TaskPriority.value
                                          (Task.priority (fetched_task r)))))
      as (bs' & bp' & -> & Hs & Hp).
    { intros t Ht. apply Hall. by right. }
    exists bs', bp'. split; [done|].
    rewrite !dict_sum_incr_tasks in *. cbn [length]. lia.
Qed.

Lemma all_undated_dec (rows : list Task.t) :
  (forall t, t ∈ rows -> Task.due_date t = None)
  \/ exists t, t ∈ rows /\ Task.due_date t ≠ None.
Proof.
  induction rows as [|r l IH].
  - left. by intros t ?%elem_of_nil.
  - destruct (Task.due_date r) as [d|] eqn:Hr.
    + right. exists r. split; [left|congruence].
    + destruct IH as [Hall|(t & Hin & Hdue)].
      * left. intros t [->|Hin]%elem_of_cons; auto.
      * right. exists t. split; [by right|done].
Qed.

Lemma order_by_due_date_perm rows :
  TasksRouter.order_by_due_date rows ≡ₚ rows.
Proof. apply merge_sort_Permutation. Qed.

(* list_tasks raises when a selected task has a due date. *)
Lemma list_tasks_dated ilike clock status priority control_id assignee_id
    overdue_only search caller db t :
  t ∈ filter (fun t => TasksRouter.where_clause ilike (now_utc clock)
                         (organization_id caller) status priority control_id
                         assignee_id overdue_only search t = true) (tasks db) ->
  Task.due_date t ≠ None ->
  TasksRouter.list_tasks ilike clock status priority control_id assignee_id
    overdue_only search caller db
  = Raise (TypeError "can't compare offset-naive and offset-aware datetimes").
Proof.
  intros Hin Hdue. unfold TasksRouter.list_tasks.
  rewrite (tally_dated clock _ t); [done| |done].
  by rewrite order_by_due_date_perm.
Qed.

(* What a response of list_tasks holds. *)
Lemma list_tasks_response ilike clock status priority control_id assignee_id
    overdue_only search caller db resp :
  TasksRouter.list_tasks ilike clock status priority control_id assignee_id
    overdue_only search caller db = Ok resp ->
  TasksRouter.resp_tasks resp
  ≡ₚ filter (fun t => TasksRouter.where_clause ilike (now_utc clock)
                        (organization_id caller) status priority control_id
                        assignee_id overdue_only search t = true) (tasks db)
  /\ (forall t, t ∈ TasksRouter.resp_tasks resp -> Task.due_date t = None)
  /\ TasksRouter.total resp = Z.of_nat (length (TasksRouter.resp_tasks resp))
  /\ dict_sum (TasksRouter.by_status resp) = TasksRouter.total resp
  /\ dict_sum (TasksRouter.by_priority resp) = TasksRouter.total resp
  /\ TasksRouter.overdue_count resp = 0.
Proof.
  unfold TasksRouter.list_tasks.
  set (selected := filter _ (tasks db)).
  set (sorted := TasksRouter.order_by_due_date selected).
  destruct (all_undated_dec sorted) as [Hall|(t & Hin & Hdue)].
  2:{ by rewrite (tally_dated clock sorted t). }
  destruct (tally_undated clock sorted ∅ ∅ 0 Hall) as (bs & bp & -> & Hs & Hp).
  cbn [mbind result_bind bind]. intros [= <-].
  cbn [TasksRouter.resp_tasks TasksRouter.total TasksRouter.by_status
       TasksRouter.by_priority TasksRouter.overdue_count].
  assert (Hsame : fetched_task <$> sorted = sorted).
  { rewrite <- (list_fmap_id sorted) at 2. apply list_fmap_ext.
    intros i t Ht. apply fetched_task_undated, Hall.
    by eapply list_elem_of_lookup_2. }
  rewrite Hsame, dict_sum_empty in *.
  split; [apply order_by_due_date_perm|]. split; [exact Hall|].
  split; [reflexivity|]. split; [lia|]. split; [lia|reflexivity].
Qed.

(* A task without due date is not overdue. *)
Lemma overdue_undated now rows :
  (forall t, t ∈ rows -> Task.due_date t = None) ->
  filter (fun t => TasksRouter.overdue now t = true) rows = [].
Proof.
  intros Hall. apply filter_none. intros t Hin.
  unfold TasksRouter.overdue. by rewrite (Hall t Hin).
Qed.

End listing.

Section aggregates.

Variable ilike : string -> string -> bool.

(** C3.  A task that the query hands to list_tasks carries its due date
    without zone, and the loop that builds the aggregates compares it with
    an aware [now]: when a selected task has a due date, list_tasks raises
    TypeError and returns no aggregate at all.  It returns exactly when no
    selected task has a due date; the response then carries the selected
    rows, [total] is their number, the values of [by_status] and those of
    [by_priority] each add up to [total], and [overdue_count] is the number
    of returned overdue tasks, which is zero.  list_controls is refused by
    the engine when both [category] and [search] are given; otherwise its
    response carries the selected rows and the values of [by_status] (and of
    [by_category]) add up to [total]. *)
Theorem filtered_aggregates (clock : Z)
    (status : option TaskStatus.t) (priority : option TaskPriority.t)
    (control_id assignee_id : option string) (overdue_only : bool)
    (search : option string)
    (cstatus : option ControlStatus.t) (category csearch : option string)
    (caller : CurrentUser) (db : Store) :
  let now := now_utc clock in
  let selected :=
    filter (fun t => TasksRouter.where_clause ilike now (organization_id caller)
                       status priority control_id assignee_id overdue_only
                       search t = true) (tasks db) in
  let listing :=
    TasksRouter.list_tasks ilike clock status priority control_id assignee_id
      overdue_only search caller db in
  let controls := ControlsRouter.list_controls ilike cstatus category csearch
                    caller db in
  (forall t, t ∈ selected -> Task.due_date t ≠ None ->
     listing
     = Raise (TypeError "can't compare offset-naive and offset-aware datetimes"))
  /\ ((forall t, t ∈ selected -> Task.due_date t = None) ->
      exists resp, listing = Ok resp)
  /\ (forall resp, listing = Ok resp ->
        TasksRouter.resp_tasks resp ≡ₚ selected
        /\ (forall t, t ∈ selected -> Task.due_date t = None)
        /\ TasksRouter.total resp
           = Z.of_nat (length (TasksRouter.resp_tasks resp))
        /\ dict_sum (TasksRouter.by_status resp) = TasksRouter.total resp
        /\ dict_sum (TasksRouter.by_priority resp) = TasksRouter.total resp
        /\ TasksRouter.overdue_count resp
           = Z.of_nat (length (filter
               (fun t => TasksRouter.overdue now t = true)
               (TasksRouter.resp_tasks resp)))
        /\ TasksRouter.overdue_count resp = 0)
  /\ (truthy_str category && truthy_str csearch = true ->
      controls = Raise OperationalError)
  /\ (truthy_str category && truthy_str csearch = false ->
      exists resp,
        controls = Ok resp
        /\ ControlsRouter.resp_controls resp
           = filter (fun c => ControlsRouter.where_clause ilike
                                (organization_id caller) cstatus category
                                csearch c = true) (organization_controls db)
        /\ ControlsRouter.total resp
           = Z.of_nat (length (ControlsRouter.resp_controls resp))
        /\ dict_sum (ControlsRouter.by_status resp) = ControlsRouter.total resp
        /\ dict_sum (ControlsRouter.by_category resp)
           = ControlsRouter.total resp).
Proof.
  intros now selected listing controls.
  split; [|split; [|split; [|split]]].
  - intros t Hin Hdue. by apply (list_tasks_dated ilike clock status priority
      control_id assignee_id overdue_only search caller db t).
  - intros Hall. subst listing. unfold TasksRouter.list_tasks.
    fold now. fold selected.
    destruct (tally_undated clock (TasksRouter.order_by_due_date selected)
                ∅ ∅ 0) as (bs & bp & Hacc & _).
    + intros t Hin. apply Hall. by rewrite <- order_by_due_date_perm.
    + fold now in Hacc. rewrite Hacc. cbn [mbind result_bind bind]. by eexists.
  - intros resp Hresp.
    apply list_tasks_response in Hresp as (Hperm & Hall & Ht & Hs & Hp & Hn).
    fold now in Hperm. fold selected in Hperm.
    split; [exact Hperm|].
    split; [intros t Hin; apply Hall; by rewrite Hperm|].
    split; [exact Ht|]. split; [exact Hs|]. split; [exact Hp|].
    split; [|exact Hn].
    by rewrite Hn, (overdue_undated now _ Hall).
  - intros Hboth. subst controls. unfold ControlsRouter.list_controls.
    by rewrite Hboth.
  - intros Hone. subst controls. unfold ControlsRouter.list_controls.
    rewrite Hone. eexists. split; [reflexivity|].
    cbn [ControlsRouter.resp_controls ControlsRouter.total
         ControlsRouter.by_status ControlsRouter.by_category].
    unfold ControlsRouter.count_by.
    rewrite !dict_sum_count_by, dict_sum_empty.
    split; [reflexivity|]. split; [reflexivity|]. split; lia.
Qed.

End aggregates.

(* Case analysis on the rows of a table given by its rows. *)
Ltac each_row H :=
  cbn in H; repeat (apply elem_of_cons in H as [->|H]);
  [..|by apply elem_of_nil in H].

(* The listing of Acme's tasks in the sample store stops at the task that has
   a due date. *)
Example list_tasks_sample :
  TasksRouter.list_tasks (fun _ _ => true) Samples.clock
    None None None None false None Samples.as_acme Samples.store
  = Raise (TypeError "can't compare offset-naive and offset-aware datetimes").
Proof. vm_compute. reflexivity. Qed.

(* Filtered to the tasks that are done, of which none has a due date, it
   returns. *)
Example list_tasks_done_sample :
  match TasksRouter.list_tasks (fun _ _ => true) Samples.clock
          (Some TaskStatus.DONE) None None None false None Samples.as_acme
          Samples.store with
  | Ok resp =>
      Task.id <$> TasksRouter.resp_tasks resp = ["t-2"]
      /\ TasksRouter.total resp = 1
      /\ map_to_list (TasksRouter.by_status resp) = [("done", 1)]
      /\ map_to_list (TasksRouter.by_priority resp) = [("medium", 1)]
      /\ TasksRouter.overdue_count resp = 0
  | Raise _ => False
  end.
Proof. vm_compute. repeat split; reflexivity. Qed.

(* Category and search together are refused, each alone is answered. *)
Example list_controls_sample :
  ControlsRouter.list_controls (fun _ _ => true) None (Some "A.5")
    (Some "policy") Samples.as_acme Samples.store
  = Raise OperationalError
  /\ match ControlsRouter.list_controls (fun _ _ => true) None (Some "A.5")
             None Samples.as_acme Samples.store with
     | Ok resp =>
         OrganizationControl.id <$> ControlsRouter.resp_controls resp
         = ["oc-2"; "oc-4"]
         /\ ControlsRouter.total resp = 2
         /\ map_to_list (ControlsRouter.by_category resp) = [("A.5", 2)]
     | Raise _ => False
     end.
Proof. vm_compute. repeat split; reflexivity. Qed.

(** ** The two notions of overdue on the day a task is due *)

Section same_day.

(** C10.  A task that is not done and whose stored due date falls on the
    current UTC calendar day and is earlier than now: the engine's own
    comparison finds it overdue (the filter overdue_only selects it), and
    calculate_dday labels the due date the handler gets "D-Day" and not
    overdue; but list_tasks does not count it in overdue_count: every call
    that selects the task raises TypeError at the comparison of the due date,
    which has no zone, with the aware [now]. *)
Theorem same_day_past_due_disagreement (ilike : string -> string -> bool)
    (clock : Z) (status : option TaskStatus.t)
    (priority : option TaskPriority.t) (control_id assignee_id : option string)
    (overdue_only : bool) (search : option string) (caller : CurrentUser)
    (db : Store) (task : Task.t) (due : datetime) :
  task ∈ tasks db ->
  TasksRouter.where_clause ilike (now_utc clock) (organization_id caller)
    status priority control_id assignee_id overdue_only search task = true ->
  Task.due_date task = Some due ->
  valid_time due ->
  Task.status task ≠ TaskStatus.DONE ->
  utc_day (fetched due) = utc_day (now_utc clock) ->
  utc_micros (fetched due) < utc_micros (now_utc clock) ->
  TasksRouter.list_tasks ilike clock status priority control_id assignee_id
    overdue_only search caller db
  = Raise (TypeError "can't compare offset-naive and offset-aware datetimes")
  /\ sql_lt (Task.due_date task) (now_utc clock)
     && bool_decide (Task.status task ≠ TaskStatus.DONE) = true
  /\ calculate_dday clock (Task.due_date (fetched_task task))
     = Ok (Some "D-Day", false).
Proof.
  intros Hin Hsel Hdue Hvalid Hstatus Hday Hlt. split; [|split].
  - apply (list_tasks_dated ilike clock status priority control_id assignee_id
             overdue_only search caller db task).
    + by apply list_elem_of_filter.
    + congruence.
  - rewrite Hdue. cbn [sql_lt]. rewrite utc_micros_fetched in Hlt.
    rewrite local_micros_now. apply andb_true_iff. split.
    + by apply Z.ltb_lt.
    + by apply bool_decide_eq_true_2.
  - cbn [fetched_task Task.due_date]. rewrite Hdue.
    cbn [fmap option_fmap option_map].
    rewrite (calculate_dday_utc clock (fetched due) (or_introl eq_refl) Hvalid).
    rewrite Hday, Z.sub_diag. reflexivity.
Qed.

Lemma sample_task_1 :
  Samples.task "t-1" "org-acme" TaskStatus.TODO (Some Samples.due_today_naive)
  ∈ tasks Samples.store.
Proof. in_table. Defined.

Lemma same_day_past_due_disagreement_witness :
  valid_time Samples.due_today_naive
  /\ utc_day (fetched Samples.due_today_naive) = utc_day (now_utc Samples.clock)
  /\ utc_micros (fetched Samples.due_today_naive)
     < utc_micros (now_utc Samples.clock)
  /\ TasksRouter.list_tasks (fun _ _ => true) Samples.clock None None None None
       false None Samples.as_acme Samples.store
     = Raise (TypeError "can't compare offset-naive and offset-aware datetimes")
  /\ calculate_dday Samples.clock (Some (fetched Samples.due_today_naive))
     = Ok (Some "D-Day", false).
Proof.
  assert (Hvalid : valid_time Samples.due_today_naive)
    by (unfold valid_time; cbn; rewrite US_PER_SECOND_eq; lia).
  assert (Hday : utc_day (fetched Samples.due_today_naive)
                 = utc_day (now_utc Samples.clock))
    by (vm_compute; reflexivity).
  assert (Hlt : utc_micros (fetched Samples.due_today_naive)
                < utc_micros (now_utc Samples.clock))
    by (vm_compute; reflexivity).
  split; [exact Hvalid|]. split; [exact Hday|]. split; [exact Hlt|].
  destruct (same_day_past_due_disagreement (fun _ _ => true) Samples.clock
              None None None None false None Samples.as_acme Samples.store
              (Samples.task "t-1" "org-acme" TaskStatus.TODO
                 (Some Samples.due_today_naive))
              Samples.due_today_naive sample_task_1 eq_refl eq_refl Hvalid
              ltac:(discriminate) Hday Hlt) as (Hraise & _ & Hdday).
  split; [exact Hraise|exact Hdday].
Defined.

End same_day.

(** ** Partial updates *)

Section assignment_loop.

(* The assignment loop touches the attributes named in update_data and no
   other. *)
Lemma setattr_all_frame update_data o name :
  name ∉ update_data.*1 -> setattr_all update_data o !! name = o !! name.
Proof.
  revert o. induction update_data as [|[k v] l IH]; intros o Hnot; [done|].
  cbn in Hnot. apply not_elem_of_cons in Hnot as [Hne Hnot].
  unfold setattr_all in *. cbn [fold_left fst snd]. rewrite IH by done.
  unfold setattr. by rewrite lookup_insert_ne.
Qed.

(* An attribute named once in update_data holds the value given there. *)
Lemma setattr_all_assigned update_data o name v :
  NoDup update_data.*1 -> (name, v) ∈ update_data ->
  setattr_all update_data o !! name = Some v.
Proof.
  revert o. induction update_data as [|[k w] l IH]; intros o Hnd Hin;
    [by apply elem_of_nil in Hin|].
  cbn in Hnd. apply NoDup_cons in Hnd as [Hk Hnd].
  unfold setattr_all in *. cbn [fold_left fst snd].
  apply elem_of_cons in Hin as [[= <- <-]|Hin].
  - fold (setattr_all l (setattr o name v)).
    rewrite setattr_all_frame by done.
    unfold setattr. by rewrite lookup_insert_eq.
  - by apply IH.
Qed.

(* The loop over the entries of several fields is the loop over the entries
   of the first followed by the loop over the rest. *)
Lemma setattr_all_dump {A} name (inj : A -> value) (f : field A) rest o :
  setattr_all (dump name inj f ++ rest) o
  = setattr_all rest (setattr_field name inj f o).
Proof. unfold setattr_field, setattr_all. apply fold_left_app. Qed.

Lemma setattr_all_dump_last {A} name (inj : A -> value) (f : field A) o :
  setattr_all (dump name inj f) o = setattr_field name inj f o.
Proof. reflexivity. Qed.

Lemma setattr_field_ne {A} name (inj : A -> value) (f : field A) o k :
  name ≠ k -> setattr_field name inj f o !! k = o !! k.
Proof.
  intros Hne. unfold setattr_field. apply setattr_all_frame.
  destruct f; cbn; [apply not_elem_of_nil|].
  rewrite list_elem_of_singleton. congruence.
Qed.

Lemma setattr_field_eq {A} name (inj : A -> value) (f : field A) o :
  setattr_field name inj f o !! name
  = match f with Unset => o !! name | Given v => Some (opt inj v) end.
Proof.
  unfold setattr_field. destruct f as [|v]; [done|].
  apply setattr_all_assigned; cbn.
  - apply NoDup_singleton.
  - apply list_elem_of_here.
Qed.

End assignment_loop.

(* Reads an attribute of an updated object: the fields of the payload are
   peeled off one at a time, then the attributes of the loaded row. *)
Ltac read_attribute :=
  repeat first [rewrite setattr_field_ne by discriminate
               |rewrite setattr_field_eq];
  repeat rewrite lookup_insert_ne by discriminate;
  rewrite ?lookup_insert_eq.

Section flush_reads.

Context {A : Type} (proj : value -> option A) (inj : A -> value).
Hypothesis proj_inj : forall a, proj (inj a) = Some a.
Hypothesis proj_none : proj VNone = None.

Lemma inj_not_none a : inj a ≠ VNone.
Proof. intros H. pose proof (proj_inj a) as Hp. rewrite H in Hp. congruence. Qed.

(* The flush reads back what a nullable attribute holds. *)
Lemma nullable_opt name (o : object) x :
  o !! name = Some (opt inj x) -> nullable proj name o = Ok x.
Proof.
  intros Ho. unfold nullable. rewrite Ho. destruct x as [a|]; cbn [opt]; [|done].
  pose proof (inj_not_none a). rewrite proj_inj. by destruct (inj a).
Qed.

Lemma not_null_value name (o : object) a :
  o !! name = Some (inj a) -> not_null proj name o = Ok a.
Proof.
  intros Ho. unfold not_null. by rewrite (nullable_opt name o (Some a)).
Qed.

(* A nullable column to which a field of the payload was applied. *)
Lemma nullable_assigned name (o : object) f before :
  o !! name = match f with
              | Unset => Some (opt inj before)
              | Given v => Some (opt inj v)
              end ->
  nullable proj name o = Ok (assigned f before).
Proof. destruct f; apply nullable_opt. Qed.

(* A NOT NULL column to which a field of the payload was applied. *)
Lemma not_null_assigned name (o : object) f before :
  o !! name = match f with
              | Unset => Some (inj before)
              | Given v => Some (opt inj v)
              end ->
  not_null proj name o = required name f before.
Proof.
  destruct f as [|[v|]]; cbn [required].
  - apply not_null_value.
  - apply not_null_value.
  - intros Ho. unfold not_null. by rewrite (nullable_opt name o None).
Qed.

End flush_reads.

(* The attribute [name] of the updated object, for the flush lemmas below. *)
Ltac solve_attribute :=
  match goal with o := _ |- _ => subst o end;
  unfold TaskObject.load, OrganizationControlObject.load, DocumentObject.load;
  read_attribute;
  first [ reflexivity
        | match goal with
          | |- context [match ?f with Unset => _ | Given _ => _ end] =>
              by destruct f
          end ].

Ltac kept proj inj name val :=
  rewrite (not_null_value proj inj (fun _ => eq_refl) eq_refl name _ val)
    by solve_attribute.
Ltac kept_nullable proj inj name val :=
  rewrite (nullable_opt proj inj (fun _ => eq_refl) eq_refl name _ val)
    by solve_attribute.
Ltac updated proj inj name f before :=
  rewrite (not_null_assigned proj inj (fun _ => eq_refl) eq_refl name _ f before)
    by solve_attribute.
Ltac updated_nullable proj inj name f before :=
  rewrite (nullable_assigned proj inj (fun _ => eq_refl) eq_refl name _ f before)
    by solve_attribute.

Section flush_after_update.

(* The flush of an updated task: the NOT NULL columns the payload can reach
   are checked, every column holds the payload's value where the field is
   given and the row's where it is not. *)
Lemma task_flush_update request row :
  TaskObject.flush (TaskObject.update request (TaskObject.load row))
  = title ← required "title" (TaskUpdate.title request) (Task.title row);
    status ← required "status" (TaskUpdate.status request) (Task.status row);
    priority ← required "priority" (TaskUpdate.priority request)
                 (Task.priority row);
    Ok {| Task.id := Task.id row;
          Task.title := title;
          Task.description :=
            assigned (TaskUpdate.description request) (Task.description row);
          Task.status := status;
          Task.priority := priority;
          Task.due_date :=
            assigned (TaskUpdate.due_date request) (Task.due_date row);
          Task.recurring_rule :=
            assigned (TaskUpdate.recurring_rule request)
                     (Task.recurring_rule row);
          Task.organization_id := Task.organization_id row;
          Task.control_id :=
            assigned (TaskUpdate.control_id request) (Task.control_id row);
          Task.assignee_id :=
            assigned (TaskUpdate.assignee_id request) (Task.assignee_id row) |}.
Proof.
  unfold TaskObject.flush, TaskObject.update,
    TaskUpdate.model_dump_exclude_unset.
  rewrite !setattr_all_dump, setattr_all_dump_last.
  match goal with |- context [nullable _ _ ?x] => set (o := x) end.
  kept as_str VStr "id" (Task.id row).
  updated as_str VStr "title" (TaskUpdate.title request) (Task.title row).
  updated_nullable as_str VStr "description" (TaskUpdate.description request)
    (Task.description row).
  updated as_task_status VTaskStatus "status" (TaskUpdate.status request)
    (Task.status row).
  updated as_task_priority VTaskPriority "priority"
    (TaskUpdate.priority request) (Task.priority row).
  updated_nullable as_datetime VDatetime "due_date"
    (TaskUpdate.due_date request) (Task.due_date row).
  updated_nullable as_str VStr "recurring_rule"
    (TaskUpdate.recurring_rule request) (Task.recurring_rule row).
  kept as_str VStr "organization_id" (Task.organization_id row).
  updated_nullable as_str VStr "control_id" (TaskUpdate.control_id request)
    (Task.control_id row).
  updated_nullable as_str VStr "assignee_id" (TaskUpdate.assignee_id request)
    (Task.assignee_id row).
  reflexivity.
Qed.

Lemma control_flush_update request row :
  OrganizationControlObject.flush
    (OrganizationControlObject.update request
       (OrganizationControlObject.load row))
  = status ← required "status" (OrganizationControlUpdate.status request)
               (OrganizationControl.status row);
    is_applicable ← required "is_applicable"
                      (OrganizationControlUpdate.is_applicable request)
                      (OrganizationControl.is_applicable row);
    Ok {| OrganizationControl.id := OrganizationControl.id row;
          OrganizationControl.organization_id :=
            OrganizationControl.organization_id row;
          OrganizationControl.control_id := OrganizationControl.control_id row;
          OrganizationControl.status := status;
          OrganizationControl.is_applicable := is_applicable;
          OrganizationControl.notes :=
            assigned (OrganizationControlUpdate.notes request)
                     (OrganizationControl.notes row);
          OrganizationControl.control := OrganizationControl.control row |}.
Proof.
  unfold OrganizationControlObject.flush, OrganizationControlObject.update,
    OrganizationControlUpdate.model_dump_exclude_unset.
  rewrite !setattr_all_dump, setattr_all_dump_last.
  match goal with |- context [nullable _ _ ?x] => set (o := x) end.
  kept as_str VStr "id" (OrganizationControl.id row).
  kept as_str VStr "organization_id" (OrganizationControl.organization_id row).
  kept as_str VStr "control_id" (OrganizationControl.control_id row).
  updated as_control_status VControlStatus "status"
    (OrganizationControlUpdate.status request) (OrganizationControl.status row).
  updated as_bool VBool "is_applicable"
    (OrganizationControlUpdate.is_applicable request)
    (OrganizationControl.is_applicable row).
  updated_nullable as_str VStr "notes"
    (OrganizationControlUpdate.notes request) (OrganizationControl.notes row).
  kept as_control VControl "control" (OrganizationControl.control row).
  reflexivity.
Qed.

Lemma document_flush_update request row :
  DocumentObject.flush (DocumentObject.update request (DocumentObject.load row))
  = name ← required "name" (DocumentUpdate.name request) (Document.name row);
    Ok {| Document.id := Document.id row;
          Document.name := name;
          Document.description :=
            assigned (DocumentUpdate.description request)
                     (Document.description row);
          Document.file_key := Document.file_key row;
          Document.file_size := Document.file_size row;
          Document.mime_type := Document.mime_type row;
          Document.version := Document.version row;
          Document.expires_at :=
            assigned (DocumentUpdate.expires_at request)
                     (Document.expires_at row);
          Document.organization_id := Document.organization_id row;
          Document.control_id :=
            assigned (DocumentUpdate.control_id request)
                     (Document.control_id row);
          Document.task_id :=
            assigned (DocumentUpdate.task_id request) (Document.task_id row);
          Document.uploaded_by_id := Document.uploaded_by_id row |}.
Proof.
  unfold DocumentObject.flush, DocumentObject.update,
    DocumentUpdate.model_dump_exclude_unset.
  rewrite !setattr_all_dump, setattr_all_dump_last.
  match goal with |- context [nullable _ _ ?x] => set (o := x) end.
  kept as_str VStr "id" (Document.id row).
  updated as_str VStr "name" (DocumentUpdate.name request) (Document.name row).
  updated_nullable as_str VStr "description"
    (DocumentUpdate.description request) (Document.description row).
  kept as_str VStr "file_key" (Document.file_key row).
  kept as_int VInt "file_size" (Document.file_size row).
  kept as_str VStr "mime_type" (Document.mime_type row).
  kept as_int VInt "version" (Document.version row).
  updated_nullable as_datetime VDatetime "expires_at"
    (DocumentUpdate.expires_at request) (Document.expires_at row).
  kept as_str VStr "organization_id" (Document.organization_id row).
  updated_nullable as_str VStr "control_id"
    (DocumentUpdate.control_id request) (Document.control_id row).
  updated_nullable as_str VStr "task_id" (DocumentUpdate.task_id request)
    (Document.task_id row).
  kept as_str VStr "uploaded_by_id" (Document.uploaded_by_id row).
  reflexivity.
Qed.

End flush_after_update.

Section update_handlers.





Lemma required_given {A} name (f : field A) before :
  given_null f = false -> required name f before = Ok (assigned_value f before).
Proof. by destruct f as [|[v|]]. Qed.

Lemma required_null {A} name (f : field A) before :
  given_null f = true ->
  required name f before
  = Raise (IntegrityError ("Column '" +:+ name +:+ "' cannot be null")).
Proof. by destruct f as [|[v|]]. Qed.


End update_handlers.


(** ** The request-scoped session and registration *)

Section registration.

Variable get_password_hash : string -> string.
Variable create_access_token : AuthRouter.TokenData -> string.
Variable create_refresh_token : AuthRouter.TokenData -> string.

(* What a request leaves in the store: the session of a body that returned,
   once committed; the store as it was otherwise. *)
Lemma get_db_commit_or_rollback {A} (body : Store -> result A * Store)
    commit_exn db :
  (exists a, get_db body commit_exn db = (Ok a, snd (body db))
             /\ fst (body db) = Ok a /\ commit_exn = None)
  \/ (exists e, get_db body commit_exn db = (Raise e, db)).
Proof.
  unfold get_db. destruct (body db) as [[a|e] session]; cbn [fst snd].
  - destruct commit_exn as [e|]; [right|left]; by eexists.
  - right. by eexists.
Qed.

(* The first SELECT of register finds a registered email. *)
Lemma select_email_registered db u :
  emails_unique db -> u ∈ users db ->
  filter (fun v => String.eqb (User.email v) (User.email u) = true) (users db)
  = [u].
Proof.
  unfold emails_unique. generalize (users db) as l.
  induction l as [|a l IH]; intros Hnd Hin; [by apply elem_of_nil in Hin|].
  rewrite fmap_cons in Hnd. apply NoDup_cons in Hnd as [Hnotin Hnd].
  apply elem_of_cons in Hin as [->|Hin].
  - rewrite filter_cons_True by apply String.eqb_refl.
    f_equal. apply filter_none. intros v Hv Heq.
    apply String.eqb_eq in Heq. apply Hnotin. rewrite <- Heq.
    by apply list_elem_of_fmap_2.
  - rewrite filter_cons_False; [by apply IH|].
    intros Heq. apply String.eqb_eq in Heq. apply Hnotin. rewrite Heq.
    by apply list_elem_of_fmap_2.
Qed.

(* The handler assigns the str "admin" to [role] and later reads [.value]
   off it: the token step raises, after both rows were flushed. *)
Remark register_raises request organization_id user_id flush_organization
    flush_user db :
  exists e,
    fst (AuthRouter.register get_password_hash create_access_token
           create_refresh_token request organization_id user_id
           flush_organization flush_user db) = Raise e.
Proof.
  unfold AuthRouter.register.
  destruct (scalar_one_or_none _) as [[u|]|e]; cbn [fst]; [by eexists| |by eexists].
  destruct flush_organization as [e|]; cbn [AuthRouter.flush fst]; [by eexists|].
  destruct flush_user as [e|]; cbn; by eexists.
Qed.

(** C5.  A registration request leaves the store either with both new rows
    (the organization and its admin user, when the handler returned and the
    commit went through) or exactly as it was (on any exception).  In
    particular, when the organization row has been flushed and the flush of
    the user row raises, the session holds the organization row at that
    point and the request leaves the store as it was; and when both flushes
    are accepted the session holds both rows, which the exception of the
    token step then rolls back together. *)
Theorem registration_atomic (request : AuthRouter.RegisterRequest)
    (organization_id user_id : string)
    (flush_organization flush_user commit_exn : option exn) (db : Store) :
  let handler :=
    AuthRouter.register get_password_hash create_access_token
      create_refresh_token request organization_id user_id
      flush_organization flush_user db in
  let outcome :=
    AuthRouter.register_request get_password_hash create_access_token
      create_refresh_token request organization_id user_id
      flush_organization flush_user commit_exn db in
  let organization :=
    Organization.mk organization_id (AuthRouter.organization_name request)
      ProfileType.STARTUP in
  ((exists tokens user,
      fst outcome = Ok tokens
      /\ User.email user = AuthRouter.email request
      /\ User.organization_id user = organization_id
      /\ snd outcome
         = AuthRouter.with_users
             (AuthRouter.with_organizations db
                (organizations db ++ [organization]))
             (users db ++ [user]))
   \/ (exists e, fst outcome = Raise e /\ snd outcome = db))
  /\ (scalar_one_or_none
        (filter (fun u => String.eqb (User.email u) (AuthRouter.email request)
                          = true) (users db)) = Ok None ->
      flush_organization = None ->
      (forall e, flush_user = Some e ->
         fst handler = Raise e
         /\ organization ∈ organizations (snd handler)
         /\ outcome = (Raise e, db))
      /\ (flush_user = None ->
          exists user,
            User.email user = AuthRouter.email request
            /\ User.organization_id user = organization_id
            /\ User.role user = UserRole.ADMIN
            /\ snd handler
               = AuthRouter.with_users
                   (AuthRouter.with_organizations db
                      (organizations db ++ [organization]))
                   (users db ++ [user])
            /\ snd outcome = db)).
Proof.
  intros handler outcome organization. split.
  - right. subst outcome. unfold AuthRouter.register_request.
    destruct (register_raises request organization_id user_id
                flush_organization flush_user db) as [e He].
    unfold get_db. fold handler in He |- *.
    destruct handler as [r session]. cbn [fst] in He. subst r.
    exists e. by split.
  - intros Hfree ->. split.
    + intros e ->. subst handler outcome.
      unfold AuthRouter.register_request, get_db, AuthRouter.register.
      rewrite Hfree. cbn. split; [done|]. split; [|done].
      apply elem_of_app. right. apply list_elem_of_here.
    + intros ->. subst handler outcome.
      unfold AuthRouter.register_request, get_db, AuthRouter.register.
      rewrite Hfree. cbn. eexists. by repeat split.
Qed.

(** C9.  With emails unique in the users table, a registration request whose
    email is that of an existing user, of whatever organization, raises the
    duplicate-email error (HTTP 400, "Email already registered"), the
    Conflict kind of the taxonomy; the handler raises it straight after its
    first SELECT, with the session equal to the store, and the request
    leaves the store as it was. *)
Theorem register_duplicate_email (request : AuthRouter.RegisterRequest)
    (organization_id user_id : string)
    (flush_organization flush_user commit_exn : option exn) (db : Store)
    (existing : User.t) :
  emails_unique db ->
  existing ∈ users db ->
  User.email existing = AuthRouter.email request ->
  AuthRouter.register get_password_hash create_access_token
    create_refresh_token request organization_id user_id
    flush_organization flush_user db
  = (Raise (HTTPException HTTP_400_BAD_REQUEST "Email already registered"), db)
  /\ kind_of (HTTPException HTTP_400_BAD_REQUEST "Email already registered")
     = Some Conflict
  /\ AuthRouter.register_request get_password_hash create_access_token
       create_refresh_token request organization_id user_id
       flush_organization flush_user commit_exn db
     = (Raise (HTTPException HTTP_400_BAD_REQUEST "Email already registered"),
        db).
Proof.
  intros Huniq Hin Hemail.
  assert (Hreg : AuthRouter.register get_password_hash create_access_token
            create_refresh_token request organization_id user_id
            flush_organization flush_user db
          = (Raise (HTTPException HTTP_400_BAD_REQUEST
                      "Email already registered"), db)).
  { unfold AuthRouter.register. rewrite <- Hemail.
    by rewrite select_email_registered. }
  split; [exact Hreg|]. split; [reflexivity|].
  unfold AuthRouter.register_request, get_db. by rewrite Hreg.
Qed.

End registration.

Lemma sample_emails_unique : emails_unique Samples.store.
Proof. unfold emails_unique. distinct_keys. Defined.

Lemma registration_atomic_witness :
  scalar_one_or_none
    (filter (fun u => String.eqb (User.email u) "c@gamma.com" = true)
            (users Samples.store)) = Ok None
  /\ AuthRouter.register_request Samples.hash (Samples.token "access")
       (Samples.token "refresh") (Samples.signup "c@gamma.com")
       "org-gamma" "u-gamma" None
       (Some (IntegrityError "Duplicate entry 'c@gamma.com'")) None
       Samples.store
     = (Raise (IntegrityError "Duplicate entry 'c@gamma.com'"), Samples.store).
Proof.
  split; [reflexivity|].
  destruct (registration_atomic Samples.hash (Samples.token "access")
              (Samples.token "refresh") (Samples.signup "c@gamma.com")
              "org-gamma" "u-gamma" None
              (Some (IntegrityError "Duplicate entry 'c@gamma.com'")) None
              Samples.store) as [_ Hfail].
  destruct (Hfail eq_refl eq_refl) as [Hflush _].
  destruct (Hflush _ eq_refl) as (_ & _ & Hout).
  exact Hout.
Defined.

Lemma register_duplicate_email_witness :
  emails_unique Samples.store
  /\ Samples.acme_admin ∈ users Samples.store
  /\ AuthRouter.register_request Samples.hash (Samples.token "access")
       (Samples.token "refresh") (Samples.signup "a@acme.com")
       "org-gamma" "u-gamma" None None None Samples.store
     = (Raise (HTTPException HTTP_400_BAD_REQUEST "Email already registered"),
        Samples.store).
Proof.
  assert (Hin : Samples.acme_admin ∈ users Samples.store) by in_table.
  split; [exact sample_emails_unique|]. split; [exact Hin|].
  destruct (register_duplicate_email Samples.hash (Samples.token "access")
              (Samples.token "refresh") (Samples.signup "a@acme.com")
              "org-gamma" "u-gamma" None None None Samples.store
              Samples.acme_admin sample_emails_unique Hin eq_refl)
    as (_ & _ & Hout).
  exact Hout.
Defined.

(** ** Deleting a document *)

Section document_deletion.

(* When the blob is deleted the row is deleted with it. *)
Lemma delete_document_done db caller document bucket :
  primary_keys_unique db -> document ∈ documents db ->
  Document.organization_id document = organization_id caller ->
  DocumentsRouter.delete_document (Document.id document) caller Storage.S3Done
    bucket db
  = (Ok "Document deleted successfully",
     DocumentsRouter.with_documents db
       (DocumentsRouter.remove_document document (documents db)),
     bucket ∖ {[Document.file_key document]}).
Proof.
  intros (_ & _ & _ & _ & Hd) Hin Horg.
  unfold DocumentsRouter.delete_document, DocumentsRouter.select_document.
  rewrite <- Horg,
    (scoped_select_own_org Document.id Document.organization_id) by done.
  reflexivity.
Qed.

(* An exception other than ClientError leaves the handler before the row is
   deleted. *)
Lemma delete_document_failure db caller document bucket e :
  primary_keys_unique db -> document ∈ documents db ->
  Document.organization_id document = organization_id caller ->
  DocumentsRouter.delete_document (Document.id document) caller
    (Storage.S3Failure e) bucket db
  = (Raise e, db, bucket).
Proof.
  intros (_ & _ & _ & _ & Hd) Hin Horg.
  unfold DocumentsRouter.delete_document, DocumentsRouter.select_document.
  rewrite <- Horg,
    (scoped_select_own_org Document.id Document.organization_id) by done.
  reflexivity.
Qed.

(* delete_file swallows ClientError and answers False; the handler drops the
   answer and deletes the row. *)
Lemma delete_document_client_error db caller document bucket msg :
  primary_keys_unique db -> document ∈ documents db ->
  Document.organization_id document = organization_id caller ->
  DocumentsRouter.delete_document (Document.id document) caller
    (Storage.S3ClientError msg) bucket db
  = (Ok "Document deleted successfully",
     DocumentsRouter.with_documents db
       (DocumentsRouter.remove_document document (documents db)),
     bucket).
Proof.
  intros (_ & _ & _ & _ & Hd) Hin Horg.
  unfold DocumentsRouter.delete_document, DocumentsRouter.select_document.
  rewrite <- Horg,
    (scoped_select_own_org Document.id Document.organization_id) by done.
  reflexivity.
Qed.

(** C6.  delete_document calls the blob store first and deletes the row
    second, but it does not look at what delete_file answers: when the blob
    store refuses the deletion with ClientError, delete_file returns False,
    the handler goes on, the request succeeds and commits, the row of
    document d-1 is gone and its blob is still in the bucket. *)
Theorem delete_document_ignores_blob_failure :
  Storage.delete_file (Storage.S3ClientError "AccessDenied")
    "org-acme/documents/20240101_000000_ab12cd34.pdf"
    {["org-acme/documents/20240101_000000_ab12cd34.pdf"]}
  = (Ok false, {["org-acme/documents/20240101_000000_ab12cd34.pdf"]})
  /\ DocumentsRouter.delete_document_request "d-1" Samples.as_acme
       (Storage.S3ClientError "AccessDenied") None
       {["org-acme/documents/20240101_000000_ab12cd34.pdf"]} Samples.store
     = (Ok "Document deleted successfully",
        DocumentsRouter.with_documents Samples.store
          [Samples.document "d-2" "org-beta"
             "org-beta/documents/20240101_000000_ef56ab78.pdf" None],
        {["org-acme/documents/20240101_000000_ab12cd34.pdf"]}).
Proof. split; reflexivity. Qed.

End document_deletion.

(** ** Organization statistics *)

Section statistics.

(* Adding a timedelta moves the reading, and the instant, by its duration. *)
Lemma local_micros_datetime_add dt td :
  local_micros (OrganizationsRouter.datetime_add dt td)
  = local_micros dt + total_microseconds td.
Proof.
  unfold OrganizationsRouter.datetime_add.
  set (delta := timedelta_add _ td).
  assert (Htotal : total_microseconds delta
                   = local_micros dt + total_microseconds td).
  { subst delta. rewrite total_timedelta_add, total_timedelta_new.
    unfold local_micros. rewrite US_PER_DAY_eq, US_PER_SECOND_eq. lia. }
  assert (Hnormal : 0 <= seconds delta < 86400)
    by (subst delta; unfold timedelta_add; apply timedelta_new_normal).
  unfold local_micros at 1;
    cbn [toordinal hour minute second microsecond tzinfo].
  unfold total_microseconds in Htotal at 1.
  pose proof (Z.div_mod (seconds delta) 3600 ltac:(lia)).
  pose proof (Z.div_mod (seconds delta mod 3600) 60 ltac:(lia)).
  rewrite US_PER_DAY_eq, US_PER_SECOND_eq in *. lia.
Qed.

Lemma utc_micros_datetime_add dt td :
  utc_micros (OrganizationsRouter.datetime_add dt td)
  = utc_micros dt + total_microseconds td.
Proof.
  rewrite !utc_micros_local, local_micros_datetime_add.
  unfold OrganizationsRouter.datetime_add. cbn [tzinfo]. lia.
Qed.

Lemma thirty_days : total_microseconds (timedelta_new 30 0 0) = 30 * US_PER_DAY.
Proof. reflexivity. Qed.

(* The reading of a timestamp without zone or in the UTC zone is its
   instant. *)
Lemma utc_micros_zoneless d :
  tzinfo d = None \/ tzinfo d = Some timezone_utc ->
  utc_micros d = local_micros d.
Proof.
  intros Htz. rewrite utc_micros_local.
  destruct Htz as [-> | ->]; [lia|].
  change (total_microseconds timezone_utc) with 0. lia.
Qed.

(* SUM(IF(cond, 1, 0)), with NULL read as 0, counts the rows with cond. *)
Lemma sum_if_counts {A} (cond : A -> bool) (rows : list A) :
  OrganizationsRouter.or_zero
    (OrganizationsRouter.sql_sum
       (map (fun r => OrganizationsRouter.sql_if (cond r)) rows))
  = Z.of_nat (length (filter (fun r => cond r = true) rows)).
Proof.
  assert (Hsum : fold_right Z.add 0
                   (map (fun r => OrganizationsRouter.sql_if (cond r)) rows)
                 = Z.of_nat (length (filter (fun r => cond r = true) rows))).
  { induction rows as [|r l IH]; [done|].
    cbn [map fold_right]. rewrite IH, filter_cons.
    unfold OrganizationsRouter.sql_if.
    destruct (cond r); [rewrite decide_True by done|rewrite decide_False by done];
      cbn [length]; lia. }
  destruct rows as [|r l]; [done|].
  unfold OrganizationsRouter.sql_sum, OrganizationsRouter.or_zero.
  cbn [map] in *. rewrite Hsum.
  destruct (Z.eqb_spec (Z.of_nat (length (filter (fun r0 => cond r0 = true)
                                            (r :: l)))) 0); congruence.
Qed.

Lemma count_or_zero {A} (rows : list A) :
  OrganizationsRouter.or_zero (Some (OrganizationsRouter.sql_count rows))
  = Z.of_nat (length rows).
Proof.
  unfold OrganizationsRouter.or_zero, OrganizationsRouter.sql_count.
  destruct (Z.eqb_spec (Z.of_nat (length rows)) 0); congruence.
Qed.

(* Two conditions that agree on the rows of a table select the same rows. *)
Lemma filter_agree {A} (P Q : A -> Prop) `{!forall x, Decision (P x)}
    `{!forall x, Decision (Q x)} (l : list A) :
  (forall x, x ∈ l -> P x <-> Q x) -> filter P l = filter Q l.
Proof.
  induction l as [|a l IH]; intros Hagree; [done|].
  rewrite !filter_cons.
  rewrite IH by (intros x Hx; apply Hagree; by right).
  destruct (decide (P a)) as [HP|HP], (decide (Q a)) as [HQ|HQ]; try done;
    exfalso; apply HQ || apply HP; by apply (Hagree a); [left|].
Qed.

(* The two conditions on timestamps, spelled out. *)
Lemma overdue_iff now t :
  TasksRouter.overdue now t = true
  <-> (exists due, Task.due_date t = Some due /\ utc_micros due < utc_micros now)
      /\ Task.status t ≠ TaskStatus.DONE.
Proof.
  unfold TasksRouter.overdue. destruct (Task.due_date t) as [due|].
  - rewrite andb_true_iff, Z.ltb_lt, bool_decide_eq_true. split.
    + intros [Hlt Hs]. split; [by exists due|done].
    + intros [(d & [= <-] & Hlt) Hs]. done.
  - split; [done|]. by intros [(d & Hd & _) _].
Qed.

Lemma expiring_iff now d :
  OrganizationsRouter.expiring now d = true
  <-> exists e, Document.expires_at d = Some e
                /\ utc_micros e <= utc_micros now + 30 * US_PER_DAY.
Proof.
  unfold OrganizationsRouter.expiring. destruct (Document.expires_at d) as [e|].
  - rewrite Z.leb_le. split.
    + intros Hle. by exists e.
    + by intros (e' & [= <-] & Hle).
  - split; [done|]. by intros (e & He & _).
Qed.

(** C7.  get_organization_stats sends IF() to the engine, which SQLite
    before version 3.48, the default engine, does not have: there every call
    raises and no statistics are returned.  On an engine that has IF() the
    figures count over all rows of the caller's organization: the
    organization controls and those completed, in progress and not started;
    the tasks and those done; the documents.  The overdue tasks and the
    expiring documents are counted by the engine, which compares the fields
    of the stored timestamp with the fields of [now] in UTC (of [now] plus
    thirty days): the counts are those of the specification when the
    timestamps of the organization were written without zone or in UTC, and
    differ otherwise; for a task that Acme creates with the due date
    2024-01-01T18:00+09:00, which is 09:00 UTC, the statistics at 10:00 UTC
    do not count it as overdue. *)
Theorem organization_stats (engine : Db.engine) (clock : Z)
    (caller : CurrentUser) (db : Store) :
  let stats :=
    OrganizationsRouter.get_organization_stats engine clock caller db in
  let org := organization_id caller in
  let now := now_utc clock in
  (has_if engine = false -> stats = Raise OperationalError)
  /\ (has_if engine = true ->
      exists resp,
        stats = Ok resp
        /\ OrganizationsRouter.total_controls resp
           = Z.of_nat (length (filter
               (fun c => OrganizationControl.organization_id c = org)
               (organization_controls db)))
        /\ OrganizationsRouter.completed_controls resp
           = Z.of_nat (length (filter
               (fun c => OrganizationControl.organization_id c = org
                         /\ OrganizationControl.status c
                            = ControlStatus.COMPLETED)
               (organization_controls db)))
        /\ OrganizationsRouter.in_progress_controls resp
           = Z.of_nat (length (filter
               (fun c => OrganizationControl.organization_id c = org
                         /\ OrganizationControl.status c
                            = ControlStatus.IN_PROGRESS)
               (organization_controls db)))
        /\ OrganizationsRouter.not_started_controls resp
           = Z.of_nat (length (filter
               (fun c => OrganizationControl.organization_id c = org
                         /\ OrganizationControl.status c
                            = ControlStatus.NOT_STARTED)
               (organization_controls db)))
        /\ OrganizationsRouter.total_tasks resp
           = Z.of_nat (length (filter
               (fun t => Task.organization_id t = org) (tasks db)))
        /\ OrganizationsRouter.completed_tasks resp
           = Z.of_nat (length (filter
               (fun t => Task.organization_id t = org
                         /\ Task.status t = TaskStatus.DONE) (tasks db)))
        /\ OrganizationsRouter.overdue_tasks resp
           = Z.of_nat (length (filter
               (fun t => Task.organization_id t = org
                         /\ Task.status t ≠ TaskStatus.DONE
                         /\ sql_lt (Task.due_date t) now = true) (tasks db)))
        /\ OrganizationsRouter.total_documents resp
           = Z.of_nat (length (filter
               (fun d => Document.organization_id d = org) (documents db)))
        /\ OrganizationsRouter.expiring_documents resp
           = Z.of_nat (length (filter
               (fun d => Document.organization_id d = org
                         /\ sql_le (Document.expires_at d)
                              (OrganizationsRouter.datetime_add now
                                 (timedelta_new 30 0 0)) = true)
               (documents db)))
        /\ ((forall t due, t ∈ tasks db -> Task.organization_id t = org ->
               Task.due_date t = Some due ->
               tzinfo due = None \/ tzinfo due = Some timezone_utc) ->
            OrganizationsRouter.overdue_tasks resp
            = Z.of_nat (length (filter
                (fun t => Task.organization_id t = org
                          /\ TasksRouter.overdue now t = true) (tasks db))))
        /\ ((forall d e, d ∈ documents db -> Document.organization_id d = org ->
               Document.expires_at d = Some e ->
               tzinfo e = None \/ tzinfo e = Some timezone_utc) ->
            OrganizationsRouter.expiring_documents resp
            = Z.of_nat (length (filter
                (fun d => Document.organization_id d = org
                          /\ OrganizationsRouter.expiring now d = true)
                (documents db)))))
  /\ (exists resp,
        OrganizationsRouter.get_organization_stats MySQL Samples.clock
          Samples.as_acme Fixtures.store_with_report = Ok resp
        /\ OrganizationsRouter.overdue_tasks resp = 1
        /\ length (filter
             (fun t => Task.organization_id t = "org-acme"
                       /\ TasksRouter.overdue (now_utc Samples.clock) t = true)
             (tasks Fixtures.store_with_report)) = 2%nat).
Proof.
  intros stats org now. subst stats.
  unfold OrganizationsRouter.get_organization_stats.
  split; [by intros ->|]. split; [|by vm_compute; eexists].
  intros ->. cbn [negb]. eexists. split; [reflexivity|].
  cbn [OrganizationsRouter.total_controls OrganizationsRouter.completed_controls
       OrganizationsRouter.in_progress_controls
       OrganizationsRouter.not_started_controls
       OrganizationsRouter.total_tasks OrganizationsRouter.completed_tasks
       OrganizationsRouter.overdue_tasks OrganizationsRouter.total_documents
       OrganizationsRouter.expiring_documents].
  fold org. fold now.
  rewrite !count_or_zero, !sum_if_counts.
  assert (Horg : forall {A} (org_of : A -> string) (rows : list A),
            filter (fun r => String.eqb (org_of r) org = true) rows
            = filter (fun r => org_of r = org) rows).
  { intros A org_of rows. apply list_filter_iff. intros r.
    by rewrite String.eqb_eq. }
  assert (Hcond : forall {A} (org_of : A -> string) (P : A -> Prop)
                    `{!forall x, Decision (P x)} (rows : list A),
            filter (fun r => bool_decide (P r) = true)
                   (filter (fun r => String.eqb (org_of r) org = true) rows)
            = filter (fun r => org_of r = org /\ P r) rows).
  { intros A org_of P HP rows. rewrite list_filter_filter.
    apply list_filter_iff. intros r.
    rewrite String.eqb_eq, bool_decide_eq_true. tauto. }
  rewrite !Hcond, !Horg.
  assert (Hoverdue :
    filter (fun t => String.eqb (Task.organization_id t) org
                     && bool_decide (Task.status t ≠ TaskStatus.DONE)
                     && sql_lt (Task.due_date t) now = true) (tasks db)
    = filter (fun t => Task.organization_id t = org
                       /\ Task.status t ≠ TaskStatus.DONE
                       /\ sql_lt (Task.due_date t) now = true) (tasks db)).
  { apply list_filter_iff. intros t.
    rewrite !andb_true_iff, String.eqb_eq, bool_decide_eq_true. tauto. }
  assert (Hexpiring :
    filter (fun d => String.eqb (Document.organization_id d) org
                     && bool_decide (Document.expires_at d ≠ None)
                     && sql_le (Document.expires_at d)
                          (OrganizationsRouter.datetime_add now
                             (timedelta_new 30 0 0)) = true) (documents db)
    = filter (fun d => Document.organization_id d = org
                       /\ sql_le (Document.expires_at d)
                            (OrganizationsRouter.datetime_add now
                               (timedelta_new 30 0 0)) = true) (documents db)).
  { apply list_filter_iff. intros d.
    rewrite !andb_true_iff, String.eqb_eq, bool_decide_eq_true.
    destruct (Document.expires_at d); cbn [sql_le]; intuition congruence. }
  rewrite Hoverdue, Hexpiring.
  repeat (split; [reflexivity|]). split.
  - intros Hzone. do 2 f_equal. apply filter_agree. intros t Hin.
    rewrite overdue_iff. unfold sql_lt.
    destruct (Task.due_date t) as [due|] eqn:Hdue.
    + rewrite Z.ltb_lt. subst now. rewrite local_micros_now. split.
      * intros (Ho & Hs & Hlt). split; [done|]. split; [|done].
        exists due. split; [done|].
        by rewrite (utc_micros_zoneless due (Hzone t due Hin Ho Hdue)).
      * intros (Ho & (d & [= <-] & Hlt) & Hs).
        rewrite (utc_micros_zoneless due (Hzone t due Hin Ho Hdue)) in Hlt.
        done.
    + split; [by intros (_ & _ & ?)|]. by intros (_ & (d & Hd & _) & _).
  - intros Hzone. do 2 f_equal. apply filter_agree. intros d Hin.
    rewrite expiring_iff. unfold sql_le.
    rewrite local_micros_datetime_add, thirty_days.
    destruct (Document.expires_at d) as [e|] eqn:He.
    + rewrite Z.leb_le. subst now. rewrite local_micros_now. split.
      * intros (Ho & Hle). split; [done|]. exists e. split; [done|].
        by rewrite (utc_micros_zoneless e (Hzone d e Hin Ho He)).
      * intros (Ho & (e' & [= <-] & Hle)).
        rewrite (utc_micros_zoneless e (Hzone d e Hin Ho He)) in Hle. done.
    + split; [by intros (_ & ?)|]. by intros (_ & (e & ? & _)).
Qed.

End statistics.

(** ** Controls grouped by category *)

Section by_category.

Import ControlsRouter.

Lemma dict_mem_keys cat (d : categories_dict) :
  dict_mem cat d = true <-> cat ∈ d.*1.
Proof.
  induction d as [|[k v] d IH]; cbn.
  - split; [done|]. by intros ?%elem_of_nil.
  - rewrite orb_true_iff, String.eqb_eq, IH, elem_of_cons.
    split; (intros [?|?]; [by left|by right]).
Qed.

Lemma dict_alter_keys f cat (d : categories_dict) :
  (dict_alter f cat d).*1 = d.*1.
Proof.
  induction d as [|[k v] d IH]; [done|]. cbn.
  destruct (String.eqb k cat); cbn; by rewrite ?IH.
Qed.

(* The entries of a dict after categories[cat] = f(categories[cat]). *)
Lemma dict_alter_entries f cat (d : categories_dict) k v :
  NoDup d.*1 ->
  (k, v) ∈ dict_alter f cat d
  <-> (k = cat /\ exists v0, (cat, v0) ∈ d /\ v = f v0)
      \/ (k ≠ cat /\ (k, v) ∈ d).
Proof.
  induction d as [|[k' v'] d IH]; intros Hnd; cbn.
  - split; [by intros ?%elem_of_nil|].
    intros [(_ & v0 & ?%elem_of_nil & _)|[_ ?%elem_of_nil]]; done.
  - cbn in Hnd. apply NoDup_cons in Hnd as [Hk' Hnd].
    destruct (String.eqb_spec k' cat) as [->|Hne].
    + split.
      * intros Hin. apply elem_of_cons in Hin as [[= -> ->]|Hin].
        -- left. split; [done|]. exists v'. split; [by left|done].
        -- right. split; [|by right]. intros ->. apply Hk'.
           by apply (list_elem_of_fmap_2 fst) in Hin.
      * intros [(-> & v0 & Hin & ->)|[Hne Hin]].
        -- apply elem_of_cons in Hin as [[= ->]|Hin]; [by left|].
           exfalso. apply Hk'. by apply (list_elem_of_fmap_2 fst) in Hin.
        -- apply elem_of_cons in Hin as [[= -> ->]|Hin]; [done|by right].
    + split.
      * intros Hin. apply elem_of_cons in Hin as [[= -> ->]|Hin].
        -- right. split; [done|by left].
        -- apply (IH Hnd) in Hin as [(-> & v0 & Hin & ->)|[Hk Hin]].
           ++ left. split; [done|]. exists v0. split; [by right|done].
           ++ right. split; [done|by right].
      * intros [(-> & v0 & Hin & ->)|[Hk Hin]].
        -- apply elem_of_cons in Hin as [[= ->]|Hin]; [done|].
           right. apply (IH Hnd). left. split; [done|]. by exists v0.
        -- apply elem_of_cons in Hin as [[= -> ->]|Hin]; [by left|].
           right. apply (IH Hnd). right. done.
Qed.

Lemma grouped_nil : grouped [] [].
Proof.
  split; [apply NoDup_nil_2|]. split.
  - by intros cat data ?%elem_of_nil.
  - by intros c ?%elem_of_nil.
Qed.

(* What the completed counter of an entry holds after one more control. *)
Lemma completed_snoc (l : list OrganizationControl.t) c :
  Z.of_nat (length (filter
    (fun c => OrganizationControl.status c = ControlStatus.COMPLETED)
    (l ++ [c])))
  = if bool_decide (OrganizationControl.status c = ControlStatus.COMPLETED)
    then Z.of_nat (length (filter
           (fun c => OrganizationControl.status c = ControlStatus.COMPLETED) l))
         + 1
    else Z.of_nat (length (filter
           (fun c => OrganizationControl.status c = ControlStatus.COMPLETED) l)).
Proof.
  rewrite filter_app, length_app.
  destruct (decide (OrganizationControl.status c = ControlStatus.COMPLETED))
    as [Hc|Hc].
  - rewrite bool_decide_eq_true_2, filter_cons_True by done. cbn. lia.
  - rewrite bool_decide_eq_false_2, filter_cons_False by done. cbn. lia.
Qed.

(* One turn of the grouping loop. *)
Lemma grouped_step l d c :
  grouped l d -> grouped (l ++ [c]) (group_control d c).
Proof.
  intros (Hnd & Hent & Hcov). unfold group_control.
  set (cat := Control.category (OrganizationControl.control c)).
  set (fresh := {| data_category := cat;
                   data_category_name_en :=
                     Control.category_name_en (OrganizationControl.control c);
                   data_category_name_ko :=
                     Control.category_name_ko (OrganizationControl.control c);
                   data_controls := []; data_completed := 0 |}).
  set (d0 := if dict_mem cat d then d else d ++ [(cat, fresh)]).
  set (f := fun data => {| data_category := data_category data;
                           data_category_name_en := data_category_name_en data;
                           data_category_name_ko := data_category_name_ko data;
                           data_controls := data_controls data ++ [c];
                           data_completed := _ |}).
  (* the dict with the entry of the category in place *)
  assert (Hnd0 : NoDup d0.*1).
  { subst d0. destruct (dict_mem cat d) eqn:Hmem; [done|].
    rewrite fmap_app. apply NoDup_app. split; [done|]. split.
    - intros k Hk Hk'. cbn in Hk'. apply list_elem_of_singleton in Hk' as ->.
      apply dict_mem_keys in Hk. congruence.
    - apply NoDup_singleton. }
  assert (Hsub : forall k, k ∈ d.*1 -> k ∈ d0.*1).
  { intros k Hk. subst d0. destruct (dict_mem cat d); [done|].
    rewrite fmap_app. apply elem_of_app. by left. }
  assert (Hcat : cat ∈ d0.*1).
  { subst d0. destruct (dict_mem cat d) eqn:Hmem.
    - by apply dict_mem_keys.
    - rewrite fmap_app. apply elem_of_app. right. apply list_elem_of_here. }
  assert (Hent0 : forall k v, (k, v) ∈ d0 ->
            data_category v = k
            /\ data_controls v
               = filter (fun c' =>
                   Control.category (OrganizationControl.control c') = k) l
            /\ data_completed v
               = Z.of_nat (length (filter
                   (fun c' => OrganizationControl.status c'
                              = ControlStatus.COMPLETED) (data_controls v)))).
  { intros k v Hin. subst d0. destruct (dict_mem cat d) eqn:Hmem.
    - destruct (Hent k v Hin) as (? & ? & _ & ?). done.
    - apply elem_of_app in Hin as [Hin|Hin].
      + destruct (Hent k v Hin) as (? & ? & _ & ?). done.
      + apply list_elem_of_singleton in Hin as [= -> ->].
        split; [done|]. split; [|done]. cbn [fresh data_controls].
        symmetry. apply filter_none. intros c' Hc' Hk.
        apply Hcov, dict_mem_keys in Hc'. fold cat in Hk. congruence. }
  split; [|split].
  - by rewrite dict_alter_keys.
  - intros k data Hin.
    apply dict_alter_entries in Hin as [(-> & v0 & Hin & ->)|[Hk Hin]]; [| |done].
    + destruct (Hent0 cat v0 Hin) as (Hc & Hl & Hn).
      cbn [f data_category data_controls data_completed].
      split; [done|]. split; [|split].
      * rewrite Hl, filter_app, filter_cons_True by done. done.
      * by destruct (data_controls v0).
      * rewrite completed_snoc, <- Hn. done.
    + assert (Hin' : (k, data) ∈ d).
      { subst d0. destruct (dict_mem cat d); [done|].
        apply elem_of_app in Hin as [Hin|Hin]; [done|].
        apply list_elem_of_singleton in Hin as [= -> ->]. done. }
      destruct (Hent k data Hin') as (Hc & Hl & Hne & Hn).
      split; [done|]. split; [|by split].
      rewrite Hl, filter_app, filter_cons_False; [by rewrite app_nil_r|].
      fold cat. congruence.
  - intros c' Hc'. rewrite dict_alter_keys.
    apply elem_of_app in Hc' as [Hc'|Hc'].
    + by apply Hsub, Hcov.
    + by apply list_elem_of_singleton in Hc' as ->.
Qed.

Lemma grouped_fold rest l d :
  grouped l d -> grouped (l ++ rest) (fold_left group_control rest d).
Proof.
  revert l d. induction rest as [|c rest IH]; intros l d Hg; cbn [fold_left].
  - by rewrite app_nil_r.
  - replace (l ++ c :: rest) with ((l ++ [c]) ++ rest)
      by (by rewrite <- app_assoc).
    apply IH. by apply grouped_step.
Qed.

(* The order on str is a strict total order. *)
Lemma str_lt_compare a b : str_lt a b <-> String.compare a b = Lt.
Proof. unfold str_lt, String.ltb. by destruct (String.compare a b). Qed.

Lemma str_lt_trans a b c : str_lt a b -> str_lt b c -> str_lt a c.
Proof.
  rewrite !str_lt_compare.
  change String.compare with OrderedTypeEx.String_as_OT.cmp.
  rewrite !OrderedTypeEx.String_as_OT.cmp_lt.
  apply OrderedTypeEx.String_as_OT.lt_trans.
Qed.

Lemma str_lt_total a b : a ≠ b -> String.ltb a b = false -> str_lt b a.
Proof.
  intros Hne Hlt. apply str_lt_compare. rewrite String.compare_antisym.
  unfold String.ltb in Hlt. destruct (String.compare a b) eqn:Hc; try done.
  by apply String.compare_eq_iff in Hc.
Qed.

Lemma str_lt_irrefl a : ~ str_lt a a.
Proof.
  rewrite str_lt_compare. pose proof (String.compare_antisym a a) as H.
  destruct (String.compare a a); cbn in H; congruence.
Qed.

Lemma insert_sorted_perm x l : insert_sorted x l ≡ₚ x :: l.
Proof.
  induction l as [|y l IH]; cbn; [done|].
  destruct (String.ltb _ _); [done|]. rewrite IH. apply Permutation_swap.
Qed.

Lemma insert_all_perm l acc :
  fold_left (fun acc x => insert_sorted x acc) l acc ≡ₚ l ++ acc.
Proof.
  revert acc. induction l as [|x l IH]; intros acc; cbn [fold_left]; [done|].
  rewrite IH, insert_sorted_perm. cbn. symmetry. apply Permutation_middle.
Qed.

Lemma sorted_by_category_perm l : sorted_by_category l ≡ₚ l.
Proof. unfold sorted_by_category. by rewrite insert_all_perm, app_nil_r. Qed.

(* Inserting a value whose key is new keeps the list strictly ascending. *)
Lemma insert_sorted_sorted x l :
  Sorted category_lt l ->
  data_category x ∉ data_category <$> l ->
  Sorted category_lt (insert_sorted x l).
Proof.
  induction l as [|y l IH]; intros Hs Hnew; cbn.
  - by repeat constructor.
  - apply Sorted_inv in Hs as [Hs Hhd].
    rewrite fmap_cons in Hnew. apply not_elem_of_cons in Hnew as [Hne Hnew].
    destruct (String.ltb (data_category x) (data_category y)) eqn:Hlt.
    + constructor; [by constructor|]. by constructor.
    + constructor; [by apply IH|].
      assert (Hyx : category_lt y x) by (by apply str_lt_total).
      destruct l as [|z l]; cbn.
      * by constructor.
      * destruct (String.ltb (data_category x) (data_category z));
          constructor; [done|]. by apply HdRel_inv in Hhd.
Qed.

Lemma insert_all_sorted l acc :
  Sorted category_lt acc ->
  NoDup (data_category <$> (l ++ acc)) ->
  Sorted category_lt (fold_left (fun acc x => insert_sorted x acc) l acc).
Proof.
  revert acc. induction l as [|x l IH]; intros acc Hs Hnd; cbn [fold_left];
    [done|].
  cbn in Hnd. apply NoDup_cons in Hnd as [Hx Hnd].
  rewrite fmap_app in Hx, Hnd. apply IH.
  - apply insert_sorted_sorted; [done|].
    intros Hin. apply Hx, elem_of_app. by right.
  - rewrite fmap_app, insert_sorted_perm, fmap_cons.
    rewrite <- Permutation_middle. apply NoDup_cons. split; [|done].
    done.
Qed.

Lemma sorted_by_category_sorted l :
  NoDup (data_category <$> l) ->
  StronglySorted category_lt (sorted_by_category l).
Proof.
  intros Hnd. apply Sorted_StronglySorted.
  - intros x y z. apply str_lt_trans.
  - apply insert_all_sorted; [constructor|by rewrite app_nil_r].
Qed.

Lemma entry_keys (d : categories_dict) :
  (forall k v, (k, v) ∈ d -> data_category v = k) ->
  data_category <$> d.*2 = d.*1.
Proof.
  induction d as [|[k v] d IH]; intros Hk; [done|]. cbn. f_equal.
  - apply Hk. by left.
  - apply IH. intros k' v' Hin. apply Hk. by right.
Qed.

(** C8.  list_controls_by_category returns one group per category code met
    among the organization controls of the caller's organization (all of
    them, no filter), in strictly ascending order of the category code; a
    group holds exactly the organization controls of its category, its total
    is their number and its completed count the number of those whose status
    is completed. *)
Theorem controls_by_category (caller : CurrentUser) (db : Store) :
  let rows :=
    filter (fun c => OrganizationControl.organization_id c
                     = organization_id caller) (organization_controls db) in
  let groups := list_controls_by_category caller db in
  StronglySorted (fun g h => str_lt (category g) (category h)) groups
  /\ (forall g, g ∈ groups ->
        controls g
        = filter (fun c => Control.category (OrganizationControl.control c)
                           = category g) rows
        /\ controls g ≠ []
        /\ cat_total g = Z.of_nat (length (controls g))
        /\ completed g
           = Z.of_nat (length (filter
               (fun c => OrganizationControl.status c = ControlStatus.COMPLETED)
               (controls g))))
  /\ (forall c, c ∈ rows ->
        exists g, g ∈ groups
                  /\ category g
                     = Control.category (OrganizationControl.control c)).
Proof.
  intros rows groups. subst groups. unfold list_controls_by_category.
  assert (Hrows : filter (fun c =>
                    String.eqb (OrganizationControl.organization_id c)
                               (organization_id caller) = true)
                    (organization_controls db) = rows).
  { apply list_filter_iff. intros c. by rewrite String.eqb_eq. }
  rewrite Hrows.
  set (d := fold_left group_control rows []).
  destruct (grouped_fold rows [] [] grouped_nil) as (Hnd & Hent & Hcov).
  fold d in Hnd, Hent, Hcov. cbn [app] in Hent, Hcov.
  assert (Hkeys : data_category <$> d.*2 = d.*1).
  { apply entry_keys. intros k v Hin. by destruct (Hent k v Hin). }
  split; [|split].
  - apply (StronglySorted_fmap _ category_lt); [by intros x y|].
    apply sorted_by_category_sorted. by rewrite Hkeys.
  - intros g Hg. apply list_elem_of_fmap in Hg as (data & -> & Hdata).
    rewrite sorted_by_category_perm in Hdata.
    apply list_elem_of_fmap in Hdata as ([k v] & -> & Hin).
    destruct (Hent k v Hin) as (Hc & Hl & Hne & Hn).
    cbn [controls category cat_total completed snd]. rewrite Hc. done.
  - intros c Hc. apply Hcov in Hc.
    apply list_elem_of_fmap in Hc as ([k v] & Hk & Hin). cbn in Hk.
    destruct (Hent k v Hin) as (Hcat & _).
    eexists. split.
    + apply list_elem_of_fmap_2. rewrite sorted_by_category_perm.
      apply (list_elem_of_fmap_2 snd). exact Hin.
    + cbn [category snd]. congruence.
Qed.

End by_category.

Lemma controls_by_category_witness :
  Samples.adoption "oc-2" "org-acme" ControlStatus.IN_PROGRESS Samples.a51
  ∈ filter (fun c => OrganizationControl.organization_id c
                     = organization_id Samples.as_acme)
           (organization_controls Samples.store)
  /\ exists g,
       g ∈ ControlsRouter.list_controls_by_category Samples.as_acme
             Samples.store
       /\ ControlsRouter.category g = "A.5"
       /\ ControlsRouter.cat_total g
          = Z.of_nat (length (ControlsRouter.controls g))
       /\ ControlsRouter.completed g
          = Z.of_nat (length (filter
              (fun c => OrganizationControl.status c = ControlStatus.COMPLETED)
              (ControlsRouter.controls g))).
Proof.
  assert (Hin : Samples.adoption "oc-2" "org-acme" ControlStatus.IN_PROGRESS
                  Samples.a51
                ∈ filter (fun c => OrganizationControl.organization_id c
                                   = organization_id Samples.as_acme)
                         (organization_controls Samples.store)).
  { apply list_elem_of_filter. split; [reflexivity|in_table]. }
  split; [exact Hin|].
  destruct (controls_by_category Samples.as_acme Samples.store)
    as (_ & Hgroup & Hcover).
  destruct (Hcover _ Hin) as (g & Hg & Hcat).
  exists g. destruct (Hgroup g Hg) as (_ & _ & Htotal & Hcompleted).
  split; [exact Hg|]. split; [exact Hcat|]. split; [exact Htotal|].
  exact Hcompleted.
Defined.

(* Acme's controls in the sample store: category A.5 before A.6, two controls
   in A.5 of which one is completed. *)
Example list_controls_by_category_sample :
  (fun g => (ControlsRouter.category g,
             OrganizationControl.id <$> ControlsRouter.controls g,
             ControlsRouter.cat_total g, ControlsRouter.completed g))
  <$> ControlsRouter.list_controls_by_category Samples.as_acme Samples.store
  = [("A.5", ["oc-2"; "oc-4"], 2, 1); ("A.6", ["oc-1"], 1, 1)].
Proof. vm_compute. reflexivity. Qed.

(* The statistics of Acme in the sample store at 2024-01-01T10:00Z, on MySQL
   and on the SQLite 3.45 of a default installation. *)
Example get_organization_stats_sample :
  OrganizationsRouter.get_organization_stats MySQL Samples.clock
    Samples.as_acme Samples.store
  = Ok (OrganizationsRouter.mk_stats 3 2 1 0 2 1 1 1 1)
  /\ OrganizationsRouter.get_organization_stats (SQLite 3 45) Samples.clock
       Samples.as_acme Samples.store
     = Raise OperationalError.
Proof. vm_compute. split; reflexivity. Qed.

(** ** The counters of the listings, key by key *)

Section per_key_counts.

Lemma default_counted n : default 0 (TaskHandlers.counted n) = Z.of_nat n.
Proof. by destruct n. Qed.

(* d[key] = d.get(key, 0) + 1 counts one more row under the key and leaves
   the other keys alone. *)
Lemma counted_step {A} (key : A -> string) (l : list A) (d : gmap string Z) x :
  (forall k, d !! k
             = TaskHandlers.counted (length (filter (fun y => key y = k) l))) ->
  forall k, <[key x := default 0 (d !! key x) + 1]> d !! k
            = TaskHandlers.counted
                (length (filter (fun y => key y = k) (l ++ [x]))).
Proof.
  intros Hd k. rewrite filter_app, length_app.
  destruct (decide (key x = k)) as [<-|Hne].
  - rewrite lookup_insert_eq, Hd, default_counted.
    rewrite (filter_cons_True _ x) by done. cbn [filter list_filter length].
    rewrite Nat.add_1_r. cbn [TaskHandlers.counted]. f_equal. lia.
  - rewrite lookup_insert_ne by done.
    rewrite (filter_cons_False _ x) by done. cbn [filter list_filter length].
    rewrite Nat.add_0_r. apply Hd.
Qed.

Lemma tally_counted now tasks pre bs bp n bs' bp' n' :
  (forall k, bs !! k
     = TaskHandlers.counted
         (length (filter (fun t => TaskStatus.value (Task.status t) = k) pre))) ->
  (forall k, bp !! k
     = TaskHandlers.counted
         (length (filter (fun t => TaskPriority.value (Task.priority t) = k)
                         pre))) ->
  TasksRouter.tally now tasks (bs, bp, n) = Ok (bs', bp', n') ->
  (forall k, bs' !! k
     = TaskHandlers.counted
         (length (filter (fun t => TaskStatus.value (Task.status t) = k)
                         (pre ++ tasks))))
  /\ (forall k, bp' !! k
        = TaskHandlers.counted
            (length (filter (fun t => TaskPriority.value (Task.priority t) = k)
                            (pre ++ tasks)))).
Proof.
  revert pre bs bp n. induction tasks as [|t l IH]; intros pre bs bp n Hs Hp.
  - intros [= <- <- <-]. by rewrite app_nil_r.
  - cbn [TasksRouter.tally]. unfold TasksRouter.tally_task at 1.
    destruct (TasksRouter.overdue_test now t) as [b|e];
      cbn [mbind result_bind bind]; [|discriminate].
    intros Hrest.
    replace (pre ++ t :: l) with ((pre ++ [t]) ++ l)
      by (by rewrite <- app_assoc).
    eapply IH; [| |exact Hrest].
    + apply (counted_step (fun t => TaskStatus.value (Task.status t))), Hs.
    + apply (counted_step (fun t => TaskPriority.value (Task.priority t))), Hp.
Qed.

Lemma count_by_counted (key : OrganizationControl.t -> string) controls pre d :
  (forall k, d !! k
     = TaskHandlers.counted (length (filter (fun c => key c = k) pre))) ->
  forall k,
    fold_left (fun d ctrl => ControlsRouter.incr d (key ctrl)) controls d !! k
    = TaskHandlers.counted
        (length (filter (fun c => key c = k) (pre ++ controls))).
Proof.
  revert pre d. induction controls as [|c l IH]; intros pre d Hd k;
    cbn [fold_left].
  - rewrite app_nil_r. apply Hd.
  - replace (pre ++ c :: l) with ((pre ++ [c]) ++ l)
      by (by rewrite <- app_assoc).
    apply IH. apply (counted_step key), Hd.
Qed.

Lemma TaskStatus_value_inj s s' :
  TaskStatus.value s = TaskStatus.value s' -> s = s'.
Proof. by destruct s, s'. Qed.

Lemma TaskPriority_value_inj p p' :
  TaskPriority.value p = TaskPriority.value p' -> p = p'.
Proof. by destruct p, p'. Qed.

Lemma ControlStatus_value_inj s s' :
  ControlStatus.value s = ControlStatus.value s' -> s = s'.
Proof. by destruct s, s'. Qed.

(* No row has a key outside the image of [key]. *)
Lemma counted_no_row {A} (key : A -> string) (l : list A) k :
  (forall x, key x ≠ k) ->
  TaskHandlers.counted (length (filter (fun y => key y = k) l)) = None.
Proof.
  intros Hk. rewrite (filter_none (fun y => key y = k)); [done|].
  intros x _. apply Hk.
Qed.

(** X1.  In a response of list_tasks, [by_status] holds under the value of
    each status the number of returned tasks that have this status, and no
    entry for a status that no returned task has or for any other key; the
    same for [by_priority] and the priorities. *)
Theorem list_tasks_counts_per_key (ilike : string -> string -> bool)
    (clock : Z) (status : option TaskStatus.t)
    (priority : option TaskPriority.t) (control_id assignee_id : option string)
    (overdue_only : bool) (search : option string) (caller : CurrentUser)
    (db : Store) (resp : TasksRouter.TaskListResponse) :
  TasksRouter.list_tasks ilike clock status priority control_id assignee_id
    overdue_only search caller db = Ok resp ->
  (forall s,
     TasksRouter.by_status resp !! TaskStatus.value s
     = TaskHandlers.counted
         (length (filter (fun t => Task.status t = s)
                         (TasksRouter.resp_tasks resp))))
  /\ (forall k, (forall s, TaskStatus.value s ≠ k) ->
                TasksRouter.by_status resp !! k = None)
  /\ (forall p,
        TasksRouter.by_priority resp !! TaskPriority.value p
        = TaskHandlers.counted
            (length (filter (fun t => Task.priority t = p)
                            (TasksRouter.resp_tasks resp))))
  /\ (forall k, (forall p, TaskPriority.value p ≠ k) ->
                TasksRouter.by_priority resp !! k = None).
Proof.
  unfold TasksRouter.list_tasks.
  set (selected := fetched_task <$> _).
  destruct (TasksRouter.tally (now_utc clock) selected (∅, ∅, 0))
    as [[[bs bp] n]|e] eqn:Htally;
    cbn [mbind result_bind bind]; [|discriminate].
  intros [= <-]. cbn [TasksRouter.resp_tasks TasksRouter.by_status
    TasksRouter.by_priority].
  apply (tally_counted _ _ []) in Htally as [Hs Hp];
    [|intros k; apply lookup_empty..].
  rewrite app_nil_l in Hs, Hp.
  split; [|split; [|split]].
  - intros s. rewrite Hs. do 2 f_equal. apply list_filter_iff.
    intros t. split; [apply TaskStatus_value_inj|congruence].
  - intros k Hk. rewrite Hs.
    apply (counted_no_row (fun t => TaskStatus.value (Task.status t))).
    intros t. apply Hk.
  - intros p. rewrite Hp. do 2 f_equal. apply list_filter_iff.
    intros t. split; [apply TaskPriority_value_inj|congruence].
  - intros k Hk. rewrite Hp.
    apply (counted_no_row (fun t => TaskPriority.value (Task.priority t))).
    intros t. apply Hk.
Qed.

(** X2.  In a response of list_controls (there is one unless both
    [category] and [search] are given), [by_status] holds under the value of
    each status the number of returned controls in this status, and
    [by_category] under each category the number of returned controls of
    this category; a key that no returned control has is absent. *)
Theorem list_controls_counts_per_key (ilike : string -> string -> bool)
    (status : option ControlStatus.t) (category search : option string)
    (caller : CurrentUser) (db : Store)
    (resp : ControlsRouter.ControlListResponse) :
  ControlsRouter.list_controls ilike status category search caller db
  = Ok resp ->
  (forall s,
     ControlsRouter.by_status resp !! ControlStatus.value s
     = TaskHandlers.counted
         (length (filter (fun c => OrganizationControl.status c = s)
                         (ControlsRouter.resp_controls resp))))
  /\ (forall k, (forall s, ControlStatus.value s ≠ k) ->
                ControlsRouter.by_status resp !! k = None)
  /\ (forall k,
        ControlsRouter.by_category resp !! k
        = TaskHandlers.counted
            (length (filter
               (fun c => Control.category (OrganizationControl.control c) = k)
               (ControlsRouter.resp_controls resp)))).
Proof.
  unfold ControlsRouter.list_controls.
  destruct (truthy_str category && truthy_str search); [discriminate|].
  intros [= <-].
  cbn [ControlsRouter.resp_controls ControlsRouter.by_status
       ControlsRouter.by_category].
  set (controls := filter _ (organization_controls db)).
  unfold ControlsRouter.count_by.
  pose proof (fun key => count_by_counted key controls [] ∅
                (fun k => lookup_empty k)) as Hcount.
  split; [|split].
  - intros s. rewrite Hcount, app_nil_l. do 2 f_equal. apply list_filter_iff.
    intros c. split; [apply ControlStatus_value_inj|congruence].
  - intros k Hk. rewrite Hcount, app_nil_l.
    apply (counted_no_row
             (fun c => ControlStatus.value (OrganizationControl.status c))).
    intros c. apply Hk.
  - intros k. by rewrite Hcount, app_nil_l.
Qed.

End per_key_counts.

Lemma list_tasks_counts_per_key_witness :
  exists resp,
    TasksRouter.list_tasks (fun _ _ => true) Samples.clock
      (Some TaskStatus.DONE) None None None false None Samples.as_acme
      Samples.store = Ok resp
    /\ TasksRouter.by_status resp !! "done"
       = TaskHandlers.counted
           (length (filter (fun t => Task.status t = TaskStatus.DONE)
                           (TasksRouter.resp_tasks resp))).
Proof.
  destruct (TasksRouter.list_tasks (fun _ _ => true) Samples.clock
              (Some TaskStatus.DONE) None None None false None Samples.as_acme
              Samples.store)
    as [resp|e] eqn:Hresp.
  - exists resp. split; [reflexivity|].
    exact (proj1 (list_tasks_counts_per_key _ _ _ _ _ _ _ _ _ _ resp Hresp)
             TaskStatus.DONE).
  - vm_compute in Hresp. discriminate.
Defined.

Lemma list_controls_counts_per_key_witness :
  exists resp,
    ControlsRouter.list_controls (fun _ _ => true) None (Some "A.5") None
      Samples.as_acme Samples.store = Ok resp
    /\ ControlsRouter.by_category resp !! "A.5"
       = TaskHandlers.counted
           (length (filter
              (fun c => Control.category (OrganizationControl.control c)
                        = "A.5")
              (ControlsRouter.resp_controls resp))).
Proof.
  destruct (ControlsRouter.list_controls (fun _ _ => true) None (Some "A.5")
              None Samples.as_acme Samples.store) as [resp|e] eqn:Hresp.
  - exists resp. split; [reflexivity|].
    exact (proj2 (proj2 (list_controls_counts_per_key _ _ _ _ _ _ resp Hresp))
             "A.5").
  - vm_compute in Hresp. discriminate.
Defined.

(** ** Upcoming tasks and their D-day labels *)

Section upcoming.

(* calculate_dday gives a naive due date the UTC zone before it subtracts,
   and so always returns. *)
Lemma calculate_dday_returns clock due :
  exists label overdue, calculate_dday clock due = Ok (label, overdue).
Proof.
  destruct due as [due|]; [|by eexists _, _].
  unfold calculate_dday.
  set (d := match tzinfo due with
            | None => replace_tzinfo due timezone_utc
            | Some _ => due
            end).
  assert (exists o, tzinfo d = Some o) as [o Ho]
    by (subst d; destruct (tzinfo due) eqn:E; eauto).
  unfold datetime_sub. cbn [replace_time tzinfo now_utc]. rewrite Ho.
  destruct (decide (o = timezone_utc)); cbn [mbind result_bind bind];
    repeat case_match; by eexists _, _.
Qed.

Lemma add_dday_spec readings i tasks :
  exists items,
    TaskHandlers.add_dday readings i tasks = Ok items
    /\ TaskHandlers.task <$> items = tasks
    /\ forall j item, items !! j = Some item ->
         calculate_dday (readings (i + j)%nat)
           (Task.due_date (TaskHandlers.task item))
         = Ok (TaskHandlers.dday item, TaskHandlers.is_overdue item).
Proof.
  revert i. induction tasks as [|t l IH]; intros i.
  - exists []. by repeat split.
  - cbn [TaskHandlers.add_dday].
    destruct (calculate_dday_returns (readings i) (Task.due_date t))
      as (label & overdue & Hd).
    rewrite Hd. cbn [mbind result_bind bind].
    destruct (IH (S i)) as (items & -> & Htasks & Hitems).
    cbn [mbind result_bind bind]. eexists. split; [reflexivity|]. split.
    + cbn. by rewrite Htasks.
    + intros [|j] item; cbn.
      * intros [= <-]. cbn. by rewrite Nat.add_0_r.
      * intros Hj. rewrite Nat.add_succ_r. by apply Hitems.
Qed.

Lemma whole_days days :
  total_microseconds (timedelta_new days 0 0) = days * US_PER_DAY.
Proof. rewrite total_timedelta_new, US_PER_DAY_eq, US_PER_SECOND_eq. lia. Qed.

(* The WHERE clause of the query: the engine compares the fields the column
   holds with the fields of [future], which is in UTC. *)
Lemma upcoming_clause_spec clock days org t :
  TaskHandlers.upcoming_clause
    (OrganizationsRouter.datetime_add (now_utc clock) (timedelta_new days 0 0))
    org t = true
  <-> Task.organization_id t = org
      /\ Task.status t ≠ TaskStatus.DONE
      /\ exists due, Task.due_date t = Some due
                     /\ local_micros due
                        <= utc_micros (now_utc clock) + days * US_PER_DAY.
Proof.
  unfold TaskHandlers.upcoming_clause, sql_le.
  rewrite !andb_true_iff, String.eqb_eq, !bool_decide_eq_true.
  rewrite local_micros_datetime_add, whole_days, local_micros_now.
  destruct (Task.due_date t) as [due|].
  - rewrite Z.leb_le. split.
    + intros (((Ho & Hs) & _) & Hle). eauto.
    + intros (Ho & Hs & due' & [= <-] & Hle). done.
  - split; [intros [_ ?]; discriminate|].
    intros (_ & _ & due & ? & _). discriminate.
Qed.

Lemma due_date_le_total : Total TasksRouter.due_date_le.
Proof.
  intros a b. unfold TasksRouter.due_date_le, TasksRouter.due_date_leb.
  destruct (Task.due_date a), (Task.due_date b); auto.
  rewrite !Z.leb_le. lia.
Qed.

Lemma due_date_le_trans : Transitive TasksRouter.due_date_le.
Proof.
  intros a b c. unfold TasksRouter.due_date_le, TasksRouter.due_date_leb.
  destruct (Task.due_date a), (Task.due_date b), (Task.due_date c);
    try done.
  rewrite !Z.leb_le. lia.
Qed.

Lemma strongly_sorted_lookup {A} (R : relation A) (l : list A) i j x y :
  StronglySorted R l -> (i < j)%nat -> l !! i = Some x -> l !! j = Some y ->
  R x y.
Proof.
  intros Hs. revert i j. induction Hs as [|a l Hs IH Hall]; intros i j Hij.
  - by rewrite lookup_nil.
  - destruct j as [|j]; [lia|]. destruct i as [|i]; cbn.
    + intros [= <-] Hy. by eapply Forall_lookup_1.
    + apply IH. lia.
Qed.

Lemma order_by_due_date_sorted rows :
  StronglySorted TasksRouter.due_date_le (TasksRouter.order_by_due_date rows).
Proof.
  apply (@StronglySorted_merge_sort _ TasksRouter.due_date_le
           TasksRouter.due_date_le_dec due_date_le_trans due_date_le_total).
Qed.

(* The due date of a fetched task is the stored one without its zone. *)
Lemma fetched_due_date t due :
  Task.due_date (fetched_task t) = Some due ->
  exists stored, Task.due_date t = Some stored /\ due = fetched stored.
Proof.
  cbn [fetched_task Task.due_date].
  destruct (Task.due_date t) as [stored|]; [|done].
  intros [= <-]. by exists stored.
Qed.

(* What list_upcoming_tasks returns. *)
Lemma list_upcoming_tasks_spec days clock readings caller db :
  exists items,
    TaskHandlers.list_upcoming_tasks days clock readings caller db = Ok items
    /\ TaskHandlers.task <$> items
       = fetched_task
         <$> TasksRouter.order_by_due_date
               (filter (fun t =>
                          TaskHandlers.upcoming_clause
                            (OrganizationsRouter.datetime_add (now_utc clock)
                               (timedelta_new days 0 0))
                            (organization_id caller) t = true)
                       (tasks db))
    /\ forall j item, items !! j = Some item ->
         calculate_dday (readings j) (Task.due_date (TaskHandlers.task item))
         = Ok (TaskHandlers.dday item, TaskHandlers.is_overdue item).
Proof.
  unfold TaskHandlers.list_upcoming_tasks.
  destruct (add_dday_spec readings 0
              (fetched_task
               <$> TasksRouter.order_by_due_date
                     (filter (fun t =>
                                TaskHandlers.upcoming_clause
                                  (OrganizationsRouter.datetime_add
                                     (now_utc clock) (timedelta_new days 0 0))
                                  (organization_id caller) t = true)
                             (tasks db))))
    as (items & Hitems & Htasks & Hd).
  exists items. split; [exact Hitems|]. split; [exact Htasks|]. exact Hd.
Qed.

(** X3.  list_upcoming_tasks always returns.  It returns, each as often as
    the table holds it, the tasks of the caller's organization that are not
    done and whose stored due date, read without its zone, is at most [days]
    days after now in UTC; each returned task carries its due date without
    zone.  The tasks come in ascending order of these readings, and each
    carries the label and flag calculate_dday gives to the due date it
    carries: those of the D-day rule for the difference between the date the
    column holds and the UTC date of now. *)
Theorem upcoming_tasks_listing (days clock : Z) (readings : nat -> Z)
    (caller : CurrentUser) (db : Store) :
  exists items,
    TaskHandlers.list_upcoming_tasks days clock readings caller db = Ok items
    /\ (exists selected,
          TaskHandlers.task <$> items ≡ₚ fetched_task <$> selected
          /\ selected
             = filter (fun t =>
                         TaskHandlers.upcoming_clause
                           (OrganizationsRouter.datetime_add (now_utc clock)
                              (timedelta_new days 0 0))
                           (organization_id caller) t = true)
                      (tasks db))
    /\ (forall r, r ∈ TaskHandlers.task <$> items
          <-> exists t,
                r = fetched_task t /\ t ∈ tasks db
                /\ Task.organization_id t = organization_id caller
                /\ Task.status t ≠ TaskStatus.DONE
                /\ exists due, Task.due_date t = Some due
                               /\ local_micros due
                                  <= utc_micros (now_utc clock)
                                     + days * US_PER_DAY)
    /\ (forall item, item ∈ items ->
          exists due, Task.due_date (TaskHandlers.task item) = Some due
                      /\ tzinfo due = None)
    /\ (forall i j a b due_a due_b,
          (i < j)%nat -> items !! i = Some a -> items !! j = Some b ->
          Task.due_date (TaskHandlers.task a) = Some due_a ->
          Task.due_date (TaskHandlers.task b) = Some due_b ->
          local_micros due_a <= local_micros due_b)
    /\ (forall j item, items !! j = Some item ->
          calculate_dday (readings j) (Task.due_date (TaskHandlers.task item))
          = Ok (TaskHandlers.dday item, TaskHandlers.is_overdue item))
    /\ (forall j item due, items !! j = Some item ->
          Task.due_date (TaskHandlers.task item) = Some due ->
          valid_time due ->
          (TaskHandlers.dday item, TaskHandlers.is_overdue item)
          = dday_of_diff (toordinal due - utc_day (now_utc (readings j)))).
Proof.
  destruct (list_upcoming_tasks_spec days clock readings caller db)
    as (items & Hitems & Htasks & Hd).
  set (selected := filter _ (tasks db)) in Htasks.
  assert (Hmem : forall r, r ∈ TaskHandlers.task <$> items
            <-> exists t, r = fetched_task t /\ t ∈ selected).
  { intros r. rewrite Htasks, list_elem_of_fmap.
    by setoid_rewrite order_by_due_date_perm. }
  assert (Hzone : forall item due, item ∈ items ->
            Task.due_date (TaskHandlers.task item) = Some due ->
            tzinfo due = None).
  { intros item due Hin Hdue.
    assert (Hr : TaskHandlers.task item ∈ TaskHandlers.task <$> items)
      by (by apply list_elem_of_fmap_2).
    apply Hmem in Hr as (t & Ht & _). rewrite Ht in Hdue.
    by apply fetched_due_date in Hdue as (stored & _ & ->). }
  exists items. split; [exact Hitems|].
  split; [|split; [|split; [|split; [|split]]]].
  - exists selected. split; [|reflexivity]. rewrite Htasks.
    by rewrite order_by_due_date_perm.
  - intros r. rewrite Hmem. split.
    + intros (t & Hr & Hsel). unfold selected in Hsel.
      apply list_elem_of_filter in Hsel as [Hclause Hin].
      apply upcoming_clause_spec in Hclause as (Ho & Hs & Hdue). by exists t.
    + intros (t & Hr & Hin & Ho & Hs & Hdue). exists t. split; [done|].
      apply list_elem_of_filter. split; [|done]. by apply upcoming_clause_spec.
  - intros item Hin.
    assert (Hr : TaskHandlers.task item ∈ TaskHandlers.task <$> items)
      by (by apply list_elem_of_fmap_2).
    apply Hmem in Hr as (t & Ht & Hsel).
    apply list_elem_of_filter in Hsel as [Hclause _].
    apply upcoming_clause_spec in Hclause as (_ & _ & due & Hdue & _).
    exists (fetched due). split; [|reflexivity].
    rewrite Ht. cbn [fetched_task Task.due_date]. by rewrite Hdue.
  - intros i j a b due_a due_b Hij Ha Hb Hda Hdb.
    pose proof (order_by_due_date_sorted selected) as Hsorted.
    assert (Hai : TaskHandlers.task a
                  ∈ TaskHandlers.task <$> items) by
      (apply list_elem_of_fmap_2; by eapply list_elem_of_lookup_2).
    assert (Hlook : forall k item, items !! k = Some item ->
              exists t, TasksRouter.order_by_due_date selected !! k = Some t
                        /\ TaskHandlers.task item = fetched_task t).
    { intros k item Hk.
      assert (Hk' : (TaskHandlers.task <$> items) !! k
                    = Some (TaskHandlers.task item))
        by (by rewrite list_lookup_fmap, Hk).
      rewrite Htasks, list_lookup_fmap in Hk'.
      destruct (TasksRouter.order_by_due_date selected !! k) as [t|];
        [|done].
      injection Hk' as Hk'. by exists t. }
    destruct (Hlook i a Ha) as (ta & Hta & Hfa).
    destruct (Hlook j b Hb) as (tb & Htb & Hfb).
    rewrite Hfa in Hda. rewrite Hfb in Hdb.
    apply fetched_due_date in Hda as (sa & Hsa & ->).
    apply fetched_due_date in Hdb as (sb & Hsb & ->).
    pose proof (strongly_sorted_lookup _ _ i j ta tb Hsorted Hij Hta Htb)
      as Hle.
    unfold TasksRouter.due_date_le, TasksRouter.due_date_leb in Hle.
    rewrite Hsa, Hsb in Hle. rewrite !local_micros_fetched.
    by apply Z.leb_le.
  - exact Hd.
  - intros j item due Hj Hdue Hvalid.
    specialize (Hd j item Hj). rewrite Hdue in Hd.
    assert (Htz : tzinfo due = None).
    { eapply Hzone; [|exact Hdue]. by eapply list_elem_of_lookup_2. }
    rewrite (calculate_dday_utc _ _ (or_introl Htz) Hvalid) in Hd.
    rewrite (utc_day_utc due (or_introl Htz) Hvalid) in Hd.
    by injection Hd.
Qed.

(** X4.  For a due date without zone or in the UTC zone, the countdown of an
    upcoming task never exceeds the window: when the clock does not run
    backwards between the query and the labelling, the label of a returned
    task is the one the D-day rule gives to a day difference of at most
    [days]. *)
Theorem upcoming_countdown_bound (days clock : Z) (readings : nat -> Z)
    (caller : CurrentUser) (db : Store)
    (items : list TaskHandlers.TaskWithDdayResponse) (j : nat)
    (item : TaskHandlers.TaskWithDdayResponse) (due : datetime) :
  TaskHandlers.list_upcoming_tasks days clock readings caller db = Ok items ->
  items !! j = Some item ->
  Task.due_date (TaskHandlers.task item) = Some due ->
  tzinfo due = None \/ tzinfo due = Some timezone_utc ->
  valid_time due ->
  clock <= readings j ->
  exists diff,
    diff = utc_day due - utc_day (now_utc (readings j))
    /\ diff <= days
    /\ (TaskHandlers.dday item, TaskHandlers.is_overdue item)
       = dday_of_diff diff.
Proof.
  intros Hlist Hj Hdue Htz Hvalid Hclock.
  destruct (list_upcoming_tasks_spec days clock readings caller db)
    as (items' & Hitems & Htasks & Hd).
  rewrite Hlist in Hitems. injection Hitems as <-.
  eexists. split; [reflexivity|]. split.
  - assert (Hin : TaskHandlers.task item ∈ TaskHandlers.task <$> items).
    { apply list_elem_of_fmap_2. by eapply list_elem_of_lookup_2. }
    rewrite Htasks in Hin.
    apply list_elem_of_fmap in Hin as (t & Ht & Hin).
    rewrite order_by_due_date_perm, list_elem_of_filter in Hin.
    destruct Hin as [Hclause _].
    apply upcoming_clause_spec in Hclause as (_ & _ & stored & Hstored & Hle).
    rewrite Ht in Hdue.
    apply fetched_due_date in Hdue as (stored' & Hstored' & ->).
    rewrite Hstored in Hstored'. injection Hstored' as <-.
    unfold utc_day. rewrite utc_micros_fetched, !utc_micros_now in *.
    pose proof US_PER_DAY_eq as HD.
    assert (Hdiv : local_micros stored / US_PER_DAY
                   <= (EPOCH_ORDINAL * US_PER_DAY + readings j
                       + days * US_PER_DAY) / US_PER_DAY)
      by (apply Z.div_le_mono; lia).
    rewrite Z.div_add in Hdiv by lia. lia.
  - specialize (Hd j item Hj). rewrite Hdue in Hd.
    rewrite (calculate_dday_utc _ _ Htz Hvalid) in Hd. by injection Hd.
Qed.

(** X5.  For a due date without zone or in the UTC zone, calculate_dday flags
    a task overdue exactly when the UTC day of the due date is before the
    UTC day of now.  A flagged due date therefore lies in the past, and a due
    date that is not yet reached is never flagged. *)
Theorem dday_overdue_is_past (clock : Z) (due : datetime)
    (label : option string) (overdue : bool) :
  tzinfo due = None \/ tzinfo due = Some timezone_utc ->
  valid_time due ->
  calculate_dday clock (Some due) = Ok (label, overdue) ->
  (overdue = true <-> utc_day due < utc_day (now_utc clock))
  /\ (overdue = true -> utc_micros due < utc_micros (now_utc clock))
  /\ (utc_micros (now_utc clock) <= utc_micros due -> overdue = false)
  /\ (utc_day due = utc_day (now_utc clock) -> label = Some "D-Day").
Proof.
  intros Htz Hvalid. rewrite (calculate_dday_utc _ _ Htz Hvalid).
  unfold dday_of_diff, utc_day.
  set (a := utc_micros due). set (b := utc_micros (now_utc clock)).
  pose proof US_PER_DAY_eq as HD.
  assert (Hmono : a / US_PER_DAY < b / US_PER_DAY -> a < b).
  { intros Hlt. destruct (Z.lt_ge_cases a b) as [|Hge]; [done|].
    apply (Z.div_le_mono _ _ US_PER_DAY) in Hge; lia. }
  destruct (Z.eqb_spec (a / US_PER_DAY - b / US_PER_DAY) 0) as [He|Hne].
  - intros [= <- <-]. split; [split; [done|lia]|]. by repeat split.
  - destruct (Z.gtb_spec (a / US_PER_DAY - b / US_PER_DAY) 0) as [Hgt|Hle];
      intros [= <- <-].
    + split; [split; [done|lia]|]. split; [done|]. split; [done|lia].
    + assert (Hlt : a < b) by (apply Hmono; lia).
      split; [split; [lia|done]|]. split; [done|]. split; lia.
Qed.

End upcoming.

(** ** Writes to a table with a primary key *)

Section table_writes.

Context {A : Type} (key : A -> string).

(* UPDATE ... WHERE id = :id keeps the keys of the table. *)
Lemma write_keys row (l : list A) :
  key <$> map (fun r => if String.eqb (key r) (key row) then row else r) l
  = key <$> l.
Proof.
  induction l as [|a l IH]; cbn; [done|]. f_equal; [|exact IH].
  by destruct (String.eqb_spec (key a) (key row)).
Qed.

(* ... and the rows it does not address. *)
Lemma write_other (P : A -> Prop) `{!forall x, Decision (P x)} row (l : list A) :
  (forall a, a ∈ l -> key a = key row -> ~ P a) -> ~ P row ->
  filter P (map (fun r => if String.eqb (key r) (key row) then row else r) l)
  = filter P l.
Proof.
  intros Hl Hrow. induction l as [|a l IH]; cbn [map]; [done|].
  rewrite !filter_cons.
  rewrite IH by (intros b Hb; apply Hl; by right).
  destruct (String.eqb_spec (key a) (key row)) as [Heq|Hne]; [|done].
  rewrite decide_False by done.
  by rewrite decide_False by (apply Hl; [left|done]).
Qed.

(* Writing a row over itself changes nothing. *)
Lemma write_same row (l : list A) :
  NoDup (key <$> l) -> row ∈ l ->
  map (fun r => if String.eqb (key r) (key row) then row else r) l = l.
Proof.
  intros Hnd Hin. rewrite <- (map_id l) at 2. apply map_ext_in.
  intros a Ha%list_elem_of_In.
  destruct (String.eqb_spec (key a) (key row)) as [Heq|Hne]; [|done].
  symmetry. by eapply (key_determines_row key l).
Qed.

Lemma write_twice row (l : list A) :
  let write := map (fun r => if String.eqb (key r) (key row) then row else r) in
  write (write l) = write l.
Proof.
  cbn. rewrite map_map. apply map_ext. intros a.
  destruct (String.eqb_spec (key a) (key row)) as [Heq|Hne].
  - by rewrite String.eqb_refl.
  - by rewrite (proj2 (String.eqb_neq _ _) Hne).
Qed.

Lemma write_elem row x (l : list A) :
  x ∈ l -> key row = key x ->
  row ∈ map (fun r => if String.eqb (key r) (key row) then row else r) l.
Proof.
  intros Hin Hk. apply list_elem_of_fmap. exists x. split; [|done].
  by rewrite Hk, String.eqb_refl.
Qed.

(* DELETE ... WHERE id = :id removes the rows with the key and no other. *)
Lemma remove_elem x (l : list A) a :
  a ∈ filter (fun r => String.eqb (key r) (key x) = false) l
  <-> a ∈ l /\ key a ≠ key x.
Proof. rewrite list_elem_of_filter, String.eqb_neq. tauto. Qed.

Lemma remove_other (P : A -> Prop) `{!forall x, Decision (P x)} x (l : list A) :
  (forall a, a ∈ l -> key a = key x -> ~ P a) ->
  filter P (filter (fun r => String.eqb (key r) (key x) = false) l)
  = filter P l.
Proof.
  intros Hl. induction l as [|a l IH]; [done|].
  rewrite (filter_cons (fun r => String.eqb (key r) (key x) = false)).
  rewrite (filter_cons P a l).
  rewrite <- IH by (intros b Hb; apply Hl; by right).
  destruct (String.eqb_spec (key a) (key x)) as [Heq|Hne].
  - rewrite decide_False by done.
    by rewrite decide_False by (apply Hl; [left|done]).
  - rewrite decide_True by done. by rewrite filter_cons.
Qed.

Lemma remove_keys x (l : list A) :
  NoDup (key <$> l) ->
  NoDup (key <$> filter (fun r => String.eqb (key r) (key x) = false) l).
Proof.
  intros Hnd. eapply sublist_NoDup; [exact Hnd|].
  apply fmap_sublist, sublist_filter.
Qed.

(* The scoped SELECT by id on a table that has no row with the id. *)
Lemma scoped_select_fresh (org : A -> string) (l : list A) id o :
  id ∉ key <$> l ->
  filter (fun r => String.eqb (key r) id && String.eqb (org r) o = true) l = [].
Proof.
  intros Hfresh. apply filter_none. intros r Hr Hsel.
  apply andb_true_iff in Hsel as [Hk _]. apply String.eqb_eq in Hk.
  apply Hfresh. rewrite <- Hk. by apply list_elem_of_fmap_2.
Qed.

Lemma select_fresh (l : list A) id :
  id ∉ key <$> l ->
  filter (fun r => String.eqb (key r) id = true) l = [].
Proof.
  intros Hfresh. apply filter_none. intros r Hr Hk.
  apply String.eqb_eq in Hk.
  apply Hfresh. rewrite <- Hk. by apply list_elem_of_fmap_2.
Qed.

(* The SELECT by id on a table that holds the row. *)
Lemma select_by_key (l : list A) x :
  NoDup (key <$> l) -> x ∈ l ->
  filter (fun r => String.eqb (key r) (key x) = true) l = [x].
Proof.
  intros Hnd Hin.
  rewrite <- (scoped_select_own_org key key l x Hnd Hin).
  apply list_filter_iff. intros r. rewrite andb_true_iff. tauto.
Qed.

Lemma insert_fresh table row (l : list A) :
  key row ∉ key <$> l -> Session.insert key table row l = Ok (l ++ [row]).
Proof. intros Hfresh. unfold Session.insert. by rewrite bool_decide_eq_false_2. Qed.

Lemma insert_keys row (l : list A) :
  NoDup (key <$> l) -> key row ∉ key <$> l -> NoDup (key <$> (l ++ [row])).
Proof.
  intros Hnd Hfresh. rewrite fmap_app. apply NoDup_app. split; [done|].
  split; [|apply NoDup_singleton].
  intros k Hk Hrow. apply list_elem_of_singleton in Hrow as ->. done.
Qed.

End table_writes.

(** ** Creating, updating and deleting a task, followed by a lookup *)

Section task_round_trips.

(** X6.  create_task with an id that the table already holds fails at the
    flush and changes nothing.  With a fresh id it returns the new task, which
    belongs to the caller's organization whatever the request says; a later
    get_task by a caller of that organization finds it with the requested
    title, description, status, priority, recurring rule, control and
    assignee, and with a due date that has the fields of the requested one
    (the column does not keep the zone: a due date requested without zone is
    found as it was requested, and none when none was requested); a caller of
    any other organization gets the 404, the lookup of every other id answers
    as before, and the ids stay unique. *)
Theorem create_task_then_get (request : TaskCreate.t) (id : string)
    (caller : CurrentUser) (db : Store) :
  (id ∈ Task.id <$> tasks db ->
   exists msg,
     TaskHandlers.create_task request id caller db
     = (Raise (IntegrityError msg), db))
  /\ (id ∉ Task.id <$> tasks db ->
      exists db',
        TaskHandlers.create_task request id caller db
        = (Ok (TaskHandlers.new_task request id (organization_id caller)), db')
        /\ (exists t,
              TasksRouter.get_task id caller db' = (Ok t, db')
              /\ Task.id t = id
              /\ Task.organization_id t = organization_id caller
              /\ Task.title t = TaskCreate.title request
              /\ Task.description t = TaskCreate.description request
              /\ Task.status t = TaskCreate.status request
              /\ Task.priority t = TaskCreate.priority request
              /\ Task.recurring_rule t = TaskCreate.recurring_rule request
              /\ Task.control_id t = TaskCreate.control_id request
              /\ Task.assignee_id t = TaskCreate.assignee_id request
              /\ fetched <$> Task.due_date t
                 = fetched <$> TaskCreate.due_date request
              /\ (TaskCreate.due_date request = None -> Task.due_date t = None)
              /\ (forall due, TaskCreate.due_date request = Some due ->
                    tzinfo due = None -> Task.due_date t = Some due))
        /\ (forall other,
              organization_id other ≠ organization_id caller ->
              TasksRouter.get_task id other db'
              = (Raise (HTTPException HTTP_404_NOT_FOUND "Task not found"), db'))
        /\ (forall id' c, id' ≠ id ->
              fst (TasksRouter.get_task id' c db')
              = fst (TasksRouter.get_task id' c db))
        /\ (primary_keys_unique db -> primary_keys_unique db')).
Proof.
  split.
  - intros Hin. unfold TaskHandlers.create_task, Session.insert.
    cbn [TaskHandlers.new_task Task.id]. rewrite bool_decide_eq_true_2 by done.
    by eexists.
  - intros Hfresh.
    set (created := TaskHandlers.new_task request id (organization_id caller)).
    exists (TasksRouter.with_tasks db (tasks db ++ [created])).
    assert (Hsel : forall o,
      TasksRouter.select_task
        (TasksRouter.with_tasks db (tasks db ++ [created])) id o
      = if String.eqb (organization_id caller) o then [created] else []).
    { intros o. unfold TasksRouter.select_task.
      cbn [tasks TasksRouter.with_tasks]. rewrite filter_app.
      rewrite (scoped_select_fresh Task.id Task.organization_id) by done.
      rewrite filter_cons, filter_nil.
      cbn [created TaskHandlers.new_task Task.id Task.organization_id].
      rewrite String.eqb_refl. cbn [andb app].
      destruct (String.eqb (organization_id caller) o); by case_decide. }
    split; [|split; [|split; [|split]]].
    + unfold TaskHandlers.create_task. fold created.
      rewrite (insert_fresh Task.id) by done.
      cbn [tasks TasksRouter.with_tasks]. rewrite filter_app.
      rewrite (select_fresh Task.id) by done.
      rewrite filter_cons, filter_nil.
      cbn [created TaskHandlers.new_task Task.id].
      rewrite String.eqb_refl. by rewrite decide_True.
    + exists created. unfold TasksRouter.get_task.
      rewrite Hsel, String.eqb_refl. do 11 (split; [reflexivity|]).
      split; [intros Hnone; exact Hnone|].
      intros due Hdue _. exact Hdue.
    + intros other Hother. unfold TasksRouter.get_task. rewrite Hsel.
      by rewrite (proj2 (String.eqb_neq _ _)) by done.
    + intros id' c Hne. unfold TasksRouter.get_task, TasksRouter.select_task.
      cbn [tasks TasksRouter.with_tasks]. rewrite filter_app.
      rewrite (filter_cons _ created), filter_nil.
      rewrite decide_False.
      2:{ cbn [created TaskHandlers.new_task Task.id Task.organization_id].
          rewrite (proj2 (String.eqb_neq id id')) by done. cbn. done. }
      rewrite app_nil_r.
      by destruct (scalar_one_or_none _) as [[?|]|].
    + intros (Ho & Hu & Hc & Ht & Hd). repeat split; try done.
      cbn [tasks TasksRouter.with_tasks]. by apply insert_keys.
Qed.

(* Detaching documents from a task keeps their ids and their number. *)
Lemma detach_documents_keys task rows :
  Document.id <$> TasksRouter.detach_documents task rows = Document.id <$> rows.
Proof.
  unfold TasksRouter.detach_documents.
  induction rows as [|d l IH]; [done|]. cbn [map fmap list_fmap] in *.
  f_equal; [|exact IH]. by destruct (sql_eq _ _).
Qed.

Lemma sql_eq_true col v : sql_eq col v = true <-> col = Some v.
Proof.
  destruct col as [c|]; cbn; [|done]. rewrite String.eqb_eq.
  split; congruence.
Qed.

(** X7.  delete_task on a task of the caller's organization removes this
    task and no other task: afterwards get_task and a second delete_task
    answer 404 for its id to every caller, every other task is still in the
    table, nothing was added, and the ids stay unique.  The delete also
    writes to the documents: every document that referred to the task, of
    whatever organization, has its task_id set to null; the other documents
    and the other tables are as they were. *)
Theorem delete_task_then_get (db : Store) (caller : CurrentUser)
    (task : Task.t) :
  primary_keys_unique db -> task ∈ tasks db ->
  Task.organization_id task = organization_id caller ->
  exists db',
    TasksRouter.delete_task (Task.id task) caller db
    = (Ok "Task deleted successfully", db')
    /\ (forall c,
          TasksRouter.get_task (Task.id task) c db'
          = (Raise (HTTPException HTTP_404_NOT_FOUND "Task not found"), db')
          /\ TasksRouter.delete_task (Task.id task) c db'
             = (Raise (HTTPException HTTP_404_NOT_FOUND "Task not found"), db'))
    /\ (forall t, t ∈ tasks db' <-> t ∈ tasks db /\ t ≠ task)
    /\ organizations db' = organizations db /\ users db' = users db
    /\ organization_controls db' = organization_controls db
    /\ documents db' = TasksRouter.detach_documents task (documents db)
    /\ (forall d, d ∈ documents db ->
          Document.task_id d ≠ Some (Task.id task) -> d ∈ documents db')
    /\ (forall d, d ∈ documents db ->
          Document.task_id d = Some (Task.id task) ->
          exists d', d' ∈ documents db'
                     /\ Document.id d' = Document.id d
                     /\ Document.organization_id d'
                        = Document.organization_id d
                     /\ Document.task_id d' = None)
    /\ (forall d, d ∈ documents db' ->
          Document.task_id d ≠ Some (Task.id task))
    /\ primary_keys_unique db'.
Proof.
  intros Hkeys Hin Horg. pose proof Hkeys as (Ho & Hu & Hc & Ht & Hd).
  exists (TasksRouter.db_delete task db).
  split; [|split; [|split]].
  - unfold TasksRouter.delete_task, TasksRouter.select_task.
    rewrite <- Horg,
      (scoped_select_own_org Task.id Task.organization_id) by done.
    reflexivity.
  - intros c.
    assert (Hsel : TasksRouter.select_task (TasksRouter.db_delete task db)
                     (Task.id task) (organization_id c) = []).
    { unfold TasksRouter.select_task. cbn [tasks TasksRouter.db_delete].
      apply (scoped_select_fresh Task.id Task.organization_id).
      intros Hk. apply list_elem_of_fmap in Hk as (r & Hk & Hr).
      apply (remove_elem Task.id) in Hr as [_ Hr]. congruence. }
    unfold TasksRouter.get_task, TasksRouter.delete_task. by rewrite Hsel.
  - intros t. cbn [tasks TasksRouter.db_delete].
    unfold TasksRouter.remove_task. rewrite (remove_elem Task.id).
    split; intros [Ht' Hne]; (split; [done|]).
    + congruence.
    + intros Hk. apply Hne. by eapply (key_determines_row Task.id (tasks db)).
  - do 4 (split; [reflexivity|]).
    cbn [documents TasksRouter.db_delete]. unfold TasksRouter.detach_documents.
    split; [|split; [|split]].
    + intros d Hdin Hne. apply list_elem_of_fmap. exists d. split; [|done].
      destruct (sql_eq (Document.task_id d) (Task.id task)) eqn:Heq; [|done].
      by apply sql_eq_true in Heq.
    + intros d Hdin Href. eexists. split.
      * apply list_elem_of_fmap. exists d. split; [reflexivity|done].
      * apply sql_eq_true in Href. rewrite Href. by repeat split.
    + intros d Hdin. apply list_elem_of_fmap in Hdin as (d0 & -> & _).
      destruct (sql_eq (Document.task_id d0) (Task.id task)) eqn:Heq;
        [done|].
      intros Href. apply sql_eq_true in Href. congruence.
    + repeat split; try done.
      * cbn [tasks TasksRouter.db_delete]. by apply remove_keys.
      * cbn [documents TasksRouter.db_delete].
        by rewrite detach_documents_keys.
Qed.

Lemma assigned_twice {A} (f : field A) (x : option A) :
  assigned f (assigned f x) = assigned f x.
Proof. by destruct f. Qed.

Lemma assigned_value_twice {A} (f : field A) (x : A) :
  assigned_value f (assigned_value f x) = assigned_value f x.
Proof. by destruct f as [|[v|]]. Qed.

Lemma task_merge_twice request task :
  TaskUpdate.merge request (TaskUpdate.merge request task)
  = TaskUpdate.merge request task.
Proof.
  unfold TaskUpdate.merge. cbn.
  by rewrite !assigned_twice, !assigned_value_twice.
Qed.

(* update_task on a task of the caller's organization, when no NOT NULL
   column is given null. *)
Lemma update_task_own db caller task request :
  NoDup (Task.id <$> tasks db) -> task ∈ tasks db ->
  Task.organization_id task = organization_id caller ->
  TaskUpdate.nulls_required request = false ->
  TasksRouter.update_task (Task.id task) request caller db
  = (Ok (TaskUpdate.merge request task),
     TasksRouter.with_tasks db
       (TasksRouter.write_task (TaskUpdate.merge request task) (tasks db))).
Proof.
  intros Ht Hin Horg Hnull.
  unfold TasksRouter.update_task, TasksRouter.select_task.
  rewrite <- Horg,
    (scoped_select_own_org Task.id Task.organization_id) by done.
  cbn [scalar_one_or_none]. rewrite task_flush_update.
  unfold TaskUpdate.nulls_required in Hnull.
  apply orb_false_iff in Hnull as [Hnull Hp].
  apply orb_false_iff in Hnull as [Htitle Hstatus].
  by rewrite !required_given by done.
Qed.

(** X8.  A successful update_task is visible to the next lookup and is
    idempotent: after the update, get_task returns the updated row, every
    other task is as it was, the ids are still unique, and sending the same
    payload again returns the same row and leaves the store as it is. *)
Theorem update_task_then_get (db : Store) (caller : CurrentUser)
    (task : Task.t) (request : TaskUpdate.t) :
  primary_keys_unique db -> task ∈ tasks db ->
  Task.organization_id task = organization_id caller ->
  TaskUpdate.nulls_required request = false ->
  let updated := TaskUpdate.merge request task in
  exists db',
    TasksRouter.update_task (Task.id task) request caller db = (Ok updated, db')
    /\ TasksRouter.get_task (Task.id task) caller db' = (Ok updated, db')
    /\ (forall t, t ∈ tasks db -> t ≠ task -> t ∈ tasks db')
    /\ (forall t, t ∈ tasks db' -> t = updated \/ t ∈ tasks db /\ t ≠ task)
    /\ primary_keys_unique db'
    /\ TasksRouter.update_task (Task.id task) request caller db'
       = (Ok updated, db').
Proof.
  intros Hkeys Hin Horg Hnull updated.
  pose proof Hkeys as (Ho & Hu & Hc & Ht & Hd).
  set (db' := TasksRouter.with_tasks db
                (TasksRouter.write_task updated (tasks db))).
  assert (Hid : Task.id updated = Task.id task) by reflexivity.
  assert (Horg' : Task.organization_id updated = organization_id caller)
    by exact Horg.
  assert (Hin' : updated ∈ tasks db').
  { cbn [db' tasks TasksRouter.with_tasks]. unfold TasksRouter.write_task.
    by apply (write_elem Task.id updated task). }
  assert (Ht' : NoDup (Task.id <$> tasks db')).
  { cbn [db' tasks TasksRouter.with_tasks]. unfold TasksRouter.write_task.
    by rewrite (write_keys Task.id). }
  exists db'. split; [|split; [|split; [|split; [|split]]]].
  - by apply update_task_own.
  - unfold TasksRouter.get_task, TasksRouter.select_task.
    rewrite <- Hid, <- Horg',
      (scoped_select_own_org Task.id Task.organization_id) by done.
    reflexivity.
  - intros t Htin Hne. cbn [db' tasks TasksRouter.with_tasks].
    unfold TasksRouter.write_task. apply list_elem_of_fmap. exists t.
    split; [|done].
    destruct (String.eqb_spec (Task.id t) (Task.id updated)) as [Heq|]; [|done].
    exfalso. apply Hne.
    eapply (key_determines_row Task.id (tasks db)); [done..|congruence].
  - intros t Htin. cbn [db' tasks TasksRouter.with_tasks] in Htin.
    unfold TasksRouter.write_task in Htin.
    apply list_elem_of_fmap in Htin as (r & -> & Hr).
    destruct (String.eqb_spec (Task.id r) (Task.id updated)) as [Heq|Hne];
      [by left|right].
    split; [done|]. intros ->. by apply Hne.
  - by repeat split.
  - replace (TasksRouter.update_task (Task.id task) request caller db')
      with (TasksRouter.update_task (Task.id updated) request caller db')
      by (by rewrite Hid).
    rewrite update_task_own by done.
    fold updated. unfold updated at 1 2. rewrite task_merge_twice.
    fold updated. f_equal. subst db'. unfold TasksRouter.with_tasks.
    cbn [organizations users organization_controls tasks documents]. f_equal.
    unfold TasksRouter.write_task. apply (write_twice Task.id).
Qed.

End task_round_trips.

(** ** What a tenant reads *)

Section tenant_reads.

(* A SELECT whose WHERE clause names the organization reads the rows of
   that organization only. *)
Lemma scoped_filter {A} (org : A -> string) (o : string) (P : A -> Prop)
    `{!forall x, Decision (P x)} (l1 l2 : list A) :
  (forall x, P x -> String.eqb (org x) o = true) ->
  filter (fun x => String.eqb (org x) o = true) l1
  = filter (fun x => String.eqb (org x) o = true) l2 ->
  filter P l1 = filter P l2.
Proof.
  intros HP Heq.
  rewrite <- (list_filter_filter_l P (fun x => String.eqb (org x) o = true) l1),
    <- (list_filter_filter_l P (fun x => String.eqb (org x) o = true) l2)
    by done.
  by rewrite Heq.
Qed.

Lemma scalar_one_or_none_some {A} (rows : list A) x :
  scalar_one_or_none rows = Ok (Some x) -> rows = [x].
Proof. destruct rows as [|a [|b l]]; cbn; congruence. Qed.

Lemma selected_row {A} (P : A -> Prop) `{!forall x, Decision (P x)}
    (l : list A) x :
  scalar_one_or_none (filter P l) = Ok (Some x) -> P x /\ x ∈ l.
Proof.
  intros Hrows%scalar_one_or_none_some. apply (list_elem_of_filter P).
  rewrite Hrows. apply list_elem_of_here.
Qed.

(* The task a lookup returns is a row of the caller's organization. *)
Lemma get_task_row id caller db t :
  fst (TasksRouter.get_task id caller db) = Ok t ->
  t ∈ tasks db /\ Task.organization_id t = organization_id caller.
Proof.
  unfold TasksRouter.get_task, TasksRouter.select_task.
  destruct (scalar_one_or_none _) as [[r|]|e] eqn:Hsel; cbn; try done.
  intros [= ->]. apply selected_row in Hsel as [HP Hin]. split; [done|].
  apply andb_true_iff in HP as [_ Horg]. by apply String.eqb_eq.
Qed.

Lemma get_document_row id caller db d :
  fst (DocumentsRouter.get_document id caller db) = Ok d ->
  d ∈ documents db /\ Document.organization_id d = organization_id caller.
Proof.
  unfold DocumentsRouter.get_document, DocumentsRouter.select_document.
  destruct (scalar_one_or_none _) as [[r|]|e] eqn:Hsel; cbn; try done.
  intros [= ->]. apply selected_row in Hsel as [HP Hin]. split; [done|].
  apply andb_true_iff in HP as [_ Horg]. by apply String.eqb_eq.
Qed.

(* The assignee of a task does not depend on the zone of its due date. *)
Lemma task_response_fetched db1 db2 t :
  Responses.assignee db1 t = Responses.assignee db2 t ->
  Responses.task_response db1 (fetched_task t)
  = Responses.task_response db2 (fetched_task t).
Proof. unfold Responses.task_response, Responses.assignee. cbn. by intros ->. Qed.

Lemma task_response_same db1 db2 t :
  Responses.assignee db1 t = Responses.assignee db2 t ->
  Responses.task_response db1 t = Responses.task_response db2 t.
Proof. unfold Responses.task_response. by intros ->. Qed.

Variable ilike : string -> string -> bool.
Variable created_at : Document.t -> Z.
Variable S3_BUCKET_NAME : string.
Variable generate_presigned_url :
  string -> list (string * string) -> Z -> result string.

(** X9.  What a caller reads depends on the rows of the caller's own
    organization and, for tasks and documents, on the users rows that these
    refer to: a task response carries the id, name and email of the
    assignee and a document response those of the uploader, which the query
    loads from users by id alone, whatever the organization of that user.
    On two stores that hold the same rows for the caller's organization and
    the same assignee for each of its tasks and the same uploader for each of
    its documents, whatever else they hold, every lookup by id, every
    listing, the download URL, the caller's organization and the statistics
    answer the same, and the task and document responses are the same. *)
Theorem reads_depend_on_own_rows (caller : CurrentUser) (db1 db2 : Store) :
  Tenancy.tenant_view (organization_id caller) db1
  = Tenancy.tenant_view (organization_id caller) db2 ->
  (forall t, t ∈ tasks db1 ->
     Task.organization_id t = organization_id caller ->
     Responses.assignee db1 t = Responses.assignee db2 t) ->
  (forall d, d ∈ documents db1 ->
     Document.organization_id d = organization_id caller ->
     Responses.uploaded_by db1 d = Responses.uploaded_by db2 d) ->
  (forall id,
     fst (TasksRouter.get_task id caller db1)
     = fst (TasksRouter.get_task id caller db2)
     /\ forall t, fst (TasksRouter.get_task id caller db1) = Ok t ->
          Responses.task_response db1 t = Responses.task_response db2 t)
  /\ (forall clock status priority control_id assignee_id overdue_only search,
        TasksRouter.list_tasks ilike clock status priority control_id
          assignee_id overdue_only search caller db1
        = TasksRouter.list_tasks ilike clock status priority control_id
            assignee_id overdue_only search caller db2
        /\ forall resp t,
             TasksRouter.list_tasks ilike clock status priority control_id
               assignee_id overdue_only search caller db1 = Ok resp ->
             t ∈ TasksRouter.resp_tasks resp ->
             Responses.task_response db1 t = Responses.task_response db2 t)
  /\ (forall days clock readings,
        TaskHandlers.list_upcoming_tasks days clock readings caller db1
        = TaskHandlers.list_upcoming_tasks days clock readings caller db2
        /\ forall items item,
             TaskHandlers.list_upcoming_tasks days clock readings caller db1
             = Ok items ->
             item ∈ items ->
             Responses.task_response db1 (TaskHandlers.task item)
             = Responses.task_response db2 (TaskHandlers.task item))
  /\ (forall id, fst (ControlsRouter.get_control id caller db1)
                 = fst (ControlsRouter.get_control id caller db2))
  /\ (forall status category search,
        ControlsRouter.list_controls ilike status category search caller db1
        = ControlsRouter.list_controls ilike status category search caller db2)
  /\ ControlsRouter.list_controls_by_category caller db1
     = ControlsRouter.list_controls_by_category caller db2
  /\ (forall id,
        fst (DocumentsRouter.get_document id caller db1)
        = fst (DocumentsRouter.get_document id caller db2)
        /\ forall d, fst (DocumentsRouter.get_document id caller db1) = Ok d ->
             Responses.document_response db1 d
             = Responses.document_response db2 d)
  /\ (forall control_id task_id search,
        DocumentHandlers.list_documents ilike created_at control_id task_id
          search caller db1
        = DocumentHandlers.list_documents ilike created_at control_id task_id
            search caller db2
        /\ forall d,
             d ∈ DocumentHandlers.resp_documents
                   (DocumentHandlers.list_documents ilike created_at
                      control_id task_id search caller db1) ->
             Responses.document_response db1 d
             = Responses.document_response db2 d)
  /\ (forall id,
        DocumentHandlers.get_document_download_url S3_BUCKET_NAME
          generate_presigned_url id caller db1
        = DocumentHandlers.get_document_download_url S3_BUCKET_NAME
            generate_presigned_url id caller db2)
  /\ UsersRouter.list_organization_users caller db1
     = UsersRouter.list_organization_users caller db2
  /\ OrganizationHandlers.get_current_organization caller db1
     = OrganizationHandlers.get_current_organization caller db2
  /\ (forall engine clock,
        OrganizationsRouter.get_organization_stats engine clock caller db1
        = OrganizationsRouter.get_organization_stats engine clock caller db2).
Proof.
  intros [= Ho Hu Hc Ht Hd] Hassignee Huploader.
  assert (Htask : forall (P : Task.t -> Prop) `{!forall x, Decision (P x)},
    (forall x, P x -> String.eqb (Task.organization_id x)
                        (organization_id caller) = true) ->
    filter P (tasks db1) = filter P (tasks db2))
    by (intros P ? HP; by apply (scoped_filter Task.organization_id
                                   (organization_id caller))).
  assert (Hcontrol :
    forall (P : OrganizationControl.t -> Prop) `{!forall x, Decision (P x)},
    (forall x, P x -> String.eqb (OrganizationControl.organization_id x)
                        (organization_id caller) = true) ->
    filter P (organization_controls db1) = filter P (organization_controls db2))
    by (intros P ? HP; by apply (scoped_filter
                                   OrganizationControl.organization_id
                                   (organization_id caller))).
  assert (Hdoc : forall (P : Document.t -> Prop) `{!forall x, Decision (P x)},
    (forall x, P x -> String.eqb (Document.organization_id x)
                        (organization_id caller) = true) ->
    filter P (documents db1) = filter P (documents db2))
    by (intros P ? HP; by apply (scoped_filter Document.organization_id
                                   (organization_id caller))).
  assert (Hst : forall id,
    TasksRouter.select_task db1 id (organization_id caller)
    = TasksRouter.select_task db2 id (organization_id caller)).
  { intros id. apply Htask. intros x. rewrite andb_true_iff. tauto. }
  assert (Hsc : forall id,
    ControlsRouter.select_control db1 id (organization_id caller)
    = ControlsRouter.select_control db2 id (organization_id caller)).
  { intros id. apply Hcontrol. intros x. rewrite andb_true_iff. tauto. }
  assert (Hsd : forall id,
    DocumentsRouter.select_document db1 id (organization_id caller)
    = DocumentsRouter.select_document db2 id (organization_id caller)).
  { intros id. apply Hdoc. intros x. rewrite andb_true_iff. tauto. }
  assert (Hdocument : forall d, d ∈ documents db1 ->
            Document.organization_id d = organization_id caller ->
            Responses.document_response db1 d
            = Responses.document_response db2 d).
  { intros d Hin Horg. unfold Responses.document_response.
    by rewrite (Huploader d Hin Horg). }
  split; [|split; [|split; [|split; [|split; [|split; [|split; [|split;
    [|split; [|split; [|split]]]]]]]]]].
  - intros id. split.
    + unfold TasksRouter.get_task. rewrite Hst.
      by destruct (scalar_one_or_none _) as [[?|]|].
    + intros t [Hin Horg]%get_task_row. by apply task_response_same, Hassignee.
  - intros clock status priority control_id assignee_id overdue_only search.
    split.
    + unfold TasksRouter.list_tasks.
      rewrite (Htask (fun t => TasksRouter.where_clause ilike (now_utc clock)
                                 (organization_id caller) status priority
                                 control_id assignee_id overdue_only search t
                               = true) _); [done|].
      intros x. unfold TasksRouter.where_clause. rewrite !andb_true_iff. tauto.
    + intros resp t Hresp Hin.
      apply list_tasks_response in Hresp as (Hperm & _).
      rewrite Hperm in Hin. apply list_elem_of_filter in Hin as [Hclause Hin].
      apply task_response_same, Hassignee; [done|].
      unfold TasksRouter.where_clause in Hclause.
      rewrite !andb_true_iff in Hclause. apply String.eqb_eq. tauto.
  - intros days clock readings. split.
    + unfold TaskHandlers.list_upcoming_tasks.
      rewrite (Htask (fun t => TaskHandlers.upcoming_clause
                                 (OrganizationsRouter.datetime_add
                                    (now_utc clock) (timedelta_new days 0 0))
                                 (organization_id caller) t = true) _); [done|].
      intros x. unfold TaskHandlers.upcoming_clause. rewrite !andb_true_iff.
      tauto.
    + intros items item Hitems Hin.
      destruct (list_upcoming_tasks_spec days clock readings caller db1)
        as (items' & Hitems' & Htasks & _).
      rewrite Hitems in Hitems'. injection Hitems' as <-.
      assert (Hr : TaskHandlers.task item ∈ TaskHandlers.task <$> items)
        by (by apply list_elem_of_fmap_2).
      rewrite Htasks in Hr. apply list_elem_of_fmap in Hr as (t & -> & Hsel).
      rewrite order_by_due_date_perm in Hsel.
      apply list_elem_of_filter in Hsel as [Hclause Htin].
      apply task_response_fetched, Hassignee; [done|].
      unfold TaskHandlers.upcoming_clause in Hclause.
      rewrite !andb_true_iff in Hclause. apply String.eqb_eq. tauto.
  - intros id. unfold ControlsRouter.get_control. rewrite Hsc.
    by destruct (scalar_one_or_none _) as [[?|]|].
  - intros status category search. unfold ControlsRouter.list_controls.
    rewrite (Hcontrol (fun c => ControlsRouter.where_clause ilike
                                  (organization_id caller) status category
                                  search c = true) _); [done|].
    intros x. unfold ControlsRouter.where_clause. rewrite !andb_true_iff.
    tauto.
  - unfold ControlsRouter.list_controls_by_category. by rewrite Hc.
  - intros id. split.
    + unfold DocumentsRouter.get_document. rewrite Hsd.
      by destruct (scalar_one_or_none _) as [[?|]|].
    + intros d [Hin Horg]%get_document_row. by apply Hdocument.
  - intros control_id task_id search. split.
    + unfold DocumentHandlers.list_documents.
      rewrite (Hdoc (fun d => DocumentHandlers.where_clause ilike
                                (organization_id caller) control_id task_id
                                search d = true) _); [done|].
      intros x. unfold DocumentHandlers.where_clause. rewrite !andb_true_iff.
      tauto.
    + intros d Hin. unfold DocumentHandlers.list_documents in Hin.
      cbn [DocumentHandlers.resp_documents] in Hin.
      unfold DocumentHandlers.order_by_created_at_desc in Hin.
      rewrite merge_sort_Permutation in Hin.
      apply list_elem_of_filter in Hin as [Hclause Hin].
      apply Hdocument; [done|].
      unfold DocumentHandlers.where_clause in Hclause.
      rewrite !andb_true_iff in Hclause. apply String.eqb_eq. tauto.
  - intros id. unfold DocumentHandlers.get_document_download_url.
    by rewrite Hsd.
  - unfold UsersRouter.list_organization_users. by rewrite Hu.
  - unfold OrganizationHandlers.get_current_organization,
      OrganizationHandlers.select_organization. by rewrite Ho.
  - intros engine clock. unfold OrganizationsRouter.get_organization_stats.
    rewrite Hc, Ht, Hd.
    rewrite (Htask (fun t => String.eqb (Task.organization_id t)
                               (organization_id caller)
                             && bool_decide (Task.status t ≠ TaskStatus.DONE)
                             && sql_lt (Task.due_date t) (now_utc clock)
                             = true) _)
      by (intros x; rewrite !andb_true_iff; tauto).
    rewrite (Hdoc (fun d => String.eqb (Document.organization_id d)
                              (organization_id caller)
                            && bool_decide (Document.expires_at d ≠ None)
                            && sql_le (Document.expires_at d)
                                 (OrganizationsRouter.datetime_add
                                    (now_utc clock) (timedelta_new 30 0 0))
                            = true) _)
      by (intros x; rewrite !andb_true_iff; tauto).
    reflexivity.
Qed.

End tenant_reads.

(** ** What a handler writes *)

Section handler_outcomes.

(* The flush of an updated user and of an updated organization. *)
Lemma user_flush_update request user :
  UserObject.flush
    (fold_left UserObject.setattr (UserUpdate.model_dump_exclude_unset request)
       (UserObject.load user))
  = role ← required "role" (UserUpdate.role request) (User.role user);
    Ok {| User.id := User.id user; User.email := User.email user;
          User.name := assigned (UserUpdate.name request) (User.name user);
          User.password_hash := User.password_hash user;
          User.role := role;
          User.organization_id := User.organization_id user |}.
Proof. by destruct request as [[|n] [|[r|]]]. Qed.

Lemma organization_flush_update request organization :
  OrganizationObject.flush
    (fold_left OrganizationObject.setattr
       (OrganizationUpdate.model_dump_exclude_unset request)
       (OrganizationObject.load organization))
  = name ← required "name" (OrganizationUpdate.name request)
             (Organization.name organization);
    profile_type ← required "profile_type"
                     (OrganizationUpdate.profile_type request)
                     (Organization.profile_type organization);
    Ok {| Organization.id := Organization.id organization;
          Organization.name := name;
          Organization.profile_type := profile_type |}.
Proof. by destruct request as [[|[n|]] [|[p|]]]. Qed.

Lemma create_task_outcome request id caller db :
  (id ∈ Task.id <$> tasks db ->
   TaskHandlers.create_task request id caller db
   = (Raise (IntegrityError "UNIQUE constraint failed: tasks.id"), db))
  /\ (id ∉ Task.id <$> tasks db ->
      TaskHandlers.create_task request id caller db
      = (Ok (TaskHandlers.new_task request id (organization_id caller)),
         TasksRouter.with_tasks db
           (tasks db
            ++ [TaskHandlers.new_task request id (organization_id caller)]))).
Proof.
  split.
  - intros Hin. unfold TaskHandlers.create_task, Session.insert.
    cbn [TaskHandlers.new_task Task.id]. by rewrite bool_decide_eq_true_2.
  - intros Hfresh. unfold TaskHandlers.create_task.
    rewrite (insert_fresh Task.id) by done.
    cbn [tasks TasksRouter.with_tasks]. rewrite filter_app.
    rewrite (select_fresh Task.id) by done.
    rewrite filter_cons, filter_nil.
    cbn [TaskHandlers.new_task Task.id].
    rewrite String.eqb_refl. by rewrite decide_True.
Qed.

(* Each handler either leaves the store as it is, or writes one row of the
   caller's organization in the way its statement says. *)
Lemma update_task_outcome id request caller db :
  snd (TasksRouter.update_task id request caller db) = db
  \/ exists task row,
       task ∈ tasks db /\ Task.id task = id
       /\ Task.organization_id task = organization_id caller
       /\ Task.id row = Task.id task
       /\ Task.organization_id row = Task.organization_id task
       /\ TasksRouter.update_task id request caller db
          = (Ok row,
             TasksRouter.with_tasks db (TasksRouter.write_task row (tasks db))).
Proof.
  unfold TasksRouter.update_task, TasksRouter.select_task.
  destruct (scalar_one_or_none _) as [[task|]|e] eqn:Hsel; [|by left..].
  apply selected_row in Hsel as [HP Hin].
  apply andb_true_iff in HP as [Hid Horg].
  apply String.eqb_eq in Hid, Horg.
  rewrite task_flush_update.
  destruct (required "title" _ _) as [title|];
    cbn [mbind result_bind bind]; [|by left].
  destruct (required "status" _ _) as [status|];
    cbn [mbind result_bind bind]; [|by left].
  destruct (required "priority" _ _) as [priority|];
    cbn [mbind result_bind bind]; [|by left].
  right. eexists task, (Task.mk _ _ _ _ _ _ _ _ _ _). by repeat split.
Qed.

Lemma delete_task_outcome id caller db :
  snd (TasksRouter.delete_task id caller db) = db
  \/ exists task,
       task ∈ tasks db /\ Task.id task = id
       /\ Task.organization_id task = organization_id caller
       /\ TasksRouter.delete_task id caller db
          = (Ok "Task deleted successfully", TasksRouter.db_delete task db).
Proof.
  unfold TasksRouter.delete_task, TasksRouter.select_task.
  destruct (scalar_one_or_none _) as [[task|]|e] eqn:Hsel; [|by left..].
  apply selected_row in Hsel as [HP Hin].
  apply andb_true_iff in HP as [Hid Horg].
  apply String.eqb_eq in Hid, Horg.
  right. exists task. by repeat split.
Qed.

Lemma update_control_outcome id request caller db :
  snd (ControlsRouter.update_control id request caller db) = db
  \/ exists control row,
       control ∈ organization_controls db /\ OrganizationControl.id control = id
       /\ OrganizationControl.organization_id control = organization_id caller
       /\ OrganizationControl.id row = OrganizationControl.id control
       /\ OrganizationControl.organization_id row
          = OrganizationControl.organization_id control
       /\ ControlsRouter.update_control id request caller db
          = (Ok row,
             ControlsRouter.with_controls db
               (ControlsRouter.write_control row (organization_controls db))).
Proof.
  unfold ControlsRouter.update_control, ControlsRouter.select_control.
  destruct (scalar_one_or_none _) as [[control|]|e] eqn:Hsel; [|by left..].
  apply selected_row in Hsel as [HP Hin].
  apply andb_true_iff in HP as [Hid Horg].
  apply String.eqb_eq in Hid, Horg.
  rewrite control_flush_update.
  destruct (required "status" _ _) as [status|];
    cbn [mbind result_bind bind]; [|by left].
  destruct (required "is_applicable" _ _) as [is_applicable|];
    cbn [mbind result_bind bind]; [|by left].
  right. eexists control, (OrganizationControl.mk _ _ _ _ _ _ _).
  by repeat split.
Qed.

Lemma update_document_outcome id request caller db :
  snd (DocumentsRouter.update_document id request caller db) = db
  \/ exists document row,
       document ∈ documents db /\ Document.id document = id
       /\ Document.organization_id document = organization_id caller
       /\ Document.id row = Document.id document
       /\ Document.organization_id row = Document.organization_id document
       /\ DocumentsRouter.update_document id request caller db
          = (Ok row,
             DocumentsRouter.with_documents db
               (DocumentsRouter.write_document row (documents db))).
Proof.
  unfold DocumentsRouter.update_document, DocumentsRouter.select_document.
  destruct (scalar_one_or_none _) as [[document|]|e] eqn:Hsel; [|by left..].
  apply selected_row in Hsel as [HP Hin].
  apply andb_true_iff in HP as [Hid Horg].
  apply String.eqb_eq in Hid, Horg.
  rewrite document_flush_update.
  destruct (required "name" _ _) as [name|];
    cbn [mbind result_bind bind]; [|by left].
  right. eexists document, (Document.mk _ _ _ _ _ _ _ _ _ _ _ _).
  by repeat split.
Qed.

Lemma delete_document_outcome id caller reply bucket db :
  snd (fst (DocumentsRouter.delete_document id caller reply bucket db)) = db
  \/ exists document,
       document ∈ documents db /\ Document.id document = id
       /\ Document.organization_id document = organization_id caller
       /\ snd (fst (DocumentsRouter.delete_document id caller reply bucket db))
          = DocumentsRouter.with_documents db
              (DocumentsRouter.remove_document document (documents db)).
Proof.
  unfold DocumentsRouter.delete_document, DocumentsRouter.select_document.
  destruct (scalar_one_or_none _) as [[document|]|e] eqn:Hsel; [|by left..].
  apply selected_row in Hsel as [HP Hin].
  apply andb_true_iff in HP as [Hid Horg].
  apply String.eqb_eq in Hid, Horg.
  destruct reply; cbn; [right|right|by left]; exists document; by repeat split.
Qed.

Lemma upload_document_cases file name description control_id task_id
    timestamp unique_id id reply caller bucket db :
  let file_key :=
    StorageService.generate_file_key timestamp unique_id
      (organization_id caller)
      (DocumentHandlers.or_str (DocumentHandlers.filename file) "unknown")
      "documents" in
  let document :=
    DocumentHandlers.new_document file name description control_id task_id
      file_key id caller in
  match reply with
  | Storage.S3Done =>
      (id ∈ Document.id <$> documents db ->
       DocumentHandlers.upload_document file name description control_id
         task_id timestamp unique_id id reply caller bucket db
       = (Raise (IntegrityError "UNIQUE constraint failed: documents.id"), db,
          bucket ∪ {[file_key]}))
      /\ (id ∉ Document.id <$> documents db ->
          DocumentHandlers.upload_document file name description control_id
            task_id timestamp unique_id id reply caller bucket db
          = (match Responses.user_by_id db (user_id caller) with
             | Some u =>
                 Ok (DocumentHandlers.mk_upload_response
                       (Responses.mk_document_response document
                          (Responses.brief u))
                       None)
             | None => Raise PydanticValidationError
             end,
             DocumentsRouter.with_documents db (documents db ++ [document]),
             bucket ∪ {[file_key]}))
  | Storage.S3ClientError msg =>
      DocumentHandlers.upload_document file name description control_id
        task_id timestamp unique_id id reply caller bucket db
      = (Raise (ClientError msg), db, bucket)
  | Storage.S3Failure e =>
      DocumentHandlers.upload_document file name description control_id
        task_id timestamp unique_id id reply caller bucket db
      = (Raise e, db, bucket)
  end.
Proof.
  intros file_key document. unfold DocumentHandlers.upload_document.
  fold file_key. fold document.
  destruct reply; cbn [StorageService.upload_file]; [|done..]. split.
  - intros Hin. unfold Session.insert.
    cbn [document DocumentHandlers.new_document Document.id].
    by rewrite bool_decide_eq_true_2.
  - intros Hfresh.
    rewrite (insert_fresh Document.id)
      by (by cbn [document DocumentHandlers.new_document Document.id]).
    cbn [documents DocumentsRouter.with_documents]. rewrite filter_app.
    rewrite (select_fresh Document.id)
      by (by cbn [document DocumentHandlers.new_document Document.id]).
    rewrite filter_cons, filter_nil. rewrite String.eqb_refl.
    rewrite decide_True by done. cbn [app Session.scalar_one].
    cbn [mbind result_bind bind].
    unfold Responses.document_response, Responses.uploaded_by,
      Responses.user_by_id.
    cbn [users DocumentsRouter.with_documents document
         DocumentHandlers.new_document Document.uploaded_by_id].
    by destruct (head _).
Qed.

(* Detaching the documents of a task, seen from an organization none of
   whose documents refers to the task. *)
Lemma other_tenant_detach task rows o :
  (forall d, d ∈ rows -> Document.organization_id d = o ->
     Document.task_id d ≠ Some (Task.id task)) ->
  filter (fun d => String.eqb (Document.organization_id d) o = true)
         (TasksRouter.detach_documents task rows)
  = filter (fun d => String.eqb (Document.organization_id d) o = true) rows.
Proof.
  unfold TasksRouter.detach_documents.
  induction rows as [|d l IH]; intros Hrows; [done|]. cbn [map].
  rewrite !filter_cons. rewrite IH by (intros x Hx; apply Hrows; by right).
  destruct (sql_eq (Document.task_id d) (Task.id task)) eqn:Href; [|done].
  cbn [Document.organization_id]. apply sql_eq_true in Href.
  destruct (decide (String.eqb (Document.organization_id d) o = true))
    as [Ho|Ho]; [|done].
  exfalso. apply String.eqb_eq in Ho. by apply (Hrows d); [left|..].
Qed.

Lemma update_user_outcome id request caller db :
  snd (UsersRouter.update_user id request caller db) = db
  \/ exists user row,
       role caller = "admin"
       /\ user ∈ users db /\ User.id user = id
       /\ User.organization_id user = organization_id caller
       /\ User.id row = User.id user
       /\ User.organization_id row = User.organization_id user
       /\ User.email row = User.email user
       /\ User.password_hash row = User.password_hash user
       /\ UsersRouter.update_user id request caller db
          = (Ok row,
             AuthRouter.with_users db (UsersRouter.write_user row (users db))).
Proof.
  unfold UsersRouter.update_user, UsersRouter.select_user.
  destruct (String.eqb_spec (role caller) "admin") as [Hadmin|];
    cbn [negb]; [|by left].
  destruct (scalar_one_or_none _) as [[user|]|e] eqn:Hsel; [|by left..].
  apply selected_row in Hsel as [HP Hin].
  apply andb_true_iff in HP as [Hid Horg].
  apply String.eqb_eq in Hid, Horg.
  rewrite user_flush_update.
  destruct (required "role" _ _) as [r|];
    cbn [mbind result_bind bind]; [|by left].
  right. eexists user, (User.mk _ _ _ _ _ _). by repeat split.
Qed.

Lemma update_organization_outcome request caller db :
  snd (OrganizationHandlers.update_organization request caller db) = db
  \/ exists organization row,
       role caller = "admin"
       /\ organization ∈ organizations db
       /\ Organization.id organization = organization_id caller
       /\ Organization.id row = Organization.id organization
       /\ OrganizationHandlers.update_organization request caller db
          = (Ok row,
             AuthRouter.with_organizations db
               (OrganizationHandlers.write_organization row
                  (organizations db))).
Proof.
  unfold OrganizationHandlers.update_organization,
    OrganizationHandlers.select_organization.
  destruct (String.eqb_spec (role caller) "admin") as [Hadmin|];
    cbn [negb]; [|by left].
  destruct (scalar_one_or_none _) as [[organization|]|e] eqn:Hsel;
    [|by left..].
  apply selected_row in Hsel as [Hid Hin]. apply String.eqb_eq in Hid.
  rewrite organization_flush_update.
  destruct (required "name" _ _) as [n|];
    cbn [mbind result_bind bind]; [|by left].
  destruct (required "profile_type" _ _) as [p|];
    cbn [mbind result_bind bind]; [|by left].
  right. eexists organization, (Organization.mk _ _ _). by repeat split.
Qed.

(* A write to a row of one organization, seen from another. *)
Lemma other_tenant_write {A} (key org : A -> string) (l : list A) x row o :
  NoDup (key <$> l) -> x ∈ l -> key row = key x -> org row = org x ->
  org x ≠ o ->
  filter (fun r => String.eqb (org r) o = true)
         (map (fun r => if String.eqb (key r) (key row) then row else r) l)
  = filter (fun r => String.eqb (org r) o = true) l.
Proof.
  intros Hnd Hin Hk Horg Hne. apply (write_other key).
  - intros a Ha Hka HP. apply String.eqb_eq in HP.
    assert (a = x) as -> by (eapply (key_determines_row key l); congruence).
    done.
  - intros HP. apply String.eqb_eq in HP. congruence.
Qed.

Lemma other_tenant_remove {A} (key org : A -> string) (l : list A) x o :
  NoDup (key <$> l) -> x ∈ l -> org x ≠ o ->
  filter (fun r => String.eqb (org r) o = true)
         (filter (fun r => String.eqb (key r) (key x) = false) l)
  = filter (fun r => String.eqb (org r) o = true) l.
Proof.
  intros Hnd Hin Hne. apply (remove_other key).
  intros a Ha Hka HP. apply String.eqb_eq in HP.
  assert (a = x) as -> by (by eapply (key_determines_row key l)).
  done.
Qed.

Lemma other_tenant_insert {A} (org : A -> string) (l : list A) row o :
  org row ≠ o ->
  filter (fun r => String.eqb (org r) o = true) (l ++ [row])
  = filter (fun r => String.eqb (org r) o = true) l.
Proof.
  intros Hne. rewrite filter_app, filter_cons, filter_nil.
  rewrite decide_False; [apply app_nil_r|].
  intros HP. by apply String.eqb_eq in HP.
Qed.

(* A column that a write leaves as it was. *)
Lemma write_column {A B} (key : A -> string) (col : A -> B) (l : list A) x row :
  NoDup (key <$> l) -> x ∈ l -> key row = key x -> col row = col x ->
  col <$> map (fun r => if String.eqb (key r) (key row) then row else r) l
  = col <$> l.
Proof.
  intros Hnd Hin Hk Hcol.
  change (map ?f l) with (f <$> l). rewrite <- list_fmap_compose.
  apply list_fmap_ext. intros i a Ha. cbn.
  destruct (String.eqb_spec (key a) (key row)) as [Heq|]; [|done].
  assert (a = x) as ->; [|done].
  eapply (key_determines_row key l); [done| |done|congruence].
  by eapply list_elem_of_lookup_2.
Qed.

(** X10.  Whatever a caller sends to create_task, update_task,
    update_control, upload_document, update_document, delete_document,
    update_user or update_organization, and whether the call succeeds or
    fails, the rows that the store holds for any other organization are the
    same afterwards.  delete_task is the exception: deleting a task sets
    task_id to null on every document that refers to it, those of other
    organizations included; the rows of another organization are what they
    would be after that write alone, and they are unchanged when none of its
    documents refers to the task. *)
Theorem writes_stay_in_tenant (caller : CurrentUser) (db : Store)
    (org : string) :
  primary_keys_unique db -> org ≠ organization_id caller ->
  let kept db' := Tenancy.tenant_view org db' = Tenancy.tenant_view org db in
  (forall request id,
     kept (snd (TaskHandlers.create_task request id caller db)))
  /\ (forall id request,
        kept (snd (TasksRouter.update_task id request caller db)))
  /\ (forall id,
        (forall d, d ∈ documents db -> Document.organization_id d = org ->
           Document.task_id d ≠ Some id) ->
        kept (snd (TasksRouter.delete_task id caller db)))
  /\ (forall task,
        task ∈ tasks db ->
        Task.organization_id task = organization_id caller ->
        Tenancy.tenant_view org
          (snd (TasksRouter.delete_task (Task.id task) caller db))
        = Tenancy.tenant_view org
            (DocumentsRouter.with_documents db
               (TasksRouter.detach_documents task (documents db))))
  /\ (forall id request,
        kept (snd (ControlsRouter.update_control id request caller db)))
  /\ (forall file name description control_id task_id timestamp unique_id id
             reply bucket,
        kept (snd (fst (DocumentHandlers.upload_document file name description
                          control_id task_id timestamp unique_id id reply
                          caller bucket db))))
  /\ (forall id request,
        kept (snd (DocumentsRouter.update_document id request caller db)))
  /\ (forall id reply bucket,
        kept (snd (fst (DocumentsRouter.delete_document id caller reply bucket
                          db))))
  /\ (forall id request,
        kept (snd (UsersRouter.update_user id request caller db)))
  /\ (forall request,
        kept (snd (OrganizationHandlers.update_organization request caller
                     db))).
Proof.
  intros (Ho & Hu & Hc & Ht & Hd) Horg kept. subst kept. cbn beta.
  assert (Hother : forall o : string, o = organization_id caller -> o ≠ org)
    by (intros o ->; congruence).
  split; [|split; [|split; [|split; [|split; [|split; [|split; [|split;
    [|split]]]]]]]].
  - intros request id.
    destruct (create_task_outcome request id caller db) as [Hdup Hnew].
    destruct (decide (id ∈ Task.id <$> tasks db)) as [Hin|Hfresh].
    + by rewrite Hdup.
    + rewrite Hnew by done. unfold Tenancy.tenant_view.
      cbn [snd organizations users organization_controls tasks documents
           TasksRouter.with_tasks].
      f_equal. apply (other_tenant_insert Task.organization_id).
      cbn. by apply Hother.
  - intros id request.
    destruct (update_task_outcome id request caller db)
      as [->|(task & row & Hin & Hid & Htorg & Hrid & Hrorg & ->)]; [done|].
    unfold Tenancy.tenant_view.
    cbn [snd organizations users organization_controls tasks documents
         TasksRouter.with_tasks].
    f_equal. unfold TasksRouter.write_task.
    apply (other_tenant_write Task.id Task.organization_id _ task); auto.
  - intros id Hrefs.
    destruct (delete_task_outcome id caller db)
      as [->|(task & Hin & Hid & Htorg & ->)]; [done|].
    unfold Tenancy.tenant_view.
    cbn [snd organizations users organization_controls tasks documents
         TasksRouter.db_delete].
    f_equal.
    + unfold TasksRouter.remove_task.
      apply (other_tenant_remove Task.id Task.organization_id); auto.
    + apply other_tenant_detach. intros d Hdin Hdorg. rewrite Hid.
      by apply Hrefs.
  - intros task Hin Htorg.
    assert (Hdel : TasksRouter.delete_task (Task.id task) caller db
                   = (Ok "Task deleted successfully",
                      TasksRouter.db_delete task db)).
    { unfold TasksRouter.delete_task, TasksRouter.select_task.
      by rewrite <- Htorg,
        (scoped_select_own_org Task.id Task.organization_id). }
    rewrite Hdel. unfold Tenancy.tenant_view.
    cbn [snd organizations users organization_controls tasks documents
         TasksRouter.db_delete DocumentsRouter.with_documents].
    f_equal. unfold TasksRouter.remove_task.
    apply (other_tenant_remove Task.id Task.organization_id); auto.
  - intros id request.
    destruct (update_control_outcome id request caller db)
      as [->|(control & row & Hin & Hid & Htorg & Hrid & Hrorg & ->)]; [done|].
    unfold Tenancy.tenant_view.
    cbn [snd organizations users organization_controls tasks documents
         ControlsRouter.with_controls].
    f_equal. unfold ControlsRouter.write_control.
    apply (other_tenant_write OrganizationControl.id
             OrganizationControl.organization_id _ control); auto.
  - intros file name description control_id task_id timestamp unique_id id
      reply bucket.
    pose proof (upload_document_cases file name description control_id
                  task_id timestamp unique_id id reply caller bucket db)
      as Hout. cbn zeta in Hout.
    destruct reply; [|by rewrite Hout..].
    destruct Hout as [Hdup Hnew].
    destruct (decide (id ∈ Document.id <$> documents db)) as [Hin|Hfresh].
    + by rewrite Hdup.
    + rewrite Hnew by done. unfold Tenancy.tenant_view.
      cbn [fst snd organizations users organization_controls tasks documents
           DocumentsRouter.with_documents].
      f_equal. apply (other_tenant_insert Document.organization_id).
      cbn. by apply Hother.
  - intros id request.
    destruct (update_document_outcome id request caller db)
      as [->|(document & row & Hin & Hid & Htorg & Hrid & Hrorg & ->)];
      [done|].
    unfold Tenancy.tenant_view.
    cbn [snd organizations users organization_controls tasks documents
         DocumentsRouter.with_documents].
    f_equal. unfold DocumentsRouter.write_document.
    apply (other_tenant_write Document.id Document.organization_id _ document);
      auto.
  - intros id reply bucket.
    destruct (delete_document_outcome id caller reply bucket db)
      as [->|(document & Hin & Hid & Htorg & ->)]; [done|].
    unfold Tenancy.tenant_view.
    cbn [organizations users organization_controls tasks documents
         DocumentsRouter.with_documents].
    f_equal. unfold DocumentsRouter.remove_document.
    apply (other_tenant_remove Document.id Document.organization_id); auto.
  - intros id request.
    destruct (update_user_outcome id request caller db)
      as [->|(user & row & _ & Hin & Hid & Htorg & Hrid & Hrorg & _ & _ & ->)];
      [done|].
    unfold Tenancy.tenant_view.
    cbn [snd organizations users organization_controls tasks documents
         AuthRouter.with_users].
    f_equal. unfold UsersRouter.write_user.
    apply (other_tenant_write User.id User.organization_id _ user); auto.
  - intros request.
    destruct (update_organization_outcome request caller db)
      as [->|(organization & row & _ & Hin & Hid & Hrid & ->)]; [done|].
    unfold Tenancy.tenant_view.
    cbn [snd organizations users organization_controls tasks documents
         AuthRouter.with_organizations].
    f_equal. unfold OrganizationHandlers.write_organization.
    apply (write_other Organization.id).
    + intros a _ Ha HP. apply String.eqb_eq in HP. congruence.
    + intros HP. apply String.eqb_eq in HP. congruence.
Qed.

(** X11.  Every one of these handlers keeps the constraints of the schema:
    in the store it leaves, the ids of each table are still unique and so
    are the email addresses of the users. *)
Theorem writes_keep_keys_unique (caller : CurrentUser) (db : Store) :
  primary_keys_unique db -> emails_unique db ->
  let kept db' := primary_keys_unique db' /\ emails_unique db' in
  (forall request id,
     kept (snd (TaskHandlers.create_task request id caller db)))
  /\ (forall id request,
        kept (snd (TasksRouter.update_task id request caller db)))
  /\ (forall id, kept (snd (TasksRouter.delete_task id caller db)))
  /\ (forall id request,
        kept (snd (ControlsRouter.update_control id request caller db)))
  /\ (forall file name description control_id task_id timestamp unique_id id
             reply bucket,
        kept (snd (fst (DocumentHandlers.upload_document file name description
                          control_id task_id timestamp unique_id id reply
                          caller bucket db))))
  /\ (forall id request,
        kept (snd (DocumentsRouter.update_document id request caller db)))
  /\ (forall id reply bucket,
        kept (snd (fst (DocumentsRouter.delete_document id caller reply bucket
                          db))))
  /\ (forall id request,
        kept (snd (UsersRouter.update_user id request caller db)))
  /\ (forall request,
        kept (snd (OrganizationHandlers.update_organization request caller
                     db))).
Proof.
  intros Hkeys Hemails kept. subst kept. cbn beta.
  pose proof Hkeys as (Ho & Hu & Hc & Ht & Hd).
  split; [|split; [|split; [|split; [|split; [|split; [|split; [|split]]]]]]].
  - intros request id.
    destruct (create_task_outcome request id caller db) as [Hdup Hnew].
    destruct (decide (id ∈ Task.id <$> tasks db)) as [Hin|Hfresh].
    + by rewrite Hdup.
    + rewrite Hnew by done. split; [|done]. repeat split; try done.
      cbn [snd tasks TasksRouter.with_tasks]. by apply insert_keys.
  - intros id request.
    destruct (update_task_outcome id request caller db)
      as [->|(task & row & Hin & Hid & Htorg & Hrid & Hrorg & ->)]; [done|].
    split; [|done]. repeat split; try done.
    cbn [snd tasks TasksRouter.with_tasks]. unfold TasksRouter.write_task.
    by rewrite (write_keys Task.id).
  - intros id.
    destruct (delete_task_outcome id caller db)
      as [->|(task & Hin & Hid & Htorg & ->)]; [done|].
    split; [|done]. repeat split; try done.
    + cbn [snd tasks TasksRouter.db_delete]. by apply remove_keys.
    + cbn [snd documents TasksRouter.db_delete].
      by rewrite detach_documents_keys.
  - intros id request.
    destruct (update_control_outcome id request caller db)
      as [->|(control & row & Hin & Hid & Htorg & Hrid & Hrorg & ->)]; [done|].
    split; [|done]. repeat split; try done.
    cbn [snd organization_controls ControlsRouter.with_controls].
    unfold ControlsRouter.write_control.
    by rewrite (write_keys OrganizationControl.id).
  - intros file name description control_id task_id timestamp unique_id id
      reply bucket.
    pose proof (upload_document_cases file name description control_id
                  task_id timestamp unique_id id reply caller bucket db)
      as Hout. cbn zeta in Hout.
    destruct reply; [|by rewrite Hout..].
    destruct Hout as [Hdup Hnew].
    destruct (decide (id ∈ Document.id <$> documents db)) as [Hin|Hfresh].
    + by rewrite Hdup.
    + rewrite Hnew by done. split; [|done]. repeat split; try done.
      cbn [fst snd documents DocumentsRouter.with_documents].
      by apply insert_keys.
  - intros id request.
    destruct (update_document_outcome id request caller db)
      as [->|(document & row & Hin & Hid & Htorg & Hrid & Hrorg & ->)];
      [done|].
    split; [|done]. repeat split; try done.
    cbn [snd documents DocumentsRouter.with_documents].
    unfold DocumentsRouter.write_document.
    by rewrite (write_keys Document.id).
  - intros id reply bucket.
    destruct (delete_document_outcome id caller reply bucket db)
      as [->|(document & Hin & Hid & Htorg & ->)]; [done|].
    split; [|done]. repeat split; try done.
    cbn [documents DocumentsRouter.with_documents]. by apply remove_keys.
  - intros id request.
    destruct (update_user_outcome id request caller db)
      as [->|(user & row & _ & Hin & Hid & Htorg & Hrid & Hrorg & Hemail & _
              & ->)]; [done|].
    split.
    + repeat split; try done.
      cbn [snd users AuthRouter.with_users]. unfold UsersRouter.write_user.
      by rewrite (write_keys User.id).
    + unfold emails_unique. cbn [snd users AuthRouter.with_users].
      unfold UsersRouter.write_user.
      by rewrite (write_column User.id User.email _ user).
  - intros request.
    destruct (update_organization_outcome request caller db)
      as [->|(organization & row & _ & Hin & Hid & Hrid & ->)]; [done|].
    split; [|done]. repeat split; try done.
    cbn [snd organizations AuthRouter.with_organizations].
    unfold OrganizationHandlers.write_organization.
    by rewrite (write_keys Organization.id).
Qed.

End handler_outcomes.

(** ** Users and the organization: the admin gate and the partial update *)

Section admin_updates.

(** X12.  update_user checks the role before it looks anything up: a caller
    whose role is not "admin" gets the 403 for every id, existing or not,
    and an admin who addresses a user of another organization gets the 404;
    in both cases nothing is written.  A user row is replaced only on the
    request of an admin of the user's own organization, and the row that
    replaces it has the same id, email, password hash and organization. *)
Theorem update_user_admin_only (user_id : string) (request : UserUpdate.t)
    (caller : CurrentUser) (db : Store) :
  primary_keys_unique db ->
  let db' := snd (UsersRouter.update_user user_id request caller db) in
  (role caller ≠ "admin" ->
   UsersRouter.update_user user_id request caller db
   = (Raise (HTTPException HTTP_403_FORBIDDEN "Only admins can update users"),
      db))
  /\ (forall u, u ∈ users db -> User.id u = user_id ->
                User.organization_id u ≠ organization_id caller ->
                role caller = "admin" ->
        UsersRouter.update_user user_id request caller db
        = (Raise (HTTPException HTTP_404_NOT_FOUND "User not found"), db))
  /\ (forall u, u ∈ users db -> u ∉ users db' ->
        role caller = "admin" /\ User.id u = user_id
        /\ User.organization_id u = organization_id caller)
  /\ (forall u', u' ∈ users db' -> u' ∉ users db ->
        exists u, u ∈ users db /\ (u ∉ users db')
                  /\ User.id u' = User.id u /\ User.email u' = User.email u
                  /\ User.password_hash u' = User.password_hash u
                  /\ User.organization_id u' = User.organization_id u).
Proof.
  intros (Ho & Hu & Hc & Ht & Hd) db'. subst db'.
  split; [|split; [|split]].
  - intros Hrole. unfold UsersRouter.update_user.
    by rewrite (proj2 (String.eqb_neq _ _)) by done.
  - intros u Hin <- Hother Hrole. unfold UsersRouter.update_user.
    rewrite Hrole, String.eqb_refl. cbn [negb]. unfold UsersRouter.select_user.
    by rewrite (scoped_select_other_org User.id User.organization_id) by done.
  - intros u Hin Hgone.
    destruct (update_user_outcome user_id request caller db)
      as [Hsame|(user & row & Hrole & Huin & Hid & Horg & Hrid & Hrorg & _ & _
                 & Heq)].
    { by rewrite Hsame in Hgone. }
    rewrite Heq in Hgone. cbn [snd users AuthRouter.with_users] in Hgone.
    unfold UsersRouter.write_user in Hgone.
    destruct (String.eqb_spec (User.id u) (User.id row)) as [Hk|Hk].
    + assert (u = user) as ->
        by (eapply (key_determines_row User.id (users db)); congruence).
      done.
    + exfalso. apply Hgone. apply list_elem_of_fmap. exists u.
      split; [|done]. by rewrite (proj2 (String.eqb_neq _ _)) by done.
  - intros u' Hin' Hnew.
    destruct (update_user_outcome user_id request caller db)
      as [Hsame|(user & row & Hrole & Huin & Hid & Horg & Hrid & Hrorg & Hemail
                 & Hhash & Heq)].
    { by rewrite Hsame in Hin'. }
    rewrite Heq in Hin' |- *. cbn [snd users AuthRouter.with_users] in *.
    unfold UsersRouter.write_user in *.
    apply list_elem_of_fmap in Hin' as (r & -> & Hr).
    destruct (String.eqb_spec (User.id r) (User.id row)) as [Hk|Hk]; [|done].
    assert (r = user) as ->
      by (eapply (key_determines_row User.id (users db)); congruence).
    exists user. split; [done|]. split; [|done].
    intros Hstill. apply list_elem_of_fmap in Hstill as (r & Hr' & Hrin).
    destruct (String.eqb_spec (User.id r) (User.id row)) as [Hk'|Hk'].
    + apply Hnew. by rewrite <- Hr'.
    + subst r. congruence.
Qed.


(** X14.  update_organization checks the role first: a caller who is not an
    admin gets the 403 and nothing is written, whether or not the
    organization exists.  For an admin it is a partial update of [name] and
    [profile_type] of the caller's own organization, which
    get_current_organization then returns; a null in either column fails at
    the flush and writes nothing. *)
Theorem update_organization_admin_only (caller : CurrentUser) (db : Store)
    (request : OrganizationUpdate.t) :
  (role caller ≠ "admin" ->
   OrganizationHandlers.update_organization request caller db
   = (Raise (HTTPException HTTP_403_FORBIDDEN
               "Only admins can update organization"), db))
  /\ (forall organization,
        primary_keys_unique db -> role caller = "admin" ->
        organization ∈ organizations db ->
        Organization.id organization = organization_id caller ->
        let updated :=
          {| Organization.id := Organization.id organization;
             Organization.name :=
               assigned_value (OrganizationUpdate.name request)
                 (Organization.name organization);
             Organization.profile_type :=
               assigned_value (OrganizationUpdate.profile_type request)
                 (Organization.profile_type organization) |} in
        (given_null (OrganizationUpdate.name request)
         || given_null (OrganizationUpdate.profile_type request) = false ->
         exists db',
           OrganizationHandlers.update_organization request caller db
           = (Ok updated, db')
           /\ OrganizationHandlers.get_current_organization caller db'
              = Ok updated)
        /\ (given_null (OrganizationUpdate.name request)
            || given_null (OrganizationUpdate.profile_type request) = true ->
            exists msg,
              OrganizationHandlers.update_organization request caller db
              = (Raise (IntegrityError msg), db))).
Proof.
  split.
  - intros Hrole. unfold OrganizationHandlers.update_organization.
    by rewrite (proj2 (String.eqb_neq _ _)) by done.
  - intros organization (Ho & Hu & Hc & Ht & Hd) Hrole Hin Hid updated.
    unfold OrganizationHandlers.update_organization,
      OrganizationHandlers.select_organization.
    rewrite Hrole, String.eqb_refl. cbn [negb].
    rewrite <- Hid, (select_by_key Organization.id) by done.
    cbn [scalar_one_or_none]. rewrite organization_flush_update.
    split; intros Hnull.
    + apply orb_false_iff in Hnull as [Hn Hp].
      rewrite (required_given "name"), (required_given "profile_type") by done.
      cbn [mbind result_bind bind]. fold updated. eexists. split; [reflexivity|].
      unfold OrganizationHandlers.get_current_organization,
        OrganizationHandlers.select_organization.
      cbn [organizations AuthRouter.with_organizations]. rewrite <- Hid.
      change (Organization.id organization) with (Organization.id updated).
      rewrite (select_by_key Organization.id); [done| |].
      * unfold OrganizationHandlers.write_organization.
        by rewrite (write_keys Organization.id).
      * unfold OrganizationHandlers.write_organization.
        by apply (write_elem Organization.id updated organization).
    + destruct (given_null (OrganizationUpdate.name request)) eqn:Hn.
      { rewrite (required_null "name") by done. by eexists. }
      rewrite (required_given "name") by done. cbn [mbind result_bind bind].
      cbn in Hnull. rewrite (required_null "profile_type") by done.
      by eexists.
Qed.

Lemma with_tasks_same db : TasksRouter.with_tasks db (tasks db) = db.
Proof. by destruct db. Qed.

Lemma with_controls_same db :
  ControlsRouter.with_controls db (organization_controls db) = db.
Proof. by destruct db. Qed.

Lemma with_documents_same db :
  DocumentsRouter.with_documents db (documents db) = db.
Proof. by destruct db. Qed.

(** X15.  A PATCH whose body sets no field changes nothing: on a record of
    the caller's organization update_task, update_control and update_document
    return the record as it is and leave the store as it is. *)
Theorem empty_patch_changes_nothing (caller : CurrentUser) (db : Store) :
  primary_keys_unique db ->
  (forall task, task ∈ tasks db ->
     Task.organization_id task = organization_id caller ->
     TasksRouter.update_task (Task.id task)
       (TaskUpdate.mk Unset Unset Unset Unset Unset Unset Unset Unset)
       caller db
     = (Ok task, db))
  /\ (forall control, control ∈ organization_controls db ->
        OrganizationControl.organization_id control = organization_id caller ->
        ControlsRouter.update_control (OrganizationControl.id control)
          (OrganizationControlUpdate.mk Unset Unset Unset) caller db
        = (Ok control, db))
  /\ (forall document, document ∈ documents db ->
        Document.organization_id document = organization_id caller ->
        DocumentsRouter.update_document (Document.id document)
          (DocumentUpdate.mk Unset Unset Unset Unset Unset) caller db
        = (Ok document, db)).
Proof.
  intros (Ho & Hu & Hc & Ht & Hd). split; [|split].
  - intros task Hin Horg.
    unfold TasksRouter.update_task, TasksRouter.select_task.
    rewrite <- Horg,
      (scoped_select_own_org Task.id Task.organization_id) by done.
    cbn [scalar_one_or_none]. rewrite task_flush_update.
    cbn [required mbind result_bind bind assigned TaskUpdate.title
         TaskUpdate.description TaskUpdate.status TaskUpdate.priority
         TaskUpdate.due_date TaskUpdate.control_id TaskUpdate.assignee_id
         TaskUpdate.recurring_rule].
    assert (Heta : {| Task.id := Task.id task; Task.title := Task.title task;
                      Task.description := Task.description task;
                      Task.status := Task.status task;
                      Task.priority := Task.priority task;
                      Task.due_date := Task.due_date task;
                      Task.recurring_rule := Task.recurring_rule task;
                      Task.organization_id := Task.organization_id task;
                      Task.control_id := Task.control_id task;
                      Task.assignee_id := Task.assignee_id task |} = task)
      by (by destruct task).
    rewrite Heta. unfold TasksRouter.write_task.
    by rewrite (write_same Task.id), with_tasks_same.
  - intros control Hin Horg.
    unfold ControlsRouter.update_control, ControlsRouter.select_control.
    rewrite <- Horg,
      (scoped_select_own_org OrganizationControl.id
         OrganizationControl.organization_id) by done.
    cbn [scalar_one_or_none]. rewrite control_flush_update.
    cbn [required mbind result_bind bind assigned
         OrganizationControlUpdate.status
         OrganizationControlUpdate.is_applicable
         OrganizationControlUpdate.notes].
    assert (Heta :
      {| OrganizationControl.id := OrganizationControl.id control;
         OrganizationControl.organization_id :=
           OrganizationControl.organization_id control;
         OrganizationControl.control_id :=
           OrganizationControl.control_id control;
         OrganizationControl.status := OrganizationControl.status control;
         OrganizationControl.is_applicable :=
           OrganizationControl.is_applicable control;
         OrganizationControl.notes := OrganizationControl.notes control;
         OrganizationControl.control := OrganizationControl.control control |}
      = control) by (by destruct control).
    rewrite Heta. unfold ControlsRouter.write_control.
    by rewrite (write_same OrganizationControl.id), with_controls_same.
  - intros document Hin Horg.
    unfold DocumentsRouter.update_document, DocumentsRouter.select_document.
    rewrite <- Horg,
      (scoped_select_own_org Document.id Document.organization_id) by done.
    cbn [scalar_one_or_none]. rewrite document_flush_update.
    cbn [required mbind result_bind bind assigned DocumentUpdate.name
         DocumentUpdate.description DocumentUpdate.expires_at
         DocumentUpdate.control_id DocumentUpdate.task_id].
    assert (Heta :
      {| Document.id := Document.id document;
         Document.name := Document.name document;
         Document.description := Document.description document;
         Document.file_key := Document.file_key document;
         Document.file_size := Document.file_size document;
         Document.mime_type := Document.mime_type document;
         Document.version := Document.version document;
         Document.expires_at := Document.expires_at document;
         Document.organization_id := Document.organization_id document;
         Document.control_id := Document.control_id document;
         Document.task_id := Document.task_id document;
         Document.uploaded_by_id := Document.uploaded_by_id document |}
      = document) by (by destruct document).
    rewrite Heta. unfold DocumentsRouter.write_document.
    by rewrite (write_same Document.id), with_documents_same.
Qed.

End admin_updates.

(** ** Login and token refresh *)

Section tokens.

Variable verify_password : string -> string -> bool.
Variable create_access_token : AuthRouter.TokenData -> string.
Variable create_refresh_token : AuthRouter.TokenData -> string.
Variable decode_token : string -> result (gmap string string).

(** X16.  login succeeds exactly for a stored user with the email of the
    request whose password hash verifies, and then issues the tokens of that
    user's id, email, organization and stored role.  Every other request gets
    the same 401, whether the email is unknown or the password is wrong. *)
Theorem login_outcome (request : AuthHandlers.LoginRequest) (db : Store) :
  emails_unique db ->
  let login :=
    AuthHandlers.login verify_password create_access_token
      create_refresh_token request db in
  (forall u, u ∈ users db -> User.email u = AuthHandlers.email request ->
     verify_password (AuthHandlers.password request) (User.password_hash u)
     = true ->
     login = Ok (AuthHandlers.tokens create_access_token create_refresh_token u))
  /\ ((forall u, u ∈ users db -> User.email u = AuthHandlers.email request ->
         verify_password (AuthHandlers.password request) (User.password_hash u)
         = false) ->
      login = Raise (HTTPException HTTP_401_UNAUTHORIZED
                       "Incorrect email or password"))
  /\ (forall resp, login = Ok resp ->
        exists u,
          u ∈ users db /\ User.email u = AuthHandlers.email request
          /\ verify_password (AuthHandlers.password request)
               (User.password_hash u) = true
          /\ resp = AuthHandlers.tokens create_access_token
                      create_refresh_token u).
Proof.
  intros Hemails login. subst login. unfold AuthHandlers.login.
  destruct (decide (AuthHandlers.email request ∈ User.email <$> users db))
    as [Hin|Hnot].
  - apply list_elem_of_fmap in Hin as (u & Hemail & Hin).
    rewrite Hemail, (select_email_registered db u) by done.
    cbn [scalar_one_or_none mbind result_bind bind].
    split; [|split].
    + intros u' Hin' Hemail' Hverify.
      assert (u' = u) as ->
        by (eapply (key_determines_row User.email (users db));
            [exact Hemails|done|done|congruence]).
      by rewrite Hverify.
    + intros Hall. by rewrite (Hall u Hin eq_refl).
    + intros resp.
      destruct (verify_password _ _) eqn:Hverify; cbn [negb]; [|done].
      intros [= <-]. by exists u.
  - rewrite (select_fresh User.email) by done.
    cbn [scalar_one_or_none mbind result_bind bind].
    split; [|split]; [|done..].
    intros u Hin Hemail. exfalso. apply Hnot. rewrite <- Hemail.
    by apply list_elem_of_fmap_2.
Qed.

(** X17.  refresh_token passes on the error of decode_token, rejects with a
    401 a token whose type is not "refresh" and a token whose subject is not
    the id of a stored user, and otherwise issues tokens built from the row
    of that user as the store holds it now: the id, email, organization and
    role in the new tokens are the stored ones, whatever the old token
    claims. *)
Theorem refresh_token_outcome (token : string) (db : Store) :
  primary_keys_unique db ->
  let refresh :=
    AuthHandlers.refresh_token create_access_token create_refresh_token
      decode_token token db in
  match decode_token token with
  | Raise e => refresh = Raise e
  | Ok payload =>
      (payload !! "type" ≠ Some "refresh" ->
       refresh = Raise (HTTPException HTTP_401_UNAUTHORIZED "Invalid token type"))
      /\ (payload !! "type" = Some "refresh" ->
          (forall u, u ∈ users db -> payload !! "sub" = Some (User.id u) ->
             refresh = Ok (AuthHandlers.tokens create_access_token
                             create_refresh_token u))
          /\ ((forall u, u ∈ users db -> payload !! "sub" ≠ Some (User.id u)) ->
              refresh = Raise (HTTPException HTTP_401_UNAUTHORIZED
                                 "User not found")))
  end.
Proof.
  intros (Ho & Hu & Hc & Ht & Hd) refresh. subst refresh.
  unfold AuthHandlers.refresh_token.
  destruct (decode_token token) as [payload|e];
    cbn [mbind result_bind bind]; [|done].
  split.
  - intros Htype. by rewrite bool_decide_eq_false_2.
  - intros Htype. rewrite bool_decide_eq_true_2 by done. cbn [negb].
    split.
    + intros u Hin Hsub. rewrite Hsub. cbn [AuthHandlers.id_is].
      by rewrite (select_by_key User.id) by done.
    + intros Hnone.
      rewrite (filter_none (fun u => AuthHandlers.id_is (payload !! "sub") u
                                     = true)); [done|].
      intros u Hin Hid. apply (Hnone u Hin).
      unfold AuthHandlers.id_is in Hid.
      destruct (payload !! "sub") as [s|]; [|done].
      apply String.eqb_eq in Hid. by rewrite Hid.
Qed.

End tokens.

(** ** File keys *)

Section file_keys.

Lemma append_cons c (a b : string) : String c a +:+ b = String c (a +:+ b).
Proof. reflexivity. Qed.

Lemma append_assoc (a b c : string) : (a +:+ b) +:+ c = a +:+ b +:+ c.
Proof.
  induction a as [|x a IH]; [done|]. rewrite !append_cons. by f_equal.
Qed.

Lemma after_last_dot_none s :
  StorageService.after_last_dot s = None
  <-> StorageService.contains StorageService.dot s = false.
Proof.
  induction s as [|c rest IH]; cbn [StorageService.after_last_dot
    StorageService.contains]; [done|].
  rewrite orb_false_iff, <- IH.
  destruct (StorageService.after_last_dot rest) as [ext|].
  - split; [done|]. by intros [_ ?].
  - destruct (Ascii.eqb c StorageService.dot); split; try done.
    by intros [? _].
Qed.

Lemma after_last_dot_split s ext :
  StorageService.after_last_dot s = Some ext ->
  StorageService.contains StorageService.dot ext = false
  /\ exists stem, s = stem +:+ "." +:+ ext.
Proof.
  revert ext. induction s as [|c rest IH]; intros ext;
    cbn [StorageService.after_last_dot]; [done|].
  destruct (StorageService.after_last_dot rest) as [e|] eqn:Hrest.
  - intros [= ->]. destruct (IH ext eq_refl) as (Hno & stem & ->).
    split; [done|]. by exists (String c stem).
  - destruct (Ascii.eqb_spec c StorageService.dot) as [->|]; [|done].
    intros [= <-]. split; [by apply after_last_dot_none|]. by exists "".
Qed.

(* The text before the first "/" of a key. *)
Lemma prefix_until_slash a b x y :
  StorageService.contains StorageService.slash a = false ->
  StorageService.contains StorageService.slash b = false ->
  a +:+ String StorageService.slash x = b +:+ String StorageService.slash y ->
  a = b.
Proof.
  revert b. induction a as [|c a IH]; intros [|d b];
    rewrite ?append_cons; change ("" +:+ ?s) with s;
    cbn [StorageService.contains]; try done.
  - intros _ Hb [= <- _]. by rewrite Ascii.eqb_refl in Hb.
  - intros Ha _ [= -> _]. by rewrite Ascii.eqb_refl in Ha.
  - intros Ha Hb [= -> Heq]. apply orb_false_iff in Ha as [_ Ha], Hb as [_ Hb].
    f_equal. by apply IH.
Qed.

(* The text after the last "." of a name that ends in a "." followed by a
   text without ".". *)
Lemma after_last_dot_app before ext :
  StorageService.contains StorageService.dot ext = false ->
  StorageService.after_last_dot (before +:+ "." +:+ ext) = Some ext.
Proof.
  intros Hno. induction before as [|c before IH].
  - change ("" +:+ "." +:+ ext) with (String StorageService.dot ext).
    cbn [StorageService.after_last_dot].
    rewrite (proj2 (after_last_dot_none ext) Hno).
    by rewrite Ascii.eqb_refl.
  - rewrite append_cons. cbn [StorageService.after_last_dot]. by rewrite IH.
Qed.

Lemma append_inj_l (a x y : string) : a +:+ x = a +:+ y -> x = y.
Proof.
  induction a as [|c a IH]; [done|]. rewrite !append_cons.
  intros [= Heq]. by apply IH.
Qed.

Lemma append_empty_r (a : string) : a +:+ "" = a.
Proof. induction a as [|c a IH]; [done|]. rewrite append_cons. by f_equal. Qed.

(** X18.  generate_file_key puts every key under the organization and the
    folder, followed by the timestamp and the unique id.  A file name
    without "." gives this stem alone.  A file name with a "." ends in a "."
    followed by a text without "."; when that text is empty the key is the
    stem again, otherwise it is the stem followed by a "." and that text.
    So the key is the stem alone exactly when the file name has no "." or
    ends in one. *)
Theorem file_key_shape (timestamp unique_id organization_id filename
    folder : string) :
  let key :=
    StorageService.generate_file_key timestamp unique_id organization_id
      filename folder in
  let stem :=
    organization_id +:+ "/" +:+ folder +:+ "/" +:+ timestamp +:+ "_"
    +:+ unique_id in
  (StorageService.contains StorageService.dot filename = false -> key = stem)
  /\ (StorageService.contains StorageService.dot filename = true ->
      exists before extension,
        filename = before +:+ "." +:+ extension
        /\ StorageService.contains StorageService.dot extension = false)
  /\ (forall before extension,
        filename = before +:+ "." +:+ extension ->
        StorageService.contains StorageService.dot extension = false ->
        key = if String.eqb extension "" then stem
              else stem +:+ "." +:+ extension)
  /\ (key = stem
      <-> StorageService.contains StorageService.dot filename = false
          \/ exists before, filename = before +:+ ".").
Proof.
  intros key stem.
  assert (Hnone : StorageService.contains StorageService.dot filename = false ->
                  key = stem).
  { intros Hno. subst key stem. unfold StorageService.generate_file_key.
    apply after_last_dot_none in Hno. rewrite Hno.
    cbn [default]. by rewrite String.eqb_refl. }
  assert (Hsome : forall before extension,
            filename = before +:+ "." +:+ extension ->
            StorageService.contains StorageService.dot extension = false ->
            key = if String.eqb extension "" then stem
                  else stem +:+ "." +:+ extension).
  { intros before extension -> Hno. subst key stem.
    unfold StorageService.generate_file_key.
    rewrite (after_last_dot_app before extension Hno). cbn [default]. unfold id.
    destruct (String.eqb extension ""); cbn [negb]; [done|].
    by rewrite !append_assoc. }
  assert (Hsplit : StorageService.contains StorageService.dot filename = true ->
            exists before extension,
              filename = before +:+ "." +:+ extension
              /\ StorageService.contains StorageService.dot extension = false).
  { intros Hdot.
    destruct (StorageService.after_last_dot filename) as [ext|] eqn:Hext.
    - apply after_last_dot_split in Hext as (Hno & before & ->).
      by exists before, ext.
    - apply after_last_dot_none in Hext. congruence. }
  split; [exact Hnone|]. split; [exact Hsplit|]. split; [exact Hsome|]. split.
  - intros Hkey.
    destruct (StorageService.contains StorageService.dot filename) eqn:Hdot;
      [right|by left].
    destruct (Hsplit eq_refl) as (before & ext & Hname & Hno).
    rewrite (Hsome before ext Hname Hno) in Hkey.
    destruct (String.eqb_spec ext "") as [Hempty|Hne].
    + exists before. by rewrite Hname, Hempty.
    + exfalso. subst stem. rewrite !append_assoc in Hkey.
      do 6 apply append_inj_l in Hkey.
      rewrite <- (append_empty_r unique_id) in Hkey at 2.
      by apply append_inj_l in Hkey.
  - intros [Hno|(before & Hname)]; [by apply Hnone|].
    rewrite (Hsome before "" Hname eq_refl). reflexivity.
Qed.

(** X19.  Keys generated for two organizations are different, whatever the
    file names, folders, timestamps and unique ids, when the organization
    ids are different and contain no "/" (they are UUIDs): no two tenants
    share a key of the bucket. *)
Theorem file_keys_of_tenants_differ (timestamp1 unique_id1 filename1 folder1
    timestamp2 unique_id2 filename2 folder2 org1 org2 : string) :
  StorageService.contains StorageService.slash org1 = false ->
  StorageService.contains StorageService.slash org2 = false ->
  org1 ≠ org2 ->
  StorageService.generate_file_key timestamp1 unique_id1 org1 filename1 folder1
  ≠ StorageService.generate_file_key timestamp2 unique_id2 org2 filename2
      folder2.
Proof.
  intros H1 H2 Hne Heq. apply Hne.
  unfold StorageService.generate_file_key in Heq.
  by eapply (prefix_until_slash org1 org2).
Qed.

End file_keys.

(** ** Uploading, listing and downloading documents *)

Section document_handlers.

Lemma filter_all {A} (P : A -> Prop) `{!forall x, Decision (P x)} (l : list A) :
  (forall x, x ∈ l -> P x) -> filter P l = l.
Proof.
  induction l as [|a l IH]; intros Hall; [done|].
  rewrite filter_cons_True by (apply Hall; left).
  f_equal. apply IH. intros x Hx. apply Hall. by right.
Qed.

(** X20.  upload_document stores the object before it inserts the row.  When
    the storage refuses (ClientError), the error is raised and neither the
    bucket nor the table changes.  When the object is stored, the id is new
    and users holds a row with the id of the principal, the row is inserted
    for the caller's organization and user, with the generated key, the size
    of the content, version 1 and no expiry, the response carries it with
    the id, name and email of that user, and get_document finds it for the
    caller's organization only.  When the object is stored and the row is
    then refused, when users holds no row for the principal (the response
    cannot be built and the request is rolled back), or when the commit of
    the request fails, the object stays in the bucket although no row refers
    to it. *)
Theorem upload_document_outcomes (file : DocumentHandlers.UploadFile)
    (name description control_id task_id : option string)
    (timestamp unique_id id : string) (caller : CurrentUser)
    (bucket : gset string) (db : Store) :
  let file_key :=
    StorageService.generate_file_key timestamp unique_id
      (organization_id caller)
      (DocumentHandlers.or_str (DocumentHandlers.filename file) "unknown")
      "documents" in
  let upload reply :=
    DocumentHandlers.upload_document file name description control_id task_id
      timestamp unique_id id reply caller bucket db in
  let request commit_exn :=
    DocumentHandlers.upload_document_request file name description control_id
      task_id timestamp unique_id id Storage.S3Done commit_exn caller bucket
      db in
  (forall msg,
     upload (Storage.S3ClientError msg) = (Raise (ClientError msg), db, bucket))
  /\ (forall u,
        id ∉ Document.id <$> documents db ->
        Responses.user_by_id db (user_id caller) = Some u ->
        exists resp db',
          upload Storage.S3Done = (Ok resp, db', bucket ∪ {[file_key]})
          /\ request None = (Ok resp, db', bucket ∪ {[file_key]})
          /\ Responses.document_uploaded_by
               (DocumentHandlers.ur_document resp) = Responses.brief u
          /\ DocumentHandlers.ur_upload_url resp = None
          /\ (let d := Responses.document (DocumentHandlers.ur_document resp) in
              Document.id d = id /\ Document.file_key d = file_key
              /\ Document.organization_id d = organization_id caller
              /\ Document.uploaded_by_id d = user_id caller
              /\ Document.file_size d
                 = Z.of_nat (String.length (DocumentHandlers.content file))
              /\ Document.version d = 1 /\ Document.expires_at d = None
              /\ DocumentsRouter.get_document id caller db' = (Ok d, db'))
          /\ (forall other,
                organization_id other ≠ organization_id caller ->
                DocumentsRouter.get_document id other db'
                = (Raise (HTTPException HTTP_404_NOT_FOUND
                            "Document not found"), db'))
          /\ (forall e, request (Some e) = (Raise e, db, bucket ∪ {[file_key]})))
  /\ (id ∈ Document.id <$> documents db ->
      exists msg,
        upload Storage.S3Done
        = (Raise (IntegrityError msg), db, bucket ∪ {[file_key]}))
  /\ (id ∉ Document.id <$> documents db ->
      Responses.user_by_id db (user_id caller) = None ->
      forall commit_exn,
        request commit_exn
        = (Raise PydanticValidationError, db, bucket ∪ {[file_key]})).
Proof.
  intros file_key upload request. subst upload request. cbn beta.
  pose proof (fun reply =>
    upload_document_cases file name description control_id task_id
      timestamp unique_id id reply caller bucket db) as Hout.
  cbn zeta in Hout. fold file_key in Hout.
  pose proof (Hout Storage.S3Done) as [Hdup Hnew]. cbn beta iota in Hdup, Hnew.
  split; [|split; [|split]].
  - intros msg. exact (Hout (Storage.S3ClientError msg)).
  - intros u Hfresh Huser.
    set (d := DocumentHandlers.new_document file name description control_id
                task_id file_key id caller) in *.
    specialize (Hnew Hfresh). rewrite Huser in Hnew.
    exists (DocumentHandlers.mk_upload_response
              (Responses.mk_document_response d (Responses.brief u)) None),
      (DocumentsRouter.with_documents db (documents db ++ [d])).
    split; [exact Hnew|].
    split; [unfold DocumentHandlers.upload_document_request, get_db;
            by rewrite Hnew|].
    do 2 (split; [reflexivity|]).
    assert (Hsel : forall o,
      DocumentsRouter.select_document
        (DocumentsRouter.with_documents db (documents db ++ [d])) id o
      = if String.eqb (organization_id caller) o then [d] else []).
    { intros o. unfold DocumentsRouter.select_document.
      cbn [documents DocumentsRouter.with_documents]. rewrite filter_app.
      rewrite (scoped_select_fresh Document.id Document.organization_id)
        by done.
      rewrite filter_cons, filter_nil.
      cbn [d DocumentHandlers.new_document Document.id
           Document.organization_id].
      rewrite String.eqb_refl. cbn [andb app].
      destruct (String.eqb (organization_id caller) o); by case_decide. }
    split; [|split].
    + cbn zeta. cbn [Responses.document DocumentHandlers.ur_document].
      do 7 (split; [reflexivity|]).
      unfold DocumentsRouter.get_document.
      by rewrite Hsel, String.eqb_refl.
    + intros other Hother. unfold DocumentsRouter.get_document. rewrite Hsel.
      by rewrite (proj2 (String.eqb_neq _ _)) by done.
    + intros e. unfold DocumentHandlers.upload_document_request, get_db.
      by rewrite Hnew.
  - intros Hin. eexists. by apply Hdup.
  - intros Hfresh Huser commit_exn.
    specialize (Hnew Hfresh). rewrite Huser in Hnew.
    unfold DocumentHandlers.upload_document_request, get_db.
    by rewrite Hnew.
Qed.

(** X21.  Uploading a document and deleting it again, with the storage
    accepting both calls, leaves the table and the bucket as they were,
    when the id and the generated key were new and users holds a row for
    the principal. *)
Theorem upload_then_delete (file : DocumentHandlers.UploadFile)
    (name description control_id task_id : option string)
    (timestamp unique_id id : string) (caller : CurrentUser)
    (bucket : gset string) (db : Store) (u : User.t) :
  primary_keys_unique db ->
  id ∉ Document.id <$> documents db ->
  Responses.user_by_id db (user_id caller) = Some u ->
  StorageService.generate_file_key timestamp unique_id (organization_id caller)
    (DocumentHandlers.or_str (DocumentHandlers.filename file) "unknown")
    "documents" ∉ bucket ->
  exists resp db' bucket',
    DocumentHandlers.upload_document file name description control_id task_id
      timestamp unique_id id Storage.S3Done caller bucket db
    = (Ok resp, db', bucket')
    /\ Document.id (Responses.document (DocumentHandlers.ur_document resp))
       = id
    /\ DocumentsRouter.delete_document id caller Storage.S3Done bucket' db'
       = (Ok "Document deleted successfully", db, bucket).
Proof.
  intros Hkeys Hfresh Huser Hkey. pose proof Hkeys as (Ho & Hu & Hc & Ht & Hd).
  pose proof (upload_document_cases file name description control_id task_id
                timestamp unique_id id Storage.S3Done caller bucket db)
    as [_ Hnew].
  set (file_key := StorageService.generate_file_key _ _ _ _ _) in *.
  set (d := DocumentHandlers.new_document file name description control_id
              task_id file_key id caller) in *.
  set (db' := DocumentsRouter.with_documents db (documents db ++ [d])).
  specialize (Hnew Hfresh). rewrite Huser in Hnew.
  eexists _, db', (bucket ∪ {[file_key]}). split; [exact Hnew|].
  split; [reflexivity|].
  assert (Hkeys' : primary_keys_unique db').
  { repeat split; try done.
    cbn [db' documents DocumentsRouter.with_documents]. by apply insert_keys. }
  assert (Hin : d ∈ documents db').
  { cbn [db' documents DocumentsRouter.with_documents].
    apply elem_of_app. right. apply list_elem_of_here. }
  pose proof (delete_document_done db' caller d (bucket ∪ {[file_key]}) Hkeys'
                Hin eq_refl) as Hdel.
  change (Document.id d) with id in Hdel. rewrite Hdel.
  f_equal; [f_equal|].
  - cbn [db' documents DocumentsRouter.with_documents].
    unfold DocumentsRouter.remove_document. rewrite filter_app.
    rewrite filter_cons, filter_nil.
    rewrite decide_False by (by rewrite String.eqb_refl).
    rewrite app_nil_r, filter_all.
    + subst db'. by destruct db.
    + intros r Hr. apply String.eqb_neq. intros Hk. apply Hfresh.
      change (Document.id d) with id in Hk. rewrite <- Hk.
      by apply list_elem_of_fmap_2.
  - change (Document.file_key d) with file_key. apply set_eq. intros x.
    rewrite elem_of_difference, elem_of_union, elem_of_singleton.
    split; [tauto|]. intros Hx. split; [by left|]. by intros ->.
Qed.

Variable ilike : string -> string -> bool.
Variable created_at : Document.t -> Z.
Variable S3_BUCKET_NAME : string.
Variable generate_presigned_url :
  string -> list (string * string) -> Z -> result string.

(** X22.  get_document_download_url issues a URL only for a document of the
    caller's organization: a response carries the URL the client signed for
    the key of a document that has the requested id and belongs to the
    caller's organization, valid for 3600 seconds; for a document of another
    organization the handler raises the 404 and signs nothing. *)
Theorem download_url_scoped (document_id : string) (caller : CurrentUser)
    (db : Store) :
  let download :=
    DocumentHandlers.get_document_download_url S3_BUCKET_NAME
      generate_presigned_url document_id caller db in
  (forall resp, download = Ok resp ->
     exists d,
       d ∈ documents db /\ Document.id d = document_id
       /\ Document.organization_id d = organization_id caller
       /\ StorageService.get_presigned_download_url S3_BUCKET_NAME
            generate_presigned_url (Document.file_key d) 3600
            (Some (Document.name d))
          = Ok (DocumentHandlers.download_url resp)
       /\ DocumentHandlers.pd_expires_in resp = 3600)
  /\ (forall d, primary_keys_unique db -> d ∈ documents db ->
        Document.id d = document_id ->
        Document.organization_id d ≠ organization_id caller ->
        download = Raise (HTTPException HTTP_404_NOT_FOUND "Document not found"))
  /\ (document_id ∉ Document.id <$> documents db ->
      download = Raise (HTTPException HTTP_404_NOT_FOUND "Document not found")).
Proof.
  intros download. subst download.
  unfold DocumentHandlers.get_document_download_url.
  split; [|split].
  - intros resp.
    destruct (scalar_one_or_none _) as [[d|]|e] eqn:Hsel;
      cbn [mbind result_bind bind]; [|done..].
    unfold DocumentsRouter.select_document in Hsel.
    apply selected_row in Hsel as [HP Hin].
    apply andb_true_iff in HP as [Hid Horg].
    apply String.eqb_eq in Hid, Horg.
    destruct (StorageService.get_presigned_download_url _ _ _ _ _)
      as [url|e] eqn:Hurl; cbn [mbind result_bind bind]; [|done].
    intros [= <-]. exists d. by repeat split.
  - intros d (_ & _ & _ & _ & Hd) Hin <- Hother.
    unfold DocumentsRouter.select_document.
    by rewrite (scoped_select_other_org Document.id Document.organization_id)
      by done.
  - intros Hfresh. unfold DocumentsRouter.select_document.
    by rewrite (scoped_select_fresh Document.id Document.organization_id)
      by done.
Qed.






End document_handlers.

(** ** The listing of the overdue tasks *)

Section overdue_listing.

(** X24.  With overdue_only set, list_tasks never lists a task: the filter
    selects tasks that have a due date, and the loop over the selected tasks
    raises TypeError at the first of them.  The call returns only when the
    filters select nothing, and the response is then empty with all counters
    at zero. *)
Theorem overdue_only_listing (ilike : string -> string -> bool) (clock : Z)
    (status : option TaskStatus.t) (priority : option TaskPriority.t)
    (control_id assignee_id : option string) (search : option string)
    (caller : CurrentUser) (db : Store) :
  let selected :=
    filter (fun t => TasksRouter.where_clause ilike (now_utc clock)
                       (organization_id caller) status priority control_id
                       assignee_id true search t = true) (tasks db) in
  let listing :=
    TasksRouter.list_tasks ilike clock status priority control_id assignee_id
      true search caller db in
  (forall t, t ∈ selected ->
     Task.organization_id t = organization_id caller
     /\ Task.status t ≠ TaskStatus.DONE
     /\ exists due, Task.due_date t = Some due
                    /\ local_micros due < utc_micros (now_utc clock))
  /\ (selected ≠ [] ->
      listing
      = Raise (TypeError "can't compare offset-naive and offset-aware datetimes"))
  /\ (selected = [] -> listing = Ok (TasksRouter.mk_response [] 0 ∅ ∅ 0))
  /\ (forall resp, listing = Ok resp -> TasksRouter.resp_tasks resp = []).
Proof.
  intros selected listing.
  assert (Hsel : forall t, t ∈ selected ->
            Task.organization_id t = organization_id caller
            /\ Task.status t ≠ TaskStatus.DONE
            /\ exists due, Task.due_date t = Some due
                           /\ local_micros due < utc_micros (now_utc clock)).
  { intros t Hin. unfold selected in Hin.
    apply list_elem_of_filter in Hin as [Hclause _].
    unfold TasksRouter.where_clause in Hclause.
    rewrite !andb_true_iff in Hclause.
    destruct Hclause as [[[[[[Horg _] _] _] _] [Hlt Hstatus]] _].
    apply String.eqb_eq in Horg. apply bool_decide_eq_true in Hstatus.
    split; [done|]. split; [done|]. unfold sql_lt in Hlt.
    destruct (Task.due_date t) as [due|]; [|done].
    exists due. split; [done|]. rewrite <- local_micros_now.
    by apply Z.ltb_lt. }
  assert (Hraise : selected ≠ [] ->
            listing
            = Raise (TypeError
                       "can't compare offset-naive and offset-aware datetimes")).
  { intros Hne. destruct selected as [|t rest] eqn:Hrows; [done|].
    assert (Hin : t ∈ selected) by (rewrite Hrows; left).
    destruct (Hsel t) as (_ & _ & due & Hdue & _); [by rewrite <- Hrows|].
    apply (list_tasks_dated ilike clock status priority control_id assignee_id
             true search caller db t); [exact Hin|congruence]. }
  assert (Hempty : selected = [] ->
            listing = Ok (TasksRouter.mk_response [] 0 ∅ ∅ 0)).
  { intros Hnil. subst listing. unfold TasksRouter.list_tasks.
    fold selected. by rewrite Hnil. }
  split; [exact Hsel|]. split; [exact Hraise|]. split; [exact Hempty|].
  intros resp Hresp. destruct selected as [|t rest] eqn:Hrows.
  - rewrite Hempty in Hresp by done. by injection Hresp as <-.
  - rewrite Hraise in Hresp by done. discriminate.
Qed.

End overdue_listing.

(** ** The properties above on the sample store *)

(* An id that no row of a table given by its rows has. *)
Ltac fresh_key :=
  let Hin := fresh "Hin" in
  cbn; intros Hin;
  repeat (apply elem_of_cons in Hin as [Hin|Hin]; [discriminate Hin|]);
  by apply elem_of_nil in Hin.

Lemma upcoming_countdown_bound_witness :
  valid_time Samples.due_today_naive
  /\ exists diff,
       diff <= 7
       /\ (Some "D-Day", false) = dday_of_diff diff.
Proof.
  assert (Hvalid : valid_time Samples.due_today_naive)
    by (unfold valid_time; cbn; rewrite US_PER_SECOND_eq; lia).
  split; [exact Hvalid|].
  destruct (upcoming_countdown_bound 7 Samples.clock (fun _ => Samples.clock)
              Samples.as_acme Samples.store
              [ TaskHandlers.mk_with_dday
                  (Samples.task "t-1" "org-acme" TaskStatus.TODO
                     (Some Samples.due_today_naive))
                  (Some "D-Day") false ]
              0
              (TaskHandlers.mk_with_dday
                 (Samples.task "t-1" "org-acme" TaskStatus.TODO
                    (Some Samples.due_today_naive))
                 (Some "D-Day") false)
              Samples.due_today_naive)
    as (diff & _ & Hle & Hlabel).
  - vm_compute. reflexivity.
  - reflexivity.
  - reflexivity.
  - left. reflexivity.
  - exact Hvalid.
  - lia.
  - exists diff. split; [exact Hle|exact Hlabel].
Defined.

Lemma dday_overdue_is_past_witness :
  valid_time Fixtures.due_yesterday
  /\ calculate_dday Samples.clock (Some Fixtures.due_yesterday)
     = Ok (Some "D+1", true)
  /\ utc_micros Fixtures.due_yesterday < utc_micros (now_utc Samples.clock).
Proof.
  assert (Hvalid : valid_time Fixtures.due_yesterday)
    by (unfold valid_time; cbn; rewrite US_PER_SECOND_eq; lia).
  assert (Hlabel : calculate_dday Samples.clock (Some Fixtures.due_yesterday)
                   = Ok (Some "D+1", true)) by (vm_compute; reflexivity).
  split; [exact Hvalid|]. split; [exact Hlabel|].
  destruct (dday_overdue_is_past Samples.clock Fixtures.due_yesterday
              (Some "D+1") true (or_intror eq_refl) Hvalid Hlabel)
    as (_ & Hpast & _).
  apply Hpast. reflexivity.
Defined.

Lemma delete_task_then_get_witness :
  primary_keys_unique Samples.store
  /\ exists db',
       TasksRouter.delete_task "t-1" Samples.as_acme Samples.store
       = (Ok "Task deleted successfully", db')
       /\ TasksRouter.get_task "t-1" Samples.as_acme db'
          = (Raise (HTTPException HTTP_404_NOT_FOUND "Task not found"), db').
Proof.
  split; [exact sample_store_keys|].
  destruct (delete_task_then_get Samples.store Samples.as_acme
              (Samples.task "t-1" "org-acme" TaskStatus.TODO
                 (Some Samples.due_today_naive))
              sample_store_keys sample_task_1 eq_refl)
    as (db' & Hdelete & Hgone & _).
  exists db'. split; [exact Hdelete|]. exact (proj1 (Hgone Samples.as_acme)).
Defined.

Lemma update_task_then_get_witness :
  primary_keys_unique Samples.store
  /\ TaskUpdate.nulls_required Samples.mark_done = false
  /\ exists db',
       TasksRouter.update_task "t-1" Samples.mark_done Samples.as_acme
         Samples.store
       = (Ok (Samples.task "t-1" "org-acme" TaskStatus.DONE
                (Some Samples.due_today_naive)), db')
       /\ TasksRouter.get_task "t-1" Samples.as_acme db'
          = (Ok (Samples.task "t-1" "org-acme" TaskStatus.DONE
                   (Some Samples.due_today_naive)), db')
       /\ TasksRouter.update_task "t-1" Samples.mark_done Samples.as_acme db'
          = (Ok (Samples.task "t-1" "org-acme" TaskStatus.DONE
                   (Some Samples.due_today_naive)), db').
Proof.
  split; [exact sample_store_keys|]. split; [reflexivity|].
  destruct (update_task_then_get Samples.store Samples.as_acme
              (Samples.task "t-1" "org-acme" TaskStatus.TODO
                 (Some Samples.due_today_naive))
              Samples.mark_done sample_store_keys sample_task_1 eq_refl eq_refl)
    as (db' & Hupdate & Hget & _ & _ & _ & Hagain).
  exists db'. split; [exact Hupdate|]. split; [exact Hget|exact Hagain].
Defined.

Lemma reads_depend_on_own_rows_witness :
  Tenancy.tenant_view "org-acme" Samples.store
  = Tenancy.tenant_view "org-acme" Fixtures.store_without_beta_tasks
  /\ TasksRouter.list_tasks (fun _ _ => true) Samples.clock
       (Some TaskStatus.DONE) None None None false None Samples.as_acme
       Samples.store
     = TasksRouter.list_tasks (fun _ _ => true) Samples.clock
         (Some TaskStatus.DONE) None None None false None Samples.as_acme
         Fixtures.store_without_beta_tasks
  /\ OrganizationsRouter.get_organization_stats MySQL Samples.clock
       Samples.as_acme Samples.store
     = OrganizationsRouter.get_organization_stats MySQL Samples.clock
         Samples.as_acme Fixtures.store_without_beta_tasks
  /\ (forall t,
        fst (TasksRouter.get_task "t-1" Samples.as_acme Samples.store) = Ok t ->
        Responses.task_response Samples.store t
        = Responses.task_response Fixtures.store_without_beta_tasks t).
Proof.
  assert (Hview : Tenancy.tenant_view (organization_id Samples.as_acme)
                    Samples.store
                  = Tenancy.tenant_view (organization_id Samples.as_acme)
                      Fixtures.store_without_beta_tasks) by reflexivity.
  split; [exact Hview|].
  destruct (reads_depend_on_own_rows (fun _ _ => true) (fun _ => 0)
              "iso-compliance-docs" (fun _ _ _ => Ok "https://example.com")
              Samples.as_acme Samples.store Fixtures.store_without_beta_tasks
              Hview)
    as (Hget & Hlist & _ & _ & _ & _ & _ & _ & _ & _ & _ & Hstats).
  - intros t _ _. reflexivity.
  - intros d _ _. reflexivity.
  - split; [apply Hlist|]. split; [apply Hstats|]. apply Hget.
Defined.

(* The assignee of a task is read across organizations: the two stores hold
   the same rows for Acme, and Acme's lookup of its task t-2 answers with the
   name Beta's admin has in each. *)
Example assignee_read_across_tenants :
  Tenancy.tenant_view "org-acme" Fixtures.store_assigned_across
  = Tenancy.tenant_view "org-acme" Fixtures.store_assigned_across_renamed
  /\ exists t,
       fst (TasksRouter.get_task "t-2" Samples.as_acme
              Fixtures.store_assigned_across) = Ok t
       /\ fst (TasksRouter.get_task "t-2" Samples.as_acme
                 Fixtures.store_assigned_across_renamed) = Ok t
       /\ Responses.task_assignee
            (Responses.task_response Fixtures.store_assigned_across t)
          = Some (Responses.mk_brief "u-beta" (Some "B") "b@beta.com")
       /\ Responses.task_assignee
            (Responses.task_response Fixtures.store_assigned_across_renamed t)
          = Some (Responses.mk_brief "u-beta" (Some "Bea") "b@beta.com").
Proof. vm_compute. split; [reflexivity|]. eexists. by repeat split. Qed.

Lemma beta_evidence_keys : primary_keys_unique Fixtures.store_with_beta_evidence.
Proof.
  unfold primary_keys_unique.
  repeat split; vm_compute; apply NoDup_ListNoDup; repeat constructor; cbn;
    intuition discriminate.
Defined.

Lemma writes_stay_in_tenant_witness :
  primary_keys_unique Fixtures.store_with_beta_evidence
  /\ "org-beta" ≠ organization_id Samples.as_acme
  /\ Tenancy.tenant_view "org-beta"
       (snd (TasksRouter.update_task "t-1" Samples.mark_done Samples.as_acme
               Fixtures.store_with_beta_evidence))
     = Tenancy.tenant_view "org-beta" Fixtures.store_with_beta_evidence
  /\ Tenancy.tenant_view "org-beta"
       (snd (TasksRouter.delete_task "t-2" Samples.as_acme
               Fixtures.store_with_beta_evidence))
     = Tenancy.tenant_view "org-beta" Fixtures.store_with_beta_evidence
  /\ (fun d => (Document.id d, Document.task_id d))
     <$> documents (Tenancy.tenant_view "org-beta"
                      Fixtures.store_with_beta_evidence)
     = [("d-2", None); ("d-3", Some "t-1")]
  /\ (fun d => (Document.id d, Document.task_id d))
     <$> documents
           (Tenancy.tenant_view "org-beta"
              (snd (TasksRouter.delete_task "t-1" Samples.as_acme
                      Fixtures.store_with_beta_evidence)))
     = [("d-2", None); ("d-3", None)].
Proof.
  assert (Hother : "org-beta" ≠ organization_id Samples.as_acme)
    by discriminate.
  split; [exact beta_evidence_keys|]. split; [exact Hother|].
  destruct (writes_stay_in_tenant Samples.as_acme
              Fixtures.store_with_beta_evidence "org-beta"
              beta_evidence_keys Hother)
    as (_ & Hupdate & Hkept & Hdelete & _).
  split; [apply Hupdate|]. split; [|split; [by vm_compute|]].
  - apply Hkept. intros d Hin Horg Href. vm_compute in Hin.
    repeat (apply elem_of_cons in Hin as [->|Hin]; [discriminate|]).
    by apply elem_of_nil in Hin.
  - assert (Hin : Samples.task "t-1" "org-acme" TaskStatus.TODO
                    (Some Samples.due_today_naive)
                  ∈ tasks Fixtures.store_with_beta_evidence)
      by (vm_compute; apply list_elem_of_here).
    pose proof (Hdelete _ Hin eq_refl) as Heq.
    change (Task.id _) with "t-1" in Heq. rewrite Heq. by vm_compute.
Defined.

Lemma writes_keep_keys_unique_witness :
  primary_keys_unique Samples.store /\ emails_unique Samples.store
  /\ primary_keys_unique
       (snd (TaskHandlers.create_task Fixtures.rotate_keys "t-4"
               Samples.as_acme Samples.store))
  /\ emails_unique
       (snd (UsersRouter.update_user "u-acme" Fixtures.promote Samples.as_acme
               Samples.store)).
Proof.
  split; [exact sample_store_keys|]. split; [exact sample_emails_unique|].
  destruct (writes_keep_keys_unique Samples.as_acme Samples.store
              sample_store_keys sample_emails_unique)
    as (Hcreate & _ & _ & _ & _ & _ & _ & Huser & _).
  split.
  - exact (proj1 (Hcreate Fixtures.rotate_keys "t-4")).
  - exact (proj2 (Huser "u-acme" Fixtures.promote)).
Defined.

Lemma update_user_admin_only_witness :
  primary_keys_unique Samples.store
  /\ role Fixtures.acme_member ≠ "admin"
  /\ UsersRouter.update_user "u-acme" Fixtures.promote Fixtures.acme_member
       Samples.store
     = (Raise (HTTPException HTTP_403_FORBIDDEN "Only admins can update users"),
        Samples.store)
  /\ UsersRouter.update_user "u-beta" Fixtures.promote Samples.as_acme
       Samples.store
     = (Raise (HTTPException HTTP_404_NOT_FOUND "User not found"),
        Samples.store).
Proof.
  assert (Hrole : role Fixtures.acme_member ≠ "admin") by discriminate.
  split; [exact sample_store_keys|]. split; [exact Hrole|]. split.
  - destruct (update_user_admin_only "u-acme" Fixtures.promote
                Fixtures.acme_member Samples.store sample_store_keys)
      as (Hforbidden & _).
    exact (Hforbidden Hrole).
  - destruct (update_user_admin_only "u-beta" Fixtures.promote Samples.as_acme
                Samples.store sample_store_keys)
      as (_ & Hnot_found & _).
    apply (Hnot_found Samples.beta_admin).
    + in_table.
    + reflexivity.
    + discriminate.
    + reflexivity.
Defined.

Lemma sample_acme_admin : Samples.acme_admin ∈ users Samples.store.
Proof. in_table. Defined.


Lemma empty_patch_changes_nothing_witness :
  primary_keys_unique Samples.store
  /\ TasksRouter.update_task "t-1"
       (TaskUpdate.mk Unset Unset Unset Unset Unset Unset Unset Unset)
       Samples.as_acme Samples.store
     = (Ok (Samples.task "t-1" "org-acme" TaskStatus.TODO
              (Some Samples.due_today_naive)), Samples.store).
Proof.
  split; [exact sample_store_keys|].
  destruct (empty_patch_changes_nothing Samples.as_acme Samples.store
              sample_store_keys) as (Htask & _).
  exact (Htask _ sample_task_1 eq_refl).
Defined.

Lemma login_outcome_witness :
  emails_unique Samples.store
  /\ AuthHandlers.login Fixtures.verify (Samples.token "access")
       (Samples.token "refresh")
       (AuthHandlers.mk_login "a@acme.com" "acme") Samples.store
     = Ok (AuthRouter.mk_tokens "access.u-acme" "refresh.u-acme")
  /\ AuthHandlers.login Fixtures.verify (Samples.token "access")
       (Samples.token "refresh")
       (AuthHandlers.mk_login "a@acme.com" "guess") Samples.store
     = Raise (HTTPException HTTP_401_UNAUTHORIZED "Incorrect email or password")
  /\ AuthHandlers.login Fixtures.verify (Samples.token "access")
       (Samples.token "refresh")
       (AuthHandlers.mk_login "nobody@acme.com" "acme") Samples.store
     = Raise (HTTPException HTTP_401_UNAUTHORIZED "Incorrect email or password").
Proof.
  split; [exact sample_emails_unique|]. split; [|split].
  - destruct (login_outcome Fixtures.verify (Samples.token "access")
                (Samples.token "refresh")
                (AuthHandlers.mk_login "a@acme.com" "acme") Samples.store
                sample_emails_unique) as (Hok & _).
    exact (Hok Samples.acme_admin sample_acme_admin eq_refl eq_refl).
  - destruct (login_outcome Fixtures.verify (Samples.token "access")
                (Samples.token "refresh")
                (AuthHandlers.mk_login "a@acme.com" "guess") Samples.store
                sample_emails_unique) as (_ & Hfail & _).
    apply Hfail. intros u Hin Hemail.
    each_row Hin; [reflexivity|discriminate].
  - destruct (login_outcome Fixtures.verify (Samples.token "access")
                (Samples.token "refresh")
                (AuthHandlers.mk_login "nobody@acme.com" "acme") Samples.store
                sample_emails_unique) as (_ & Hfail & _).
    apply Hfail. intros u Hin Hemail.
    each_row Hin; discriminate.
Defined.

Lemma refresh_token_outcome_witness :
  primary_keys_unique Samples.store
  /\ AuthHandlers.refresh_token (Samples.token "access")
       (Samples.token "refresh") Fixtures.decode "refresh.u-acme" Samples.store
     = Ok (AuthRouter.mk_tokens "access.u-acme" "refresh.u-acme").
Proof.
  split; [exact sample_store_keys|].
  pose proof (refresh_token_outcome (Samples.token "access")
                (Samples.token "refresh") Fixtures.decode "refresh.u-acme"
                Samples.store sample_store_keys) as Hrefresh.
  cbn in Hrefresh. destruct Hrefresh as [_ Hrefresh].
  destruct (Hrefresh eq_refl) as [Hok _].
  exact (Hok Samples.acme_admin sample_acme_admin eq_refl).
Defined.

Lemma file_keys_of_tenants_differ_witness :
  StorageService.contains StorageService.slash "org-acme" = false
  /\ StorageService.contains StorageService.slash "org-beta" = false
  /\ StorageService.generate_file_key "20240101_000000" "ab12cd34" "org-acme"
       "policy.pdf" "documents"
     ≠ StorageService.generate_file_key "20240101_000000" "ab12cd34" "org-beta"
         "policy.pdf" "documents".
Proof.
  split; [reflexivity|]. split; [reflexivity|].
  apply file_keys_of_tenants_differ; [reflexivity|reflexivity|discriminate].
Defined.

Lemma upload_then_delete_witness :
  primary_keys_unique Samples.store
  /\ Responses.user_by_id Samples.store (user_id Samples.as_acme)
     = Some Samples.acme_admin
  /\ exists resp db' bucket',
       DocumentHandlers.upload_document Fixtures.report None None None None
         "20240102_090000" "0f1e2d3c" "d-3" Storage.S3Done Samples.as_acme ∅
         Samples.store
       = (Ok resp, db', bucket')
       /\ Document.id (Responses.document (DocumentHandlers.ur_document resp))
          = "d-3"
       /\ DocumentsRouter.delete_document "d-3" Samples.as_acme Storage.S3Done
            bucket' db'
          = (Ok "Document deleted successfully", Samples.store, ∅).
Proof.
  split; [exact sample_store_keys|]. split; [reflexivity|].
  destruct (upload_then_delete Fixtures.report None None None None
              "20240102_090000" "0f1e2d3c" "d-3" Samples.as_acme ∅
              Samples.store Samples.acme_admin sample_store_keys)
    as (resp & db' & bucket' & Hupload & Hid & Hdelete).
  - fresh_key.
  - reflexivity.
  - apply not_elem_of_empty.
  - exists resp, db', bucket'. split; [exact Hupload|]. split; [exact Hid|].
    exact Hdelete.
Defined.

(* The upload of a principal for whom users holds no row: the object is
   stored, the response cannot be built, the request is rolled back. *)
Example upload_without_users_row :
  Responses.user_by_id Samples.store (user_id Fixtures.acme_member) = None
  /\ DocumentHandlers.upload_document_request Fixtures.report None None None
       None "20240102_090000" "0f1e2d3c" "d-3" Storage.S3Done None
       Fixtures.acme_member ∅ Samples.store
     = (Raise PydanticValidationError, Samples.store,
        ∅ ∪ {["org-acme/documents/20240102_090000_0f1e2d3c.pdf"]}).
Proof.
  split; [reflexivity|].
  pose proof (upload_document_cases Fixtures.report None None None None
                "20240102_090000" "0f1e2d3c" "d-3" Storage.S3Done
                Fixtures.acme_member ∅ Samples.store) as [_ Hnew].
  unfold DocumentHandlers.upload_document_request, get_db.
  rewrite Hnew by fresh_key. reflexivity.
Qed.

(** ** Lookups in a store with unique ids *)

Section lookups.

(* At most one row of a table with a unique key has a given key. *)
Lemma at_most_one {A} (key : A -> string) (P : A -> Prop)
    `{!forall x, Decision (P x)} (l : list A) k :
  NoDup (key <$> l) -> (forall x, P x -> key x = k) ->
  filter P l = [] \/ exists x, filter P l = [x] /\ x ∈ l /\ P x.
Proof.
  intros Hnd HP.
  assert (Hsub : NoDup (key <$> filter P l)).
  { eapply sublist_NoDup; [exact Hnd|]. apply fmap_sublist, sublist_filter. }
  assert (Hall : forall x, x ∈ filter P l -> P x /\ x ∈ l)
    by (intros x; apply list_elem_of_filter).
  destruct (filter P l) as [|a [|b rest]]; [by left| |].
  - right. exists a. split; [done|]. split; apply Hall; left.
  - exfalso. cbn in Hsub. apply NoDup_cons in Hsub as [Hnotin _].
    apply Hnotin. rewrite (HP a), <- (HP b).
    + left.
    + apply Hall. right. left.
    + apply Hall. left.
Qed.

(** X25.  In a store with unique ids a lookup never fails for another
    reason than a missing row: get_task, get_control, get_document,
    get_current_user_info and get_current_organization each return a row
    that has the requested id (and, for the first three, belongs to the
    caller's organization), or raise their 404; get_current_user_info looks
    the user up by the id of the principal alone. *)
Theorem lookups_return_or_404 (caller : CurrentUser) (db : Store) :
  primary_keys_unique db ->
  (forall id,
     (exists t, t ∈ tasks db /\ Task.id t = id
                /\ Task.organization_id t = organization_id caller
                /\ TasksRouter.get_task id caller db = (Ok t, db))
     \/ TasksRouter.get_task id caller db
        = (Raise (HTTPException HTTP_404_NOT_FOUND "Task not found"), db))
  /\ (forall id,
        (exists c, c ∈ organization_controls db /\ OrganizationControl.id c = id
                   /\ OrganizationControl.organization_id c
                      = organization_id caller
                   /\ ControlsRouter.get_control id caller db = (Ok c, db))
        \/ ControlsRouter.get_control id caller db
           = (Raise (HTTPException HTTP_404_NOT_FOUND "Control not found"), db))
  /\ (forall id,
        (exists d, d ∈ documents db /\ Document.id d = id
                   /\ Document.organization_id d = organization_id caller
                   /\ DocumentsRouter.get_document id caller db = (Ok d, db))
        \/ DocumentsRouter.get_document id caller db
           = (Raise (HTTPException HTTP_404_NOT_FOUND "Document not found"),
              db))
  /\ ((exists u, u ∈ users db /\ User.id u = user_id caller
                 /\ UsersRouter.get_current_user_info caller db = Ok u)
      \/ UsersRouter.get_current_user_info caller db
         = Raise (HTTPException HTTP_404_NOT_FOUND "User not found"))
  /\ ((exists o, o ∈ organizations db
                 /\ Organization.id o = organization_id caller
                 /\ OrganizationHandlers.get_current_organization caller db
                    = Ok o)
      \/ OrganizationHandlers.get_current_organization caller db
         = Raise (HTTPException HTTP_404_NOT_FOUND "Organization not found")).
Proof.
  intros (Ho & Hu & Hc & Ht & Hd).
  split; [|split; [|split; [|split]]].
  - intros id. unfold TasksRouter.get_task, TasksRouter.select_task.
    destruct (at_most_one Task.id
                (fun t => String.eqb (Task.id t) id
                          && String.eqb (Task.organization_id t)
                               (organization_id caller) = true)
                (tasks db) id Ht) as [->|(t & -> & Hin & HP)].
    + intros t HP. apply andb_true_iff in HP as [HP _].
      by apply String.eqb_eq.
    + by right.
    + left. exists t. apply andb_true_iff in HP as [Hid Horg].
      apply String.eqb_eq in Hid, Horg. by repeat split.
  - intros id. unfold ControlsRouter.get_control, ControlsRouter.select_control.
    destruct (at_most_one OrganizationControl.id
                (fun c => String.eqb (OrganizationControl.id c) id
                          && String.eqb (OrganizationControl.organization_id c)
                               (organization_id caller) = true)
                (organization_controls db) id Hc) as [->|(c & -> & Hin & HP)].
    + intros c HP. apply andb_true_iff in HP as [HP _].
      by apply String.eqb_eq.
    + by right.
    + left. exists c. apply andb_true_iff in HP as [Hid Horg].
      apply String.eqb_eq in Hid, Horg. by repeat split.
  - intros id.
    unfold DocumentsRouter.get_document, DocumentsRouter.select_document.
    destruct (at_most_one Document.id
                (fun d => String.eqb (Document.id d) id
                          && String.eqb (Document.organization_id d)
                               (organization_id caller) = true)
                (documents db) id Hd) as [->|(d & -> & Hin & HP)].
    + intros d HP. apply andb_true_iff in HP as [HP _].
      by apply String.eqb_eq.
    + by right.
    + left. exists d. apply andb_true_iff in HP as [Hid Horg].
      apply String.eqb_eq in Hid, Horg. by repeat split.
  - unfold UsersRouter.get_current_user_info.
    destruct (at_most_one User.id
                (fun u => String.eqb (User.id u) (user_id caller) = true)
                (users db) (user_id caller) Hu) as [->|(u & -> & Hin & HP)].
    + intros u HP. by apply String.eqb_eq.
    + by right.
    + left. exists u. apply String.eqb_eq in HP. by repeat split.
  - unfold OrganizationHandlers.get_current_organization,
      OrganizationHandlers.select_organization.
    destruct (at_most_one Organization.id
                (fun o => String.eqb (Organization.id o)
                            (organization_id caller) = true)
                (organizations db) (organization_id caller) Ho)
      as [->|(o & -> & Hin & HP)].
    + intros o HP. by apply String.eqb_eq.
    + by right.
    + left. exists o. apply String.eqb_eq in HP. by repeat split.
Qed.

Variable S3_BUCKET_NAME : string.
Variable generate_presigned_url :
  string -> list (string * string) -> Z -> result string.

(** X26.  get_presigned_upload_url hands out a key under the caller's
    organization: the response carries the key generate_file_key makes for
    the caller's organization in the folder "documents" and the URL the
    client signed for a put_object of that key and content type, valid for
    3600 seconds; an error of the client is raised as it is.  Callers of two
    organizations whose ids differ and contain no "/" never get the same
    key. *)
Theorem presigned_upload_key_scoped (filename content_type timestamp
    unique_id : string) (caller : CurrentUser) :
  let handler :=
    DocumentHandlers.get_presigned_upload_url S3_BUCKET_NAME
      generate_presigned_url in
  let file_key :=
    StorageService.generate_file_key timestamp unique_id
      (organization_id caller) filename "documents" in
  let signed :=
    generate_presigned_url "put_object"
      [("Bucket", S3_BUCKET_NAME); ("Key", file_key);
       ("ContentType", content_type)] 3600 in
  (forall url, signed = Ok url ->
     handler filename content_type timestamp unique_id caller
     = Ok (DocumentHandlers.mk_presigned_upload url file_key 3600))
  /\ (forall e, signed = Raise e ->
        handler filename content_type timestamp unique_id caller = Raise e)
  /\ (forall filename' content_type' timestamp' unique_id' other resp resp',
        StorageService.contains StorageService.slash (organization_id caller)
        = false ->
        StorageService.contains StorageService.slash (organization_id other)
        = false ->
        organization_id caller ≠ organization_id other ->
        handler filename content_type timestamp unique_id caller = Ok resp ->
        handler filename' content_type' timestamp' unique_id' other
        = Ok resp' ->
        DocumentHandlers.pu_file_key resp ≠ DocumentHandlers.pu_file_key resp').
Proof.
  intros handler file_key signed. subst handler file_key signed. cbn beta.
  unfold DocumentHandlers.get_presigned_upload_url,
    StorageService.get_presigned_upload_url.
  split; [|split].
  - by intros url ->.
  - by intros e ->.
  - intros filename' content_type' timestamp' unique_id' other resp resp'
      Hslash Hslash' Hne.
    destruct (generate_presigned_url _ _ _) as [url|e];
      cbn [mbind result_bind bind]; [|done].
    intros [= <-].
    destruct (generate_presigned_url _ _ _) as [url'|e];
      cbn [mbind result_bind bind]; [|done].
    intros [= <-]. cbn [DocumentHandlers.pu_file_key].
    unfold StorageService.generate_file_key. intros Heq. apply Hne.
    by eapply (prefix_until_slash (organization_id caller)
                 (organization_id other)).
Qed.

End lookups.

(** ** The JSON in the answer of the model *)

Section json_extraction.

Lemma find_none c s :
  StorageService.contains c s = false -> GeminiService.find c s = -1.
Proof.
  induction s as [|d rest IH]; cbn [StorageService.contains GeminiService.find];
    [done|].
  intros [Hd Hrest]%orb_false_iff. by rewrite Hd, IH.
Qed.

Lemma rfind_none c s :
  StorageService.contains c s = false -> GeminiService.rfind c s = -1.
Proof.
  induction s as [|d rest IH];
    cbn [StorageService.contains GeminiService.rfind]; [done|].
  intros [Hd Hrest]%orb_false_iff. by rewrite Hd, IH.
Qed.

Lemma rfind_bound c s :
  GeminiService.rfind c s < Z.of_nat (String.length s).
Proof.
  induction s as [|d rest IH]; cbn [GeminiService.rfind String.length]; [lia|].
  destruct (Z.eqb_spec (GeminiService.rfind c rest) (-1));
    [destruct (Ascii.eqb d c)|]; lia.
Qed.

(* The first occurrence of [c] in a text whose part before it has none. *)
Lemma find_first c before rest :
  StorageService.contains c before = false ->
  GeminiService.find c (before +:+ String c rest)
  = Z.of_nat (String.length before).
Proof.
  induction before as [|d before IH]; cbn [StorageService.contains].
  - intros _. change ("" +:+ ?s) with s. cbn [GeminiService.find String.length].
    by rewrite Ascii.eqb_refl.
  - intros [Hd Hrest]%orb_false_iff. rewrite append_cons.
    cbn [GeminiService.find String.length]. rewrite Hd, IH by done.
    destruct (Z.eqb_spec (Z.of_nat (String.length before)) (-1)); lia.
Qed.

(* The last occurrence of [c] in a text whose part after it has none. *)
Lemma rfind_last c before rest :
  StorageService.contains c rest = false ->
  GeminiService.rfind c (before +:+ String c rest)
  = Z.of_nat (String.length before).
Proof.
  intros Hrest. induction before as [|d before IH].
  - change ("" +:+ ?s) with s. cbn [GeminiService.rfind String.length].
    by rewrite (rfind_none c rest), Ascii.eqb_refl.
  - rewrite append_cons. cbn [GeminiService.rfind String.length]. rewrite IH.
    destruct (Z.eqb_spec (Z.of_nat (String.length before)) (-1)); lia.
Qed.

Lemma rfind_app_none c a b :
  StorageService.contains c b = false ->
  GeminiService.rfind c (a +:+ b) = GeminiService.rfind c a.
Proof.
  intros Hb. induction a as [|d a IH].
  - change ("" +:+ ?s) with s. by rewrite rfind_none.
  - rewrite append_cons. cbn [GeminiService.rfind]. by rewrite IH.
Qed.

Lemma length_append (a b : string) :
  String.length (a +:+ b) = (String.length a + String.length b)%nat.
Proof.
  induction a as [|d a IH]; [done|]. rewrite append_cons.
  cbn [String.length]. by rewrite IH.
Qed.

Lemma substring_from (a b : string) n :
  String.substring (String.length a) n (a +:+ b) = String.substring 0 n b.
Proof. induction a as [|d a IH]; [done|]. by rewrite append_cons. Qed.

Lemma substring_prefix (x y : string) :
  String.substring 0 (String.length x) (x +:+ y) = x.
Proof.
  induction x as [|d x IH]; [by destruct y|]. rewrite append_cons.
  cbn [String.length String.substring]. by rewrite IH.
Qed.

(* What parse_json gives to json.loads. *)
Lemma parse_json_found {J} (json_loads : string -> option J) opening closing
    before middle after :
  StorageService.contains opening before = false ->
  StorageService.contains closing after = false ->
  GeminiService.parse_json J json_loads opening closing
    (before +:+ String opening (middle +:+ String closing after))
  = json_loads (String opening (middle +:+ String closing "")).
Proof.
  intros Hbefore Hafter. unfold GeminiService.parse_json.
  rewrite find_first by done.
  replace (before +:+ String opening (middle +:+ String closing after))
    with ((before +:+ String opening middle) +:+ String closing after)
    by (by rewrite append_assoc, append_cons).
  rewrite rfind_last by done. rewrite length_append. cbn [String.length].
  destruct (Z.eqb_spec (Z.of_nat (String.length before)) (-1)) as [|_]; [lia|].
  destruct (Z.gtb_spec
              (Z.of_nat (String.length before + S (String.length middle)) + 1)
              (Z.of_nat (String.length before))) as [_|]; [|lia].
  cbn [negb andb]. f_equal. unfold GeminiService.slice.
  rewrite Nat2Z.id.
  replace (Z.to_nat
             (Z.of_nat (String.length before + S (String.length middle)) + 1
              - Z.of_nat (String.length before)))
    with (String.length (String opening (middle +:+ String closing "")))
    by (cbn [String.length]; rewrite length_append; cbn [String.length]; lia).
  rewrite append_assoc, append_cons, substring_from.
  replace (String opening (middle +:+ String closing after))
    with (String opening (middle +:+ String closing "") +:+ after)
    by (by rewrite append_cons, append_assoc, append_cons).
  apply substring_prefix.
Qed.

Lemma parse_json_no_opening {J} (json_loads : string -> option J) opening
    closing response :
  StorageService.contains opening response = false ->
  GeminiService.parse_json J json_loads opening closing response = None.
Proof.
  intros Hno. unfold GeminiService.parse_json. by rewrite find_none.
Qed.

Lemma parse_json_no_closing {J} (json_loads : string -> option J) opening
    closing before after :
  opening ≠ closing ->
  StorageService.contains opening before = false ->
  StorageService.contains closing after = false ->
  GeminiService.parse_json J json_loads opening closing
    (before +:+ String opening after) = None.
Proof.
  intros Hne Hbefore Hafter. unfold GeminiService.parse_json.
  rewrite find_first by done.
  replace (before +:+ String opening after)
    with (before +:+ (String opening "" +:+ after)) by done.
  rewrite <- append_assoc, rfind_app_none by done.
  rewrite rfind_app_none.
  2:{ cbn [StorageService.contains]. rewrite orb_false_r.
      by apply Ascii.eqb_neq. }
  pose proof (rfind_bound closing before).
  destruct (Z.gtb_spec (GeminiService.rfind closing before + 1)
              (Z.of_nat (String.length before))); [lia|].
  by rewrite andb_false_r.
Qed.

Lemma append_not_empty (a : string) c (b : string) :
  String.eqb (a +:+ String c b) "" = false.
Proof. by destruct a. Qed.

(** X27.  From an answer of the model, analyze_document gives json.loads
    the text from the first "{" to the last "}", both included, and returns
    what it parses to; suggest_tasks does the same with "[" and "]".  Both
    return None without parsing when there is no answer, when the answer is
    empty, when it has no opening bracket, and when no closing bracket comes
    after the first opening one. *)
Theorem model_answer_json (J : Type) (json_loads : string -> option J) :
  let analyze := GeminiService.analyze_document J json_loads in
  let suggest := GeminiService.suggest_tasks J json_loads in
  (forall before middle after,
     StorageService.contains GeminiService.left_brace before = false ->
     StorageService.contains GeminiService.right_brace after = false ->
     analyze (Some (before +:+ String GeminiService.left_brace
                      (middle +:+ String GeminiService.right_brace after)))
     = json_loads (String GeminiService.left_brace
                     (middle +:+ String GeminiService.right_brace "")))
  /\ (forall before middle after,
        StorageService.contains GeminiService.left_bracket before = false ->
        StorageService.contains GeminiService.right_bracket after = false ->
        suggest (Some (before +:+ String GeminiService.left_bracket
                         (middle +:+ String GeminiService.right_bracket after)))
        = json_loads (String GeminiService.left_bracket
                        (middle +:+ String GeminiService.right_bracket "")))
  /\ analyze None = None /\ analyze (Some "") = None
  /\ suggest None = None /\ suggest (Some "") = None
  /\ (forall response,
        (StorageService.contains GeminiService.left_brace response = false ->
         analyze (Some response) = None)
        /\ (StorageService.contains GeminiService.left_bracket response = false ->
            suggest (Some response) = None))
  /\ (forall before after,
        (StorageService.contains GeminiService.left_brace before = false ->
         StorageService.contains GeminiService.right_brace after = false ->
         analyze (Some (before +:+ String GeminiService.left_brace after))
         = None)
        /\ (StorageService.contains GeminiService.left_bracket before = false ->
            StorageService.contains GeminiService.right_bracket after = false ->
            suggest (Some (before +:+ String GeminiService.left_bracket after))
            = None)).
Proof.
  intros analyze suggest. subst analyze suggest. cbn beta.
  unfold GeminiService.analyze_document, GeminiService.suggest_tasks.
  split; [|split; [|split; [|split; [|split; [|split; [|split]]]]]];
    try reflexivity.
  - intros before middle after Hbefore Hafter.
    cbn [truthy_str default]. unfold id. rewrite append_not_empty.
    cbn [negb]. by apply parse_json_found.
  - intros before middle after Hbefore Hafter.
    cbn [truthy_str default]. unfold id. rewrite append_not_empty.
    cbn [negb]. by apply parse_json_found.
  - intros response. cbn [truthy_str default]. unfold id.
    split; intros Hno; destruct (negb _); try done;
      by apply parse_json_no_opening.
  - intros before after. cbn [truthy_str default]. unfold id.
    rewrite !append_not_empty. cbn [negb].
    split; intros Hbefore Hafter; by apply parse_json_no_closing.
Qed.

End json_extraction.

(** ** Further examples on the sample store *)

Lemma lookups_return_or_404_witness :
  primary_keys_unique Samples.store
  /\ ((exists u, u ∈ users Samples.store /\ User.id u = "u-acme"
                 /\ UsersRouter.get_current_user_info Samples.as_acme
                      Samples.store = Ok u)
      \/ UsersRouter.get_current_user_info Samples.as_acme Samples.store
         = Raise (HTTPException HTTP_404_NOT_FOUND "User not found"))
  /\ UsersRouter.get_current_user_info Samples.as_acme Samples.store
     = Ok Samples.acme_admin
  /\ UsersRouter.get_current_user_info Fixtures.acme_member Samples.store
     = Raise (HTTPException HTTP_404_NOT_FOUND "User not found").
Proof.
  split; [exact sample_store_keys|]. split; [|split; reflexivity].
  destruct (lookups_return_or_404 Samples.as_acme Samples.store
              sample_store_keys) as (_ & _ & _ & Hme & _).
  exact Hme.
Defined.

(* At 2024-01-01T10:00Z and for a window of seven days, Acme's upcoming
   tasks in the sample store: the one that is due today and not done. *)
Example list_upcoming_tasks_sample :
  TaskHandlers.list_upcoming_tasks 7 Samples.clock (fun _ => Samples.clock)
    Samples.as_acme Samples.store
  = Ok [ TaskHandlers.mk_with_dday
           (Samples.task "t-1" "org-acme" TaskStatus.TODO
              (Some Samples.due_today_naive))
           (Some "D-Day") false ].
Proof. vm_compute. reflexivity. Qed.

(* The task created with the due date 2024-01-01T18:00+09:00 is listed with
   the due date 18:00 without zone, after the one due at 08:00. *)
Example list_upcoming_tasks_report_sample :
  (fun item => (Task.id (TaskHandlers.task item),
                Task.due_date (TaskHandlers.task item),
                TaskHandlers.dday item))
  <$> default [] (match TaskHandlers.list_upcoming_tasks 7 Samples.clock
                          (fun _ => Samples.clock) Samples.as_acme
                          Fixtures.store_with_report with
                  | Ok items => Some items
                  | Raise _ => None
                  end)
  = [ ("t-1", Some (mk_datetime 738886 8 0 0 0 None), Some "D-Day");
      ("t-4", Some (mk_datetime 738886 18 0 0 0 None), Some "D-Day") ].
Proof. vm_compute. reflexivity. Qed.

(* Acme's admin renames the organization; a member may not. *)
Example update_organization_sample :
  fst (OrganizationHandlers.update_organization Fixtures.rename Samples.as_acme
         Samples.store)
  = Ok (Organization.mk "org-acme" "Acme Ltd" ProfileType.STARTUP)
  /\ OrganizationHandlers.update_organization Fixtures.rename
       Fixtures.acme_member Samples.store
     = (Raise (HTTPException HTTP_403_FORBIDDEN
                 "Only admins can update organization"), Samples.store).
Proof. split; reflexivity. Qed.

(* The extension is what follows the last dot; a name without dot, or that
   ends in a dot, gets none. *)
Example generate_file_key_sample :
  StorageService.generate_file_key "20240102_090000" "0f1e2d3c" "org-acme"
    "report.final.pdf" "documents"
  = "org-acme/documents/20240102_090000_0f1e2d3c.pdf"
  /\ StorageService.generate_file_key "20240102_090000" "0f1e2d3c" "org-acme"
       "README" "documents"
     = "org-acme/documents/20240102_090000_0f1e2d3c"
  /\ StorageService.generate_file_key "20240102_090000" "0f1e2d3c" "org-acme"
       "archive." "documents"
     = "org-acme/documents/20240102_090000_0f1e2d3c".
Proof. repeat split; reflexivity. Qed.

(* The text handed to the parser, with a parser that accepts everything. *)
Example analyze_document_sample :
  GeminiService.analyze_document string Some
    (Some "Here is the result: {score: {max: 100}} as requested.")
  = Some "{score: {max: 100}}"
  /\ GeminiService.analyze_document string Some (Some "} no object {") = None
  /\ GeminiService.suggest_tasks string Some (Some "tasks: [a, b]") = Some "[a, b]".
Proof. repeat split; reflexivity. Qed.

(* head_object answers, or the key is reported absent. *)
Example file_exists_sample :
  StorageService.file_exists Storage.S3Done = Ok true
  /\ StorageService.file_exists (Storage.S3ClientError "404") = Ok false.
Proof. split; reflexivity. Qed.
